(** * Reflexion Interviewer: the interview session state machine and the
      assessment engine, embedded from the Python sources.

    Sources embedded here:
    - [src/models/schemas.py]            (the pydantic data classes)
    - [src/services/interview_agent.py]  (class [InterviewAgent])
    - [src/services/assessment_engine.py] (class [AssessmentEngine])
    - [src/services/nvidia_client.py]    (only the interface of [NVIDIAClient])

    Conventions of the embedding.
    - Python [int] is [Z]; Python [float] is a primitive IEEE-754 binary64
      [float]; Python [str] is [string], one [ascii] per character (code
      points below 256).
    - A method that mutates [self] is a function from the agent to the
      updated agent and an [Outcome]; the updated agent is returned also when
      the method raises, because the mutations made before the [raise] stay
      on the Python object.
    - The text-generation service is a function given to each call: it maps
      the request to an exception or to the extracted [content].
    - [datetime.now()] defaults (message and report timestamps) are not
      represented: no code path embedded here reads them. *)

From Stdlib Require Import ZArith List String Ascii Bool Lia Floats.
From Stdlib Require Import DecimalString.

#[local] Set Warnings "-inexact-float,-register-all".
Import ListNotations.

Local Open Scope string_scope.
Local Open Scope Z_scope.

(** ** Outcomes: a returned value or a raised exception *)

Inductive Exn : Type :=
| IndexError | KeyError | TypeError | ValueError | AttributeError
| OverflowError | ValidationError | PortError.

Inductive Outcome (A : Type) : Type :=
| Returned (a : A)
| Raised (e : Exn).
Arguments Returned {A} a.
Arguments Raised {A} e.

Definition bind {A B : Type} (m : Outcome A) (k : A -> Outcome B) : Outcome B :=
  match m with
  | Returned a => k a
  | Raised e => Raised e
  end.

Notation "x <- m ;; k" := (bind m (fun x => k))
  (at level 61, m at next level, right associativity).

Definition of_option {A : Type} (e : Exn) (o : option A) : Outcome A :=
  match o with
  | Some a => Returned a
  | None => Raised e
  end.

Fixpoint mapM {A B : Type} (f : A -> Outcome B) (l : list A) : Outcome (list B) :=
  match l with
  | [] => Returned []
  | x :: rest =>
      y <- f x ;;
      ys <- mapM f rest ;;
      Returned (y :: ys)
  end.

(** ** Python [str] operations used by the sources *)

Module PyStr.

(** [str.isspace] on code points below 256. *)
Definition is_space (c : ascii) : bool :=
  let n := nat_of_ascii c in
  (((9 <=? n) && (n <=? 13)) || ((28 <=? n) && (n <=? 32))
   || (n =? 133) || (n =? 160))%nat.

(** [str.lower] on one code point below 256. *)
Definition lower_char (c : ascii) : ascii :=
  let n := nat_of_ascii c in
  if (((65 <=? n) && (n <=? 90))
      || ((192 <=? n) && (n <=? 222) && negb (n =? 215)))%nat
  then ascii_of_nat (n + 32) else c.

Fixpoint lower (s : string) : string :=
  match s with
  | EmptyString => EmptyString
  | String c rest => String (lower_char c) (lower rest)
  end.

Fixpoint lstrip (s : string) : string :=
  match s with
  | EmptyString => EmptyString
  | String c rest => if is_space c then lstrip rest else s
  end.

(** [rstrip] keeps a character when it is not a space or when something
    is kept after it. *)
Fixpoint rstrip (s : string) : string :=
  match s with
  | EmptyString => EmptyString
  | String c rest =>
      match rstrip rest with
      | EmptyString => if is_space c then EmptyString else String c EmptyString
      | kept => String c kept
      end
  end.

Definition strip (s : string) : string := rstrip (lstrip s).

Definition len (s : string) : Z := Z.of_nat (String.length s).

Definition first_char (s : string) : option ascii :=
  match s with
  | EmptyString => None
  | String c _ => Some c
  end.

Fixpoint last_char (s : string) : option ascii :=
  match s with
  | EmptyString => None
  | String c EmptyString => Some c
  | String _ rest => last_char rest
  end.

(** [s] neither starts nor ends with white space. *)
Definition no_outer_space (s : string) : Prop :=
  (forall c, first_char s = Some c -> is_space c = false)
  /\ (forall c, last_char s = Some c -> is_space c = false).

(** [s[:n]] for a literal [n >= 0]. *)
Definition slice_to (n : nat) (s : string) : string := String.substring 0 n s.

(** [sub in s]. *)
Fixpoint contains (sub s : string) : bool :=
  String.prefix sub s ||
  match s with
  | EmptyString => false
  | String _ rest => contains sub rest
  end.

(** [s.split(sep)] for a non-empty [sep]: [cur] is the piece being read,
    [skip] counts the characters of a separator still to be dropped. *)
Fixpoint split_from (sep s cur : string) (skip : nat) : list string :=
  match s with
  | EmptyString => [cur]
  | String c rest =>
      match skip with
      | S k => split_from sep rest cur k
      | O =>
          if String.prefix sep s
          then cur :: split_from sep rest EmptyString (String.length sep - 1)
          else split_from sep rest (cur ++ String c EmptyString) O
      end
  end.

Definition split (sep s : string) : list string := split_from sep s EmptyString O.

(** [sep.join(parts)]. *)
Definition join (sep : string) (parts : list string) : string :=
  String.concat sep parts.

(** [str(n)] for an [int]. *)
Definition of_int (n : Z) : string := NilZero.string_of_int (Z.to_int n).

(** The line feed and the double quote, which a literal cannot hold. *)
Definition nl : string := String (ascii_of_nat 10) EmptyString.
Definition dq : string := String (ascii_of_nat 34) EmptyString.

End PyStr.

(** ** [src/models/schemas.py]

    One module per pydantic class, so the fields keep their names.  A class
    whose fields carry constraints has a constructor [new] that checks them
    and raises [ValidationError], as pydantic does on construction. *)

Inductive Role : Type := system | assistant | user.

Inductive Status : Type := active | completed | paused.

Inductive Recommendation : Type := strong_yes | yes | maybe | no | strong_no.

(** [Field(ge=0, le=10)] on a float; both comparisons are false on NaN. *)
Definition ge0_le10 (x : float) : bool :=
  PrimFloat.leb 0%float x && PrimFloat.leb x 10%float.

(** [Field(ge=1, le=4)] on an int. *)
Definition ge1_le4 (n : Z) : bool := (1 <=? n) && (n <=? 4).

Module ResumeSkills.
Record t : Type := {
  languages : list string;
  frameworks : list string;
  tools : list string;
  databases : list string;
  cloud_platforms : list string
}.
End ResumeSkills.

Module WorkExperience.
Record t : Type := {
  company : string;
  position : string;
  duration : string;
  description : string
}.
End WorkExperience.

Module Education.
Record t : Type := {
  institution : string;
  degree : string;
  field : option string;
  graduation_year : option string
}.
End Education.

Module Project.
Record t : Type := {
  name : string;
  description : string;
  technologies : list string
}.
End Project.

Module CandidateProfile.
Record t : Type := {
  name : string;
  email : option string;
  phone : option string;
  summary : option string;
  skills : ResumeSkills.t;
  experience : list WorkExperience.t;
  education : list Education.t;
  projects : list Project.t;
  years_of_experience : option Z
}.
End CandidateProfile.

Module InterviewPhase.
Record t : Type := {
  phase_number : Z;
  name : string;
  description : string;
  question_count : Z;
  max_questions : Z
}.

(** [question_count] defaults to 0. *)
Definition new (phase_number : Z) (name description : string) (max_questions : Z)
  : Outcome t :=
  if ge1_le4 phase_number
  then Returned {| phase_number := phase_number; name := name;
                   description := description; question_count := 0;
                   max_questions := max_questions |}
  else Raised ValidationError.
End InterviewPhase.

Module InterviewMessage.
Record t : Type := {
  role : Role;
  content : string
}.

(** [msg.role.upper()] *)
Definition role_upper (r : Role) : string :=
  match r with
  | system => "SYSTEM"
  | assistant => "ASSISTANT"
  | user => "USER"
  end.
End InterviewMessage.

Module InterviewState.
Record t : Type := {
  session_id : string;
  candidate_profile : CandidateProfile.t;
  job_description : string;
  current_phase : Z;
  total_questions : Z;
  conversation_history : list InterviewMessage.t;
  started_at : Z;
  status : Status
}.

Definition new (session_id : string) (candidate_profile : CandidateProfile.t)
    (job_description : string) (current_phase total_questions : Z)
    (conversation_history : list InterviewMessage.t) (started_at : Z)
    (status : Status) : Outcome t :=
  if ge1_le4 current_phase
  then Returned {| session_id := session_id;
                   candidate_profile := candidate_profile;
                   job_description := job_description;
                   current_phase := current_phase;
                   total_questions := total_questions;
                   conversation_history := conversation_history;
                   started_at := started_at;
                   status := status |}
  else Raised ValidationError.
End InterviewState.

Module PhaseScore.
Record t : Type := {
  phase_number : Z;
  phase_name : string;
  technical_accuracy : float;
  problem_solving : float;
  communication : float;
  depth_of_knowledge : float;
  average_score : float
}.

Definition new (phase_number : Z) (phase_name : string)
    (technical_accuracy problem_solving communication depth_of_knowledge
     average_score : float) : Outcome t :=
  if ge1_le4 phase_number
     && ge0_le10 technical_accuracy && ge0_le10 problem_solving
     && ge0_le10 communication && ge0_le10 depth_of_knowledge
  then Returned {| phase_number := phase_number;
                   phase_name := phase_name;
                   technical_accuracy := technical_accuracy;
                   problem_solving := problem_solving;
                   communication := communication;
                   depth_of_knowledge := depth_of_knowledge;
                   average_score := average_score |}
  else Raised ValidationError.

(** The constraints a constructed [PhaseScore] satisfies. *)
Definition valid (s : t) : bool :=
  ge1_le4 (phase_number s)
  && ge0_le10 (technical_accuracy s) && ge0_le10 (problem_solving s)
  && ge0_le10 (communication s) && ge0_le10 (depth_of_knowledge s).
End PhaseScore.

Module CandidateStrengths.
Record t : Type := {
  top_strengths : list string;
  demonstrated_skills : list string;
  notable_achievements : list string
}.
End CandidateStrengths.

Module CandidateWeaknesses.
Record t : Type := {
  areas_for_improvement : list string;
  missing_skills : list string;
  concerns : list string
}.
End CandidateWeaknesses.

(** What [json.loads] yields: the Python value of a JSON document.  An
    object is kept as its list of items; a key is looked up from the left. *)
Inductive json : Type :=
| JNull
| JBool (b : bool)
| JInt (z : Z)
| JFloat (f : float)
| JStr (s : string)
| JList (items : list json)
| JDict (items : list (string * json)).

Module InterviewReport.
Record t : Type := {
  session_id : string;
  candidate_name : string;
  job_title : string;
  overall_score : float;
  recommendation : Recommendation;
  phase_scores : list PhaseScore.t;
  strengths : CandidateStrengths.t;
  weaknesses : CandidateWeaknesses.t;
  summary : string;
  key_highlights : list string;
  raw_analysis : option json
}.

Definition new (session_id candidate_name job_title : string)
    (overall_score : float) (recommendation : Recommendation)
    (phase_scores : list PhaseScore.t) (strengths : CandidateStrengths.t)
    (weaknesses : CandidateWeaknesses.t) (summary : string)
    (key_highlights : list string) (raw_analysis : option json) : Outcome t :=
  if ge0_le10 overall_score
  then Returned {| session_id := session_id;
                   candidate_name := candidate_name;
                   job_title := job_title;
                   overall_score := overall_score;
                   recommendation := recommendation;
                   phase_scores := phase_scores;
                   strengths := strengths;
                   weaknesses := weaknesses;
                   summary := summary;
                   key_highlights := key_highlights;
                   raw_analysis := raw_analysis |}
  else Raised ValidationError.

(** The constraints a constructed [InterviewReport] satisfies. *)
Definition valid (r : t) : bool :=
  ge0_le10 (overall_score r) && forallb PhaseScore.valid (phase_scores r).
End InterviewReport.

(** ** The interface of [NVIDIAClient] ([src/services/nvidia_client.py])

    A request is what [chat_completion] receives.  A client stands for
    [extract_response_text(await chat_completion(...))]: it raises, or hands
    back the [content] of the first choice, [None] when the service sends
    a null content. *)

Record ChatMessage : Type := {
  chat_role : Role;
  chat_content : string
}.

Record Request : Type := {
  messages : list ChatMessage;
  model_type : string;
  temperature : float
}.

Definition NVIDIAClient : Type := Request -> Outcome (option string).

(** Python list indexing [l[i]], negative indices included. *)
Definition py_index {A : Type} (l : list A) (i : Z) : Outcome A :=
  let n := Z.of_nat (List.length l) in
  if (0 <=? i) && (i <? n) then of_option IndexError (nth_error l (Z.to_nat i))
  else if (- n <=? i) && (i <? 0) then of_option IndexError (nth_error l (Z.to_nat (n + i)))
  else Raised IndexError.

(** Python slice [l[-n:]] for a literal [n > 0]. *)
Definition last_n {A : Type} (n : nat) (l : list A) : list A :=
  skipn (List.length l - n) l.

(** Python truthiness of an [Optional[str]]. *)
Definition truthy (o : option string) : bool :=
  match o with
  | Some (String _ _) => true
  | _ => false
  end.

(** ** [src/services/interview_agent.py] *)

Module InterviewAgent.

(** The attributes of an [InterviewAgent] instance. *)
Record Agent : Type := {
  candidate_profile : CandidateProfile.t;
  job_description : string;
  session_id : string;
  current_phase : Z;
  questions_asked_in_phase : Z;
  total_questions : Z;
  conversation_history : list InterviewMessage.t;
  started_at : Z;
  status : Status;
  system_prompt : string
}.

Definition set_current_phase (p : Z) (self : Agent) : Agent :=
  {| candidate_profile := candidate_profile self;
     job_description := job_description self;
     session_id := session_id self;
     current_phase := p;
     questions_asked_in_phase := questions_asked_in_phase self;
     total_questions := total_questions self;
     conversation_history := conversation_history self;
     started_at := started_at self;
     status := status self;
     system_prompt := system_prompt self |}.

Definition set_questions_asked_in_phase (q : Z) (self : Agent) : Agent :=
  {| candidate_profile := candidate_profile self;
     job_description := job_description self;
     session_id := session_id self;
     current_phase := current_phase self;
     questions_asked_in_phase := q;
     total_questions := total_questions self;
     conversation_history := conversation_history self;
     started_at := started_at self;
     status := status self;
     system_prompt := system_prompt self |}.

Definition set_total_questions (t : Z) (self : Agent) : Agent :=
  {| candidate_profile := candidate_profile self;
     job_description := job_description self;
     session_id := session_id self;
     current_phase := current_phase self;
     questions_asked_in_phase := questions_asked_in_phase self;
     total_questions := t;
     conversation_history := conversation_history self;
     started_at := started_at self;
     status := status self;
     system_prompt := system_prompt self |}.

Definition set_status (st : Status) (self : Agent) : Agent :=
  {| candidate_profile := candidate_profile self;
     job_description := job_description self;
     session_id := session_id self;
     current_phase := current_phase self;
     questions_asked_in_phase := questions_asked_in_phase self;
     total_questions := total_questions self;
     conversation_history := conversation_history self;
     started_at := started_at self;
     status := st;
     system_prompt := system_prompt self |}.

Definition set_system_prompt (p : string) (self : Agent) : Agent :=
  {| candidate_profile := candidate_profile self;
     job_description := job_description self;
     session_id := session_id self;
     current_phase := current_phase self;
     questions_asked_in_phase := questions_asked_in_phase self;
     total_questions := total_questions self;
     conversation_history := conversation_history self;
     started_at := started_at self;
     status := status self;
     system_prompt := p |}.

(** [self.conversation_history.append(InterviewMessage(role=r, content=c))] *)
Definition append_message (r : Role) (c : string) (self : Agent) : Agent :=
  {| candidate_profile := candidate_profile self;
     job_description := job_description self;
     session_id := session_id self;
     current_phase := current_phase self;
     questions_asked_in_phase := questions_asked_in_phase self;
     total_questions := total_questions self;
     conversation_history :=
       conversation_history self ++ [{| InterviewMessage.role := r; InterviewMessage.content := c |}];
     started_at := started_at self;
     status := status self;
     system_prompt := system_prompt self |}.

(** The class attribute [PHASES]. *)
Definition PHASES : list InterviewPhase.t :=
  [ {| InterviewPhase.phase_number := 1; InterviewPhase.name := "Warm-up & Background";
       InterviewPhase.description := "Getting to know the candidate and their background";
       InterviewPhase.question_count := 0; InterviewPhase.max_questions := 3 |};
    {| InterviewPhase.phase_number := 2; InterviewPhase.name := "Technical Depth";
       InterviewPhase.description := "Deep dive into technical skills from the resume";
       InterviewPhase.question_count := 0; InterviewPhase.max_questions := 6 |};
    {| InterviewPhase.phase_number := 3; InterviewPhase.name := "Problem-Solving Scenario";
       InterviewPhase.description := "Real-world problem-solving and system design";
       InterviewPhase.question_count := 0; InterviewPhase.max_questions := 4 |};
    {| InterviewPhase.phase_number := 4; InterviewPhase.name := "Behavioral & Wrap-up";
       InterviewPhase.description := "Soft skills, behavioral questions, and conclusion";
       InterviewPhase.question_count := 0; InterviewPhase.max_questions := 3 |} ].

Definition _get_all_skills (self : Agent) : list string :=
  let skills := CandidateProfile.skills (candidate_profile self) in
  ResumeSkills.languages skills ++ ResumeSkills.frameworks skills
  ++ ResumeSkills.tools skills ++ ResumeSkills.databases skills
  ++ ResumeSkills.cloud_platforms skills.

(** [years_of_experience or 'Not specified'], formatted. *)
Definition experience_text (y : option Z) : string :=
  match y with
  | Some n => if n =? 0 then "Not specified" else PyStr.of_int n
  | None => "Not specified"
  end.

(** The f-string of [_build_system_prompt]; it ends with a line feed. *)
Definition system_prompt_text (self : Agent) : string :=
  PyStr.join PyStr.nl
    [ "You are A.I. Harrison, a professional and friendly senior software engineering interviewer conducting a technical interview.";
      "";
      "Your role:";
      "- Conduct a thorough but respectful technical interview";
      "- Ask probing questions based on the candidate's resume";
      "- Adapt your questions based on their answers";
      "- Maintain a professional yet conversational tone";
      "- Provide constructive feedback when appropriate";
      "";
      "Candidate Information:";
      "Name: " ++ CandidateProfile.name (candidate_profile self);
      "Experience: "
        ++ experience_text (CandidateProfile.years_of_experience (candidate_profile self))
        ++ " years";
      "Skills: " ++ PyStr.join ", " (_get_all_skills self);
      "";
      "Job Description:";
      PyStr.slice_to 1000 (job_description self);
      "";
      "Interview Structure:";
      "- Phase 1: Warm-up & Background (get to know the candidate)";
      "- Phase 2: Technical Depth (deep dive into resume skills)";
      "- Phase 3: Problem-Solving (scenarios and system design)";
      "- Phase 4: Behavioral & Wrap-up (soft skills and conclusion)";
      "";
      "Guidelines:";
      "- Keep questions relevant to the job and candidate's background";
      "- Ask follow-up questions based on their answers";
      "- Encourage detailed explanations";
      "- Be supportive and professional";
      "- Wrap up gracefully when concluding the interview";
      "";
      "Important: You are currently in Phase "
        ++ PyStr.of_int (current_phase self)
        ++ " of the interview. Stay focused on the current phase's objectives.";
      "" ].

Definition _build_system_prompt (self : Agent) : Agent :=
  set_system_prompt (system_prompt_text self) self.

(** [__init__]: the fresh uuid and the clock reading come from outside. *)
Definition init (candidate_profile : CandidateProfile.t) (job_description : string)
    (uuid : string) (now : Z) : Agent :=
  _build_system_prompt
    {| candidate_profile := candidate_profile;
       job_description := job_description;
       session_id := uuid;
       current_phase := 1;
       questions_asked_in_phase := 0;
       total_questions := 0;
       conversation_history := [];
       started_at := now;
       status := active;
       system_prompt := "" |}.

Definition opening_template (self : Agent) : string :=
  PyStr.join PyStr.nl
    [ "Hello " ++ CandidateProfile.name (candidate_profile self)
        ++ "! I'm A.I. Harrison, and I'll be conducting your technical interview today.";
      "";
      "I've reviewed your resume and I'm excited to learn more about your experience with "
        ++ PyStr.join ", " (firstn 5 (_get_all_skills self)) ++ ".";
      "";
      "Let's start with a warm-up question: Tell me a bit about yourself and your background in software engineering. What drew you to this field?" ].

Definition opening_messages (self : Agent) : list ChatMessage :=
  [ {| chat_role := system; chat_content := system_prompt self |};
    {| chat_role := assistant; chat_content := opening_template self |} ].

(** [InterviewMessage(role=r, content=c)] with [c] an [Optional[str]]:
    pydantic refuses [None] for the [str] field. *)
Definition record_message (r : Role) (c : option string) (self : Agent)
  : Outcome Agent :=
  match c with
  | Some text => Returned (append_message r text self)
  | None => Raised ValidationError
  end.

Definition generate_opening (client : NVIDIAClient) (self : Agent)
  : Agent * Outcome (option string) :=
  match client {| messages := opening_messages self;
                  model_type := "super";
                  temperature := 0.8 |} with
  | Raised e => (self, Raised e)
  | Returned opening =>
      match record_message assistant opening self with
      | Raised e => (self, Raised e)
      | Returned self' => (self', Returned opening)
      end
  end.

(** [_should_advance_phase] *)
Definition _should_advance_phase (self : Agent) : Outcome bool :=
  current_phase_def <- py_index PHASES (current_phase self - 1) ;;
  Returned (InterviewPhase.max_questions current_phase_def <=? questions_asked_in_phase self).

Definition closing : string :=
  PyStr.join PyStr.nl
    [ "Thank you for taking the time to interview with us today! You've provided great insights into your technical background and problem-solving approach.";
      "";
      "The interview process is now complete. We'll review your responses and be in touch soon. Do you have any questions for me about the position or the team?" ].

(** [_generate_closing] *)
Definition _generate_closing (self : Agent) : Agent * Outcome (option string) :=
  (append_message assistant closing self, Returned (Some closing)).

(** The [messages] list built by [_generate_next_message] (lines 222-227). *)
Definition next_message_request (self : Agent) : list ChatMessage :=
  {| chat_role := system; chat_content := system_prompt self |}
  :: map (fun msg => {| chat_role := InterviewMessage.role msg;
                         chat_content := InterviewMessage.content msg |})
         (last_n 10 (conversation_history self)).

(** [_generate_next_message] *)
Definition _generate_next_message (client : NVIDIAClient) (self : Agent)
  : Outcome (option string) :=
  client {| messages := next_message_request self;
            model_type := "super";
            temperature := 0.8 |}.

(** [process_candidate_response], lines 191-201: the phase check.  It
    either hands the agent on to the generation step or ends the call. *)
Inductive PhaseCheck : Type :=
| Continue (self : Agent)
| Finished (result : Agent * Outcome (option string)).

Definition check_phase (self : Agent) : PhaseCheck :=
  match _should_advance_phase self with
  | Raised e => Finished (self, Raised e)
  | Returned true =>
      if current_phase self <? 4 then
        let self := set_current_phase (current_phase self + 1) self in
        let self := set_questions_asked_in_phase 0 self in
        Continue (_build_system_prompt self)
      else
        let self := set_status completed self in
        Finished (_generate_closing self)
  | Returned false => Continue self
  end.

(** [process_candidate_response], lines 203-213: generate and record. *)
Definition generate_and_record (client : NVIDIAClient) (self : Agent)
  : Agent * Outcome (option string) :=
  match _generate_next_message client self with
  | Raised e => (self, Raised e)
  | Returned next_message =>
      match next_message with
      | Some (String c rest) =>
          let self :=
            set_questions_asked_in_phase (questions_asked_in_phase self + 1) self in
          let self := set_total_questions (total_questions self + 1) self in
          (append_message assistant (String c rest) self, Returned next_message)
      | _ => (self, Returned next_message)
      end
  end.

(** [process_candidate_response]; the [except] clause logs and re-raises. *)
Definition process_candidate_response (client : NVIDIAClient) (self : Agent)
    (candidate_message : string) : Agent * Outcome (option string) :=
  let self := append_message user candidate_message self in
  match check_phase self with
  | Finished result => result
  | Continue self => generate_and_record client self
  end.

(** [get_interview_state] *)
Definition get_interview_state (self : Agent) : Outcome InterviewState.t :=
  _ <- py_index PHASES (current_phase self - 1) ;;
  InterviewState.new (session_id self) (candidate_profile self)
    (job_description self) (current_phase self) (total_questions self)
    (conversation_history self) (started_at self) (status self).

End InterviewAgent.

(** ** Python operations on JSON values *)

Module PyJson.

Fixpoint lookup (key : string) (items : list (string * json)) : option json :=
  match items with
  | [] => None
  | (k, v) :: rest => if String.eqb k key then Some v else lookup key rest
  end.

(** [x[key]] with a [str] key. *)
Definition getitem (x : json) (key : string) : Outcome json :=
  match x with
  | JDict items => of_option KeyError (lookup key items)
  | _ => Raised TypeError
  end.

(** [x.get(key, default)] *)
Definition get (x : json) (key : string) (default : json) : Outcome json :=
  match x with
  | JDict items =>
      Returned match lookup key items with Some v => v | None => default end
  | _ => Raised AttributeError
  end.

Fixpoint chars (s : string) : list json :=
  match s with
  | EmptyString => []
  | String c rest => JStr (String c EmptyString) :: chars rest
  end.

(** The elements a [for] loop over [x] visits. *)
Definition iter (x : json) : Outcome (list json) :=
  match x with
  | JList items => Returned items
  | JDict items => Returned (map (fun kv => JStr (fst kv)) items)
  | JStr s => Returned (chars s)
  | _ => Raised TypeError
  end.

(** [float(n)] for an [int]: the nearest binary64 value, ties to even. *)
Definition float_of_int (n : Z) : Outcome float :=
  let f := SF2Prim (SpecFloat.binary_normalize 53 1024 n 0 false) in
  if PrimFloat.is_infinity f then Raised OverflowError else Returned f.

End PyJson.

(** ** [src/services/assessment_engine.py] *)

Module AssessmentEngine.

(** [enumerate(l)] *)
Definition enumerate {A : Type} (l : list A) : list (Z * A) :=
  combine (map Z.of_nat (seq 0 (List.length l))) l.

(** [assessment_prompt_template.format(...)] *)
Definition q (s : string) : string := PyStr.dq ++ s ++ PyStr.dq.

Definition format_assessment_prompt (job_description candidate_name
    phase_breakdown message_count transcript : string) : string :=
  PyStr.join PyStr.nl
    [ "You are an expert hiring manager analyzing a technical interview transcript.";
      "";
      "Analyze the candidate's responses throughout the interview and provide a comprehensive assessment.";
      "";
      "Interview Context:";
      "- Job Description: " ++ job_description;
      "- Candidate: " ++ candidate_name;
      "- Phase Breakdown:";
      phase_breakdown;
      "";
      "Interview Transcript (last " ++ message_count ++ " messages):";
      transcript;
      "";
      "Provide your assessment as JSON with this structure:";
      "{";
      "    " ++ q "overall_score" ++ ": <float 0-10>,";
      "    " ++ q "recommendation" ++ ": " ++ q "strong_yes" ++ " | " ++ q "yes"
        ++ " | " ++ q "maybe" ++ " | " ++ q "no" ++ " | " ++ q "strong_no" ++ ",";
      "    " ++ q "phase_scores" ++ ": [";
      "        {";
      "            " ++ q "phase_number" ++ ": 1,";
      "            " ++ q "phase_name" ++ ": " ++ q "Warm-up & Background" ++ ",";
      "            " ++ q "technical_accuracy" ++ ": <float 0-10>,";
      "            " ++ q "problem_solving" ++ ": <float 0-10>,";
      "            " ++ q "communication" ++ ": <float 0-10>,";
      "            " ++ q "depth_of_knowledge" ++ ": <float 0-10>";
      "        },";
      "        {... for each phase}";
      "    ],";
      "    " ++ q "strengths" ++ ": {";
      "        " ++ q "top_strengths" ++ ": [" ++ q "strength1" ++ ", "
        ++ q "strength2" ++ ", ...],";
      "        " ++ q "demonstrated_skills" ++ ": [" ++ q "skill1" ++ ", "
        ++ q "skill2" ++ ", ...],";
      "        " ++ q "notable_achievements" ++ ": [" ++ q "achievement1" ++ ", ...]";
      "    },";
      "    " ++ q "weaknesses" ++ ": {";
      "        " ++ q "areas_for_improvement" ++ ": [" ++ q "area1" ++ ", "
        ++ q "area2" ++ ", ...],";
      "        " ++ q "missing_skills" ++ ": [" ++ q "skill1" ++ ", ...],";
      "        " ++ q "concerns" ++ ": [" ++ q "concern1" ++ ", ...]";
      "    },";
      "    " ++ q "summary" ++ ": " ++ q "Overall assessment summary paragraph" ++ ",";
      "    " ++ q "key_highlights" ++ ": [" ++ q "highlight1" ++ ", "
        ++ q "highlight2" ++ ", ...]";
      "}";
      "";
      "Focus on:";
      "- Technical accuracy and depth of knowledge";
      "- Problem-solving approach and reasoning";
      "- Communication clarity and articulation";
      "- Alignment with job requirements";
      "- Demonstrated skills vs. listed skills" ].

(** [_build_assessment_prompt] *)
Definition _build_assessment_prompt (interview_state : InterviewState.t) : string :=
  let recent_messages :=
    last_n 20 (InterviewState.conversation_history interview_state) in
  let transcript :=
    PyStr.join PyStr.nl
      (map (fun msg => InterviewMessage.role_upper (InterviewMessage.role msg)
                       ++ ": " ++ InterviewMessage.content msg)
           recent_messages) in
  let phase_breakdown :=
    PyStr.join PyStr.nl
      (map (fun ip => "- Phase " ++ PyStr.of_int (fst ip + 1) ++ ": "
                      ++ InterviewPhase.name (snd ip) ++ " - "
                      ++ InterviewPhase.description (snd ip))
           (enumerate InterviewAgent.PHASES)) in
  format_assessment_prompt
    (PyStr.slice_to 500 (InterviewState.job_description interview_state))
    (CandidateProfile.name (InterviewState.candidate_profile interview_state))
    phase_breakdown
    (PyStr.of_int (Z.of_nat (List.length recent_messages)))
    (PyStr.slice_to 3000 transcript).

(** [_extract_job_title] *)
Definition keywords : list string :=
  ["engineer"; "developer"; "software"; "architect"; "scientist"].

Definition _extract_job_title (job_description : string) : string :=
  match PyStr.split PyStr.nl job_description with
  | [] => "Software Engineer"
  | line :: _ =>
      let first_line := PyStr.strip line in
      if (PyStr.len first_line <? 100)
         && existsb (fun keyword => PyStr.contains keyword (PyStr.lower first_line))
                    keywords
      then first_line
      else "Software Engineer"
  end.

(** [line] is the first line of [text]: it holds no line feed, and [text]
    is [line] alone or [line], a line feed and anything. *)
Definition first_line_of (text line : string) : Prop :=
  PyStr.contains PyStr.nl line = false
  /\ (text = line \/ exists rest, text = line ++ PyStr.nl ++ rest).

(** [sub] occurs in [s]. *)
Definition occurs (sub s : string) : Prop :=
  exists before after, s = before ++ sub ++ after.

(** The stripped first line passes the test of [_extract_job_title]. *)
Definition names_a_role (first_line : string) : Prop :=
  PyStr.len first_line < 100
  /\ exists keyword,
       In keyword keywords /\ occurs keyword (PyStr.lower first_line).

(** [_generate_fallback_report] *)
Definition _generate_fallback_report (interview_state : InterviewState.t)
  : Outcome InterviewReport.t :=
  phase_scores <-
    mapM (fun ip => PhaseScore.new (fst ip + 1) (InterviewPhase.name (snd ip))
                      5 5 5 5 5)
         (enumerate InterviewAgent.PHASES) ;;
  InterviewReport.new
    (InterviewState.session_id interview_state)
    (CandidateProfile.name (InterviewState.candidate_profile interview_state))
    (_extract_job_title (InterviewState.job_description interview_state))
    5 maybe phase_scores
    {| CandidateStrengths.top_strengths := ["Completed interview successfully"];
       CandidateStrengths.demonstrated_skills := [];
       CandidateStrengths.notable_achievements := [] |}
    {| CandidateWeaknesses.areas_for_improvement := ["Assessment incomplete"];
       CandidateWeaknesses.missing_skills := [];
       CandidateWeaknesses.concerns := ["AI assessment generation failed"] |}
    "Assessment report generation encountered an error. Manual review recommended."
    ["Interview session completed"]
    None.

(** The [Literal] of [InterviewReport.recommendation]. *)
Definition recommendation_of_json (x : json) : Outcome Recommendation :=
  match x with
  | JStr s =>
      if String.eqb s "strong_yes" then Returned strong_yes
      else if String.eqb s "yes" then Returned yes
      else if String.eqb s "maybe" then Returned maybe
      else if String.eqb s "no" then Returned no
      else if String.eqb s "strong_no" then Returned strong_no
      else Raised ValidationError
  | _ => Raised ValidationError
  end.

(** The neutral report: 5.0 overall, [maybe], and one entry per phase of
    the catalogue with every score 5.0. *)
Definition neutral_score (phase : InterviewPhase.t) (score : PhaseScore.t) : Prop :=
  PhaseScore.phase_number score = InterviewPhase.phase_number phase
  /\ PhaseScore.phase_name score = InterviewPhase.name phase
  /\ PhaseScore.technical_accuracy score = 5%float
  /\ PhaseScore.problem_solving score = 5%float
  /\ PhaseScore.communication score = 5%float
  /\ PhaseScore.depth_of_knowledge score = 5%float
  /\ PhaseScore.average_score score = 5%float.

Definition neutral_fallback (report : InterviewReport.t) : Prop :=
  InterviewReport.overall_score report = 5%float
  /\ InterviewReport.recommendation report = maybe
  /\ List.length (InterviewReport.phase_scores report) = 4%nat
  /\ Forall2 neutral_score InterviewAgent.PHASES
              (InterviewReport.phase_scores report).

Section Engine.

(** Library functions the engine calls; they are not part of the
    repository, so the engine is embedded over any behaviour of them.
    [None] stands for the library's exception. *)

(** [json.loads]; [None] is [JSONDecodeError]. *)
Variable json_loads : string -> option json.
(** [float(s)] on a [str]; [None] is [ValueError]. *)
Variable float_of_str : string -> option float.
(** pydantic's coercion of an input to an [int], [str], [float] or
    [List[str]] field; [None] is [ValidationError]. *)
Variable validate_int : json -> option Z.
Variable validate_str : json -> option string.
Variable validate_float : json -> option float.
Variable validate_str_list : json -> option (list string).

(** [float(x)] *)
Definition py_float (x : json) : Outcome float :=
  match x with
  | JInt n => PyJson.float_of_int n
  | JFloat f => Returned f
  | JBool b => Returned (if b then 1 else 0)%float
  | JStr s => of_option ValueError (float_of_str s)
  | _ => Raised TypeError
  end.

(** [_parse_assessment_response]; [response_text] is what
    [extract_response_text] gave. *)
Definition strip_fence (fence response_text : string) : Outcome string :=
  after <- py_index (PyStr.split fence response_text) 1 ;;
  inside <- py_index (PyStr.split "```" after) 0 ;;
  Returned (PyStr.strip inside).

Definition _parse_assessment_response (response_text : option string)
  : Outcome json :=
  match response_text with
  | None => Raised TypeError
  | Some response_text =>
      response_text <-
        (if PyStr.contains "```json" response_text
         then strip_fence "```json" response_text
         else if PyStr.contains "```" response_text
         then strip_fence "```" response_text
         else Returned response_text) ;;
      of_option ValueError (json_loads response_text)
  end.

(** [float(phase[key])] *)
Definition sub_score (phase : json) (key : string) : Outcome float :=
  v <- PyJson.getitem phase key ;;
  py_float v.

(** One turn of the loop of [_parse_phase_scores]. *)
Definition parse_phase_score (phase : json) : Outcome PhaseScore.t :=
  phase_number <- PyJson.getitem phase "phase_number" ;;
  phase_name <- PyJson.getitem phase "phase_name" ;;
  technical_accuracy <- sub_score phase "technical_accuracy" ;;
  problem_solving <- sub_score phase "problem_solving" ;;
  communication <- sub_score phase "communication" ;;
  depth_of_knowledge <- sub_score phase "depth_of_knowledge" ;;
  a <- sub_score phase "technical_accuracy" ;;
  b <- sub_score phase "problem_solving" ;;
  c <- sub_score phase "communication" ;;
  d <- sub_score phase "depth_of_knowledge" ;;
  let average_score := ((a + b + c + d) / 4)%float in
  phase_number <- of_option ValidationError (validate_int phase_number) ;;
  phase_name <- of_option ValidationError (validate_str phase_name) ;;
  PhaseScore.new phase_number phase_name technical_accuracy problem_solving
    communication depth_of_knowledge average_score.

(** [_parse_phase_scores] *)
Definition _parse_phase_scores (phase_data : json) : Outcome (list PhaseScore.t) :=
  phases <- PyJson.iter phase_data ;;
  mapM parse_phase_score phases.

(** [CandidateStrengths] and [CandidateWeaknesses] built by unpacking
    the dictionary [d] into keyword arguments: [d] must be a mapping; a missing required field is a [ValidationError], a
    missing optional one takes its default, other keys are ignored. *)
Definition required_str_list (items : list (string * json)) (key : string)
  : Outcome (list string) :=
  v <- of_option ValidationError (PyJson.lookup key items) ;;
  of_option ValidationError (validate_str_list v).

Definition optional_str_list (items : list (string * json)) (key : string)
  : Outcome (list string) :=
  match PyJson.lookup key items with
  | None => Returned []
  | Some v => of_option ValidationError (validate_str_list v)
  end.

Definition new_strengths (d : json) : Outcome CandidateStrengths.t :=
  match d with
  | JDict items =>
      top_strengths <- required_str_list items "top_strengths" ;;
      demonstrated_skills <- required_str_list items "demonstrated_skills" ;;
      notable_achievements <- optional_str_list items "notable_achievements" ;;
      Returned {| CandidateStrengths.top_strengths := top_strengths;
                  CandidateStrengths.demonstrated_skills := demonstrated_skills;
                  CandidateStrengths.notable_achievements := notable_achievements |}
  | _ => Raised TypeError
  end.

Definition new_weaknesses (d : json) : Outcome CandidateWeaknesses.t :=
  match d with
  | JDict items =>
      areas_for_improvement <- required_str_list items "areas_for_improvement" ;;
      missing_skills <- optional_str_list items "missing_skills" ;;
      concerns <- optional_str_list items "concerns" ;;
      Returned {| CandidateWeaknesses.areas_for_improvement := areas_for_improvement;
                  CandidateWeaknesses.missing_skills := missing_skills;
                  CandidateWeaknesses.concerns := concerns |}
  | _ => Raised TypeError
  end.

(** The request of [generate_report] (lines 98-110). *)
Definition assessment_request (interview_state : InterviewState.t) : Request :=
  {| messages :=
       [ {| chat_role := system;
            chat_content :=
              "You are an expert technical interviewer and hiring manager." |};
         {| chat_role := user;
            chat_content := _build_assessment_prompt interview_state |} ];
     model_type := "super";
     temperature := 0.3 |}.

(** The body of the [try] of [generate_report] (lines 95-131). *)
Definition generate_report_try (client : NVIDIAClient)
    (interview_state : InterviewState.t) : Outcome InterviewReport.t :=
  response <- client (assessment_request interview_state) ;;
  assessment_data <- _parse_assessment_response response ;;
  overall_score <- PyJson.getitem assessment_data "overall_score" ;;
  recommendation <- PyJson.getitem assessment_data "recommendation" ;;
  phase_data <- PyJson.get assessment_data "phase_scores" (JList []) ;;
  phase_scores <- _parse_phase_scores phase_data ;;
  d <- PyJson.getitem assessment_data "strengths" ;;
  strengths <- new_strengths d ;;
  d <- PyJson.getitem assessment_data "weaknesses" ;;
  weaknesses <- new_weaknesses d ;;
  summary <- PyJson.getitem assessment_data "summary" ;;
  key_highlights <- PyJson.getitem assessment_data "key_highlights" ;;
  overall_score <- of_option ValidationError (validate_float overall_score) ;;
  recommendation <- recommendation_of_json recommendation ;;
  summary <- of_option ValidationError (validate_str summary) ;;
  key_highlights <- of_option ValidationError (validate_str_list key_highlights) ;;
  InterviewReport.new
    (InterviewState.session_id interview_state)
    (CandidateProfile.name (InterviewState.candidate_profile interview_state))
    (_extract_job_title (InterviewState.job_description interview_state))
    overall_score recommendation phase_scores strengths weaknesses
    summary key_highlights (Some assessment_data).

(** [generate_report]: [except Exception] turns every exception of the
    body into the fallback report.  [candidate_skills] is not read. *)
Definition generate_report (client : NVIDIAClient)
    (interview_state : InterviewState.t) (candidate_skills : list string)
  : Outcome InterviewReport.t :=
  match generate_report_try client interview_state with
  | Returned report => Returned report
  | Raised _ => _generate_fallback_report interview_state
  end.

End Engine.

End AssessmentEngine.

(** ** Sessions: what a caller observes over a sequence of calls *)

Module Session.

Import InterviewAgent.

(** A service that answers every request with a non-empty message. *)
Definition answers (client : NVIDIAClient) : Prop :=
  forall request, exists c rest, client request = Returned (Some (String c rest)).

(** What [send_interview_message] reports after a call. *)
Record Observation : Type := {
  obs_phase : Z;
  obs_status : Status;
  obs_total_questions : Z;
  obs_result : Outcome (option string)
}.

Definition observe (result : Agent * Outcome (option string)) : Observation :=
  {| obs_phase := current_phase (fst result);
     obs_status := status (fst result);
     obs_total_questions := total_questions (fst result);
     obs_result := snd result |}.

(** [process_candidate_response] called once per turn, each turn with its
    own service behaviour and candidate text. *)
Fixpoint run (self : Agent) (turns : list (NVIDIAClient * string))
  : Agent * list Observation :=
  match turns with
  | [] => (self, [])
  | (client, candidate_message) :: rest =>
      let result := process_candidate_response client self candidate_message in
      let (final, observations) := run (fst result) rest in
      (final, observe result :: observations)
  end.

(** The states a session can be in: a fresh agent, then any number of
    [generate_opening] and [process_candidate_response] calls, whatever
    the service does and whatever the candidate sends. *)
Inductive reachable : Agent -> Prop :=
| reach_init : forall candidate_profile job_description uuid now,
    reachable (init candidate_profile job_description uuid now)
| reach_opening : forall self client,
    reachable self -> reachable (fst (generate_opening client self))
| reach_process : forall self client candidate_message,
    reachable self ->
    reachable (fst (process_candidate_response client self candidate_message)).

(** [PHASES[phase - 1].max_questions]; 0 where the lookup raises. *)
Definition quota_of (phase : Z) : Z :=
  match py_index PHASES (phase - 1) with
  | Returned definition => InterviewPhase.max_questions definition
  | Raised _ => 0
  end.

(** The quota of the phase an agent is in. *)
Definition quota (self : Agent) : Z := quota_of (current_phase self).

(** The four outcomes of the phase check, by the branch taken. *)
Inductive check_phase_view (self : Agent) : PhaseCheck -> Prop :=
| view_raise : forall e,
    _should_advance_phase self = Raised e ->
    check_phase_view self (Finished (self, Raised e))
| view_stay :
    _should_advance_phase self = Returned false ->
    check_phase_view self (Continue self)
| view_advance :
    _should_advance_phase self = Returned true ->
    current_phase self < 4 ->
    check_phase_view self
      (Continue (_build_system_prompt
                   (set_questions_asked_in_phase 0
                      (set_current_phase (current_phase self + 1) self))))
| view_close :
    _should_advance_phase self = Returned true ->
    4 <= current_phase self ->
    check_phase_view self (Finished (_generate_closing (set_status completed self))).

(** What holds of every state a session can be in. *)
Definition invariant (self : Agent) : Prop :=
  1 <= current_phase self <= 4
  /\ 0 <= questions_asked_in_phase self <= quota self
  /\ 0 <= total_questions self
  /\ (status self = completed ->
      current_phase self = 4 /\ questions_asked_in_phase self = 3)
  /\ status self <> paused.

(** The counters of an agent, and how a turn the service answers with a
    non-empty message moves them. *)
Definition Counters : Type := (Z * Z * Z * Status)%type.

Definition counters (self : Agent) : Counters :=
  (current_phase self, questions_asked_in_phase self, total_questions self,
   status self).

Definition answered (c : Counters) : Counters :=
  let '(phase, asked, total, st) := c in
  if quota_of phase <=? asked
  then if phase <? 4 then (phase + 1, 1, total + 1, st)
       else (phase, asked, total, completed)
  else (phase, asked + 1, total + 1, st).

(** What the caller sees of the counters. *)
Definition shown (c : Counters) : Z * Z * Status :=
  let '(phase, _, total, st) := c in (phase, total, st).

Fixpoint answered_trace (c : Counters) (n : nat) : list Counters :=
  match n with
  | O => []
  | S m => answered c :: answered_trace (answered c) m
  end.

End Session.

(** ** Concrete sessions and services, for the worked instances *)

Module Example.

Import InterviewAgent Session.

Definition jane : CandidateProfile.t :=
  {| CandidateProfile.name := "Jane Doe";
     CandidateProfile.email := None;
     CandidateProfile.phone := None;
     CandidateProfile.summary := None;
     CandidateProfile.skills :=
       {| ResumeSkills.languages := ["Python"];
          ResumeSkills.frameworks := ["FastAPI"];
          ResumeSkills.tools := [];
          ResumeSkills.databases := [];
          ResumeSkills.cloud_platforms := [] |};
     CandidateProfile.experience := [];
     CandidateProfile.education := [];
     CandidateProfile.projects := [];
     CandidateProfile.years_of_experience := Some 5 |}.

Definition fresh : Agent :=
  init jane ("Backend Engineer" ++ PyStr.nl ++ "...") "session-1" 0.

(** A service that always answers with the same question. *)
Definition asking : NVIDIAClient := fun _ => Returned (Some "Next question?").

(** A service that always fails. *)
Definition failing : NVIDIAClient := fun _ => Raised PortError.

Definition turns (n : nat) : list (NVIDIAClient * string) :=
  repeat (asking, "My answer.") n.

(** The agent after [n] answered turns. *)
Definition after_turns (n : nat) : Agent := fst (run fresh (turns n)).

(** The agent the phase check hands to the generation step. *)
Definition handed_over (self : Agent) (candidate_message : string) : Agent :=
  match check_phase (append_message user candidate_message self) with
  | Continue advanced => advanced
  | Finished result => fst result
  end.

(** A session with 29 recorded messages: the opening and 14 turns. *)
Definition long_session : Agent :=
  fst (run (fst (generate_opening asking fresh)) (turns 14)).

(** Validators that accept a value of the field's own type only. *)
Definition strict_int (x : json) : option Z :=
  match x with JInt n => Some n | _ => None end.

Definition strict_str (x : json) : option string :=
  match x with JStr s => Some s | _ => None end.

Definition strict_float (x : json) : option float :=
  match x with JFloat f => Some f | _ => None end.

Definition strict_str_list (x : json) : option (list string) :=
  match x with
  | JList items =>
      fold_right (fun item acc =>
                    match strict_str item, acc with
                    | Some s, Some l => Some (s :: l)
                    | _, _ => None
                    end)
                 (Some []) items
  | _ => None
  end.

(** A parser that rejects every document, and one that knows one. *)
Definition no_json : string -> option json := fun _ => None.

Definition no_float : string -> option float := fun _ => None.

(** The scores of one phase as the model may send them, with an average
    of its own that is not the mean. *)
Definition model_items : list (string * json) :=
  [ ("phase_number", JInt 2);
    ("phase_name", JStr "Technical Depth");
    ("average_score", JFloat 1);
    ("technical_accuracy", JFloat 8);
    ("problem_solving", JFloat 7);
    ("communication", JFloat 9);
    ("depth_of_knowledge", JFloat 6) ].

(** An assessment as the model is asked to send it, a parser that reads
    every text as that assessment, and one that hands the text back. *)
Definition assessment : json :=
  JDict [ ("overall_score", JFloat 8.5);
          ("recommendation", JStr "yes");
          ("phase_scores", JList [JDict model_items]);
          ("strengths",
           JDict [ ("top_strengths", JList [JStr "Clear explanations"]);
                   ("demonstrated_skills", JList [JStr "Python"]) ]);
          ("weaknesses", JDict [ ("areas_for_improvement", JList []) ]);
          ("summary", JStr "A solid interview.");
          ("key_highlights", JList []) ].

Definition one_json : string -> option json := fun _ => Some assessment.

Definition echo_json : string -> option json := fun text => Some (JStr text).

(** A service that answers every request with [text]. *)
Definition replying (text : string) : NVIDIAClient :=
  fun _ => Returned (Some text).

Definition state_of (self : Agent) : InterviewState.t :=
  {| InterviewState.session_id := session_id self;
     InterviewState.candidate_profile := candidate_profile self;
     InterviewState.job_description := job_description self;
     InterviewState.current_phase := current_phase self;
     InterviewState.total_questions := total_questions self;
     InterviewState.conversation_history := conversation_history self;
     InterviewState.started_at := started_at self;
     InterviewState.status := status self |}.

End Example.

(** ** Progress of a session *)

Module Progress.

Import InterviewAgent Session.

(** The questions of the phases before [phase], from the catalogue. *)
Definition asked_before (phase : Z) : Z :=
  fold_right Z.add 0
    (map InterviewPhase.max_questions (firstn (Z.to_nat (phase - 1)) PHASES)).

(** The questions of the whole catalogue. *)
Definition all_questions : Z :=
  fold_right Z.add 0 (map InterviewPhase.max_questions PHASES).

(** [old] is the beginning of [new]. *)
Definition extends {A : Type} (old new : list A) : Prop :=
  exists added, new = (old ++ added)%list.

(** Two agents of one session: what no operation writes. *)
Definition same_session (a b : Agent) : Prop :=
  session_id a = session_id b
  /\ candidate_profile a = candidate_profile b
  /\ job_description a = job_description b
  /\ started_at a = started_at b.

(** One call, by the branch of the phase check: the lookup of the phase
    raised, the interview was closed, or the generation step ran on the
    agent the check handed over. *)
Inductive process_view (client : NVIDIAClient) (self : Agent)
    (candidate_message : string) : Agent * Outcome (option string) -> Prop :=
| pv_raise : forall e,
    _should_advance_phase self = Raised e ->
    process_view client self candidate_message
      (append_message user candidate_message self, Raised e)
| pv_close :
    _should_advance_phase self = Returned true ->
    4 <= current_phase self ->
    process_view client self candidate_message
      (append_message assistant closing
         (set_status completed (append_message user candidate_message self)),
       Returned (Some closing))
| pv_generate : forall advanced,
    check_phase (append_message user candidate_message self) = Continue advanced ->
    process_view client self candidate_message
      (generate_and_record client advanced).

End Progress.

(** ** Fenced text *)

Module Fence.

(** [s] holds no backtick. *)
Definition plain (s : string) : Prop := PyStr.contains "`" s = false.

(** The first line of any text: what precedes its first line feed. *)
Fixpoint first_line (text : string) : string :=
  match text with
  | EmptyString => EmptyString
  | String c rest =>
      if Ascii.eqb c (ascii_of_nat 10) then EmptyString
      else String c (first_line rest)
  end.

(** Every character of [s] satisfies [P]. *)
Fixpoint all_chars (P : ascii -> Prop) (s : string) : Prop :=
  match s with
  | EmptyString => True
  | String c rest => P c /\ all_chars P rest
  end.

End Fence.

(** ** [src/config/nvidia_config.py] *)

Module NVIDIAConfig.

Record t : Type := {
  api_key : string;
  nemotron_super_endpoint : string;
  nemotron_vl_endpoint : string;
  nemotron_super_model : string;
  nemotron_vl_model : string;
  timeout : Z;
  max_retries : Z;
  temperature : float;
  max_tokens : Z;
  top_p : float
}.

(** The settings when the environment sets the key only. *)
Definition defaults (key : string) : t :=
  {| api_key := key;
     nemotron_super_endpoint := "https://integrate.api.nvidia.com/v1/chat/completions";
     nemotron_vl_endpoint := "https://integrate.api.nvidia.com/v1/chat/completions";
     nemotron_super_model := "nvidia/nemotron-super-49b-v1_5";
     nemotron_vl_model := "nvidia/nemotron-nano-12b-v2-vl";
     timeout := 60;
     max_retries := 3;
     temperature := 0.7;
     max_tokens := 2048;
     top_p := 0.9 |}.

(** [validate_config] *)
Definition validate_config (self : t) : Outcome bool :=
  if String.eqb (api_key self) ""
     || String.eqb (api_key self) "your_nvidia_api_key_here"
  then Raised ValueError
  else Returned true.

End NVIDIAConfig.

(** ** [src/services/nvidia_client.py]

    The HTTP exchange is given to [chat_completion] as the outcome of each
    POST, by the number of the attempt; what the method does to the outside
    (the POSTs and the sleeps) is returned as a list of events. *)

Module NvidiaClient.

(** [x[i]] with an [int] index. *)
Definition getitem_int (x : json) (i : Z) : Outcome json :=
  match x with
  | JList items => py_index items i
  | JStr s => py_index (PyJson.chars s) i
  | JDict _ => Raised KeyError
  | _ => Raised TypeError
  end.

(** [extract_response_text]: [KeyError] and [IndexError] become a plain
    [Exception], here [PortError]; any other exception passes. *)
Definition extract_response_text (api_response : json) : Outcome json :=
  match (choices <- PyJson.getitem api_response "choices" ;;
         choice <- getitem_int choices 0 ;;
         message <- PyJson.getitem choice "message" ;;
         PyJson.getitem message "content") with
  | Returned content => Returned content
  | Raised KeyError => Raised PortError
  | Raised IndexError => Raised PortError
  | Raised e => Raised e
  end.

(** One POST: the body of a good response, an [HTTPStatusError] from
    [raise_for_status], or any other exception. *)
Inductive Attempt : Type :=
| Answered (body : json)
| StatusError
| Failed.

Record Payload : Type := {
  model : string;
  payload_messages : list ChatMessage;
  payload_temperature : float;
  payload_max_tokens : Z;
  payload_top_p : float
}.

Inductive Event : Type :=
| Post (endpoint : string) (payload : Payload)
| Sleep (seconds : Z).

(** [value or default] on an optional float and an optional int. *)
Definition float_or (value : option float) (default : float) : float :=
  match value with
  | Some f => if PrimFloat.eqb f 0 then default else f
  | None => default
  end.

Definition int_or (value : option Z) (default : Z) : Z :=
  match value with
  | Some n => if n =? 0 then default else n
  | None => default
  end.

(** The loop of [chat_completion] from attempt number [attempt], with
    [remaining] turns of [range(max_retries)] left.  Falling out of the
    loop returns [None]. *)
Fixpoint attempts (self : NVIDIAConfig.t) (transport : nat -> Attempt)
    (endpoint : string) (payload : Payload) (attempt remaining : nat)
  : Outcome json * list Event :=
  match remaining with
  | O => (Returned JNull, [])
  | S rest =>
      match transport attempt with
      | Answered body => (Returned body, [Post endpoint payload])
      | StatusError =>
          if Z.of_nat attempt =? NVIDIAConfig.max_retries self - 1
          then (Raised PortError, [Post endpoint payload])
          else
            let (outcome, events) :=
              attempts self transport endpoint payload (S attempt) rest in
            (outcome,
             Post endpoint payload :: Sleep (2 ^ Z.of_nat attempt) :: events)
      | Failed => (Raised PortError, [Post endpoint payload])
      end
  end.

(** [chat_completion], called without extra keyword arguments. *)
Definition chat_completion (self : NVIDIAConfig.t) (transport : nat -> Attempt)
    (messages : list ChatMessage) (model_type : string)
    (temperature : option float) (max_tokens : option Z)
  : Outcome json * list Event :=
  let run endpoint model :=
    attempts self transport endpoint
      {| model := model;
         payload_messages := messages;
         payload_temperature :=
           float_or temperature (NVIDIAConfig.temperature self);
         payload_max_tokens := int_or max_tokens (NVIDIAConfig.max_tokens self);
         payload_top_p := NVIDIAConfig.top_p self |}
      0 (Z.to_nat (NVIDIAConfig.max_retries self)) in
  if String.eqb model_type "super"
  then run (NVIDIAConfig.nemotron_super_endpoint self)
           (NVIDIAConfig.nemotron_super_model self)
  else if String.eqb model_type "vl"
  then run (NVIDIAConfig.nemotron_vl_endpoint self)
           (NVIDIAConfig.nemotron_vl_model self)
  else (Raised ValueError, []).

(** The POSTs and the sleeps of a list of events. *)
Definition posts (events : list Event) : list (string * Payload) :=
  flat_map (fun event =>
              match event with
              | Post endpoint payload => [(endpoint, payload)]
              | Sleep _ => []
              end) events.

Definition sleeps (events : list Event) : list Z :=
  flat_map (fun event =>
              match event with
              | Post _ _ => []
              | Sleep seconds => [seconds]
              end) events.

(** The response of the service with [content] in its first choice. *)
Definition response_with (content : json) (others : list json) : json :=
  JDict [ ("id", JStr "cmpl-1");
          ("choices",
           JList (JDict [ ("index", JInt 0);
                          ("message", JDict [ ("role", JStr "assistant");
                                              ("content", content) ]) ]
                  :: others)) ].

End NvidiaClient.

(** ** The response models of [src/models/schemas.py] *)

Module ResumeUploadResponse.
Record t : Type := {
  session_id : string;
  candidate_profile : CandidateProfile.t;
  message : string
}.
End ResumeUploadResponse.

Module InterviewMessageResponse.
Record t : Type := {
  session_id : string;
  message : string;
  current_phase : Z;
  phase_name : string;
  total_questions : Z;
  interview_complete : bool
}.

Definition new (session_id message : string) (current_phase : Z)
    (phase_name : string) (total_questions : Z) (interview_complete : bool)
  : Outcome t :=
  if ge1_le4 current_phase
  then Returned {| session_id := session_id;
                   message := message;
                   current_phase := current_phase;
                   phase_name := phase_name;
                   total_questions := total_questions;
                   interview_complete := interview_complete |}
  else Raised ValidationError.
End InterviewMessageResponse.

Module InterviewStatusResponse.
Record t : Type := {
  session_id : string;
  status : Status;
  current_phase : Z;
  total_questions : Z;
  conversation_length : Z;
  started_at : Z
}.

Definition new (session_id : string) (status : Status)
    (current_phase total_questions conversation_length started_at : Z)
  : Outcome t :=
  if ge1_le4 current_phase
  then Returned {| session_id := session_id;
                   status := status;
                   current_phase := current_phase;
                   total_questions := total_questions;
                   conversation_length := conversation_length;
                   started_at := started_at |}
  else Raised ValidationError.
End InterviewStatusResponse.

(** ** [src/backend/main.py]

    A handler returns its response or raises an [HTTPException].  The
    dictionary [active_sessions] is passed in and out; an agent a handler
    has mutated is written back under its key, as the dictionary holds the
    very object the handler mutates. *)

Module Backend.

Import InterviewAgent.

Inductive Http (A : Type) : Type :=
| Ok (response : A)
| HTTPException (status_code : Z) (detail : string).
Arguments Ok {A} response.
Arguments HTTPException {A} status_code detail.

Definition Sessions : Type := list (string * Agent).

(** [active_sessions.get(key)] *)
Fixpoint get (sessions : Sessions) (key : string) : option Agent :=
  match sessions with
  | [] => None
  | (k, agent) :: rest => if String.eqb k key then Some agent else get rest key
  end.

(** [active_sessions[key] = agent] *)
Fixpoint set (sessions : Sessions) (key : string) (agent : Agent) : Sessions :=
  match sessions with
  | [] => [(key, agent)]
  | (k, a) :: rest =>
      if String.eqb k key then (k, agent) :: rest
      else (k, a) :: set rest key agent
  end.

(** [s.endswith(suffix)] *)
Definition endswith (s suffix : string) : bool :=
  (String.length suffix <=? String.length s)%nat
  && String.eqb
       (String.substring (String.length s - String.length suffix)
          (String.length suffix) s)
       suffix.

(** [send_interview_message], after the lookup: what follows the call of
    [process_candidate_response] (lines 189-209). *)
Definition message_response (session_id : string) (agent : Agent)
    (response_text : option string) : Outcome InterviewMessageResponse.t :=
  state <- get_interview_state agent ;;
  phase <- py_index PHASES (InterviewState.current_phase state - 1) ;;
  InterviewMessageResponse.new session_id
    match response_text with
    | Some (String c rest) => String c rest
    | _ => "Interview completed"
    end
    (InterviewState.current_phase state)
    (InterviewPhase.name phase)
    (InterviewState.total_questions state)
    match InterviewState.status state with
    | completed => true
    | _ => false
    end.

(** [send_interview_message] *)
Definition send_interview_message (client : NVIDIAClient) (sessions : Sessions)
    (session_id message : string)
  : Sessions * Http InterviewMessageResponse.t :=
  match get sessions session_id with
  | None => (sessions, HTTPException 404 "Interview session not found")
  | Some agent =>
      let result := process_candidate_response client agent message in
      let sessions := set sessions session_id (fst result) in
      match (response_text <- snd result ;;
             message_response session_id (fst result) response_text) with
      | Returned response => (sessions, Ok response)
      | Raised _ => (sessions, HTTPException 500 "Failed to process message")
      end
  end.

(** [get_interview_status] *)
Definition get_interview_status (sessions : Sessions) (session_id : string)
  : Http InterviewStatusResponse.t :=
  match get sessions session_id with
  | None => HTTPException 404 "Interview session not found"
  | Some agent =>
      match (state <- get_interview_state agent ;;
             InterviewStatusResponse.new session_id
               (InterviewState.status state)
               (InterviewState.current_phase state)
               (InterviewState.total_questions state)
               (Z.of_nat
                  (List.length (InterviewState.conversation_history state)))
               (InterviewState.started_at state)) with
      | Returned response => Ok response
      | Raised _ => HTTPException 500 "Failed to get status"
      end
  end.

Section Report.

Variable json_loads : string -> option json.
Variable float_of_str : string -> option float.
Variable validate_int : json -> option Z.
Variable validate_str : json -> option string.
Variable validate_float : json -> option float.
Variable validate_str_list : json -> option (list string).

(** [generate_interview_report]; [AssessmentEngine()] builds a client,
    which validates the configuration. *)
Definition generate_interview_report (config : NVIDIAConfig.t)
    (client : NVIDIAClient) (sessions : Sessions) (session_id : string)
  : Http InterviewReport.t :=
  match get sessions session_id with
  | None => HTTPException 404 "Interview session not found"
  | Some agent =>
      match (state <- get_interview_state agent ;;
             _ <- NVIDIAConfig.validate_config config ;;
             let skills :=
               CandidateProfile.skills
                 (InterviewState.candidate_profile state) in
             let candidate_skills :=
               (ResumeSkills.languages skills
                ++ ResumeSkills.frameworks skills)%list in
             AssessmentEngine.generate_report json_loads float_of_str
               validate_int validate_str validate_float validate_str_list
               client state candidate_skills) with
      | Returned report => Ok report
      | Raised _ => HTTPException 500 "Failed to generate report"
      end
  end.

End Report.

(** The message of the [ValueError] of [validate_config]. *)
Definition missing_key_message : string :=
  "NVIDIA_API_KEY is required but not set. Please set it in .env file".

(** [upload_resume].  [analysed] is what [analyzer.analyze_pdf] does with
    the file; [uuid] and [now] are the identifier and the clock reading
    the new agent takes.  An [HTTPException] raised inside the [try] is
    no [ValueError], so the last [except] clause answers it. *)
Definition upload_resume (config : NVIDIAConfig.t)
    (analysed : Outcome CandidateProfile.t) (uuid : string) (now : Z)
    (sessions : Sessions) (filename : option string)
    (job_description : option string)
  : Sessions * Http ResumeUploadResponse.t :=
  let failed := (sessions, HTTPException 500 "Failed to process resume") in
  match filename with
  | None => failed
  | Some name =>
      if negb (endswith name ".pdf") then failed
      else
        match job_description with
        | None => failed
        | Some EmptyString => failed
        | Some job_description =>
            match NVIDIAConfig.validate_config config with
            | Raised _ => (sessions, HTTPException 400 missing_key_message)
            | Returned _ =>
                match analysed with
                | Raised _ => failed
                | Returned candidate_profile =>
                    let agent := init candidate_profile job_description uuid now in
                    (set sessions (session_id agent) agent,
                     Ok {| ResumeUploadResponse.session_id := session_id agent;
                           ResumeUploadResponse.candidate_profile :=
                             candidate_profile;
                           ResumeUploadResponse.message :=
                             "Resume uploaded and interview session created successfully" |})
                end
            end
        end
  end.

(** Every agent of the dictionary is in a state a session can be in. *)
Definition sound (sessions : Sessions) : Prop :=
  forall key agent, get sessions key = Some agent -> Session.reachable agent.

End Backend.

(** ** Sample values of the service, the dictionary and the assessments *)

Module Cases.

Import InterviewAgent Session Backend NvidiaClient.

(** A dictionary with one session, three answered turns in. *)
Definition registry : Sessions := [("session-1", Example.after_turns 3)].

(** The settings when the environment sets a key and nothing else. *)
Definition config : NVIDIAConfig.t := NVIDIAConfig.defaults "nvapi-key".

(** A service that answers the third POST, after two status errors, and
    one that answers every POST with a status error. *)
Definition flaky (attempt : nat) : Attempt :=
  match attempt with
  | 0%nat | 1%nat => StatusError
  | _ => Answered (response_with (JStr "Hello") [])
  end.

Definition down : nat -> Attempt := fun _ => StatusError.

(** An assessment that lacks its summary. *)
Definition partial : json :=
  JDict [ ("overall_score", JFloat 8.5);
          ("recommendation", JStr "yes");
          ("phase_scores", JList [JDict Example.model_items]);
          ("strengths", JDict []);
          ("weaknesses", JDict []) ].

(** The scores of one phase with a communication score above 10, and an
    assessment that holds them. *)
Definition excessive_items : list (string * json) :=
  [ ("phase_number", JInt 2);
    ("phase_name", JStr "Technical Depth");
    ("technical_accuracy", JFloat 8);
    ("problem_solving", JFloat 7);
    ("communication", JFloat 11);
    ("depth_of_knowledge", JFloat 6) ].

Definition excessive : json :=
  JDict [ ("overall_score", JFloat 8.5);
          ("recommendation", JStr "yes");
          ("phase_scores",
           JList [JDict Example.model_items; JDict excessive_items]);
          ("strengths", JDict []);
          ("weaknesses", JDict []);
          ("summary", JStr "A solid interview.");
          ("key_highlights", JList []) ].

(** A parser that reads every text as the given document. *)
Definition reading (document : json) : string -> option json :=
  fun _ => Some document.

End Cases.

(** * Properties *)

Local Open Scope list_scope.

(** ** The string operations *)

Module PyStrFacts.

Local Open Scope string_scope.
Import AssessmentEngine.

(** The operations on the inputs the sources meet. *)
Example split_lines :
  PyStr.split PyStr.nl ("Backend Engineer" ++ PyStr.nl ++ "..." ++ PyStr.nl)
  = ["Backend Engineer"; "..."; ""].
Proof. reflexivity. Qed.

Example split_fence :
  PyStr.split "```" "x```json{}```y" = ["x"; "json{}"; "y"].
Proof. reflexivity. Qed.

Example strip_both : PyStr.strip "  Senior Engineer  " = "Senior Engineer".
Proof. reflexivity. Qed.

Example of_int_neg : PyStr.of_int (-12) = "-12" /\ PyStr.of_int 0 = "0".
Proof. split; reflexivity. Qed.

Lemma append_empty_r (s : string) : s ++ "" = s.
Proof. induction s as [| c s IH]; cbn; [reflexivity | now rewrite IH]. Qed.

Lemma append_assoc (a b c : string) : (a ++ b) ++ c = a ++ (b ++ c).
Proof. induction a as [| x a IH]; cbn; [reflexivity | now rewrite IH]. Qed.

Lemma prefix_occurs (sub s : string) :
  String.prefix sub s = true <-> exists rest, s = sub ++ rest.
Proof.
  revert s. induction sub as [| c sub IH]; intros s.
  - split; [intros _; now exists s | intros _; now destruct s].
  - destruct s as [| d s]; cbn.
    + split; [discriminate | intros (rest & E); discriminate].
    + destruct (ascii_dec c d) as [-> | N].
      * rewrite IH. split; intros (rest & E); exists rest; congruence.
      * split; [discriminate | intros (rest & E); congruence].
Qed.

Lemma contains_occurs (sub s : string) :
  PyStr.contains sub s = true <-> occurs sub s.
Proof.
  split.
  - induction s as [| c s IH]; cbn [PyStr.contains]; rewrite orb_true_iff;
      (intros [P | C]; [| try discriminate]).
    + apply prefix_occurs in P as (rest & ->). now exists "", rest.
    + apply prefix_occurs in P as (rest & ->). now exists "", rest.
    + destruct (IH C) as (before & after & ->).
      now exists (String c before), after.
  - intros (before & after & ->).
    induction before as [| c before IH].
    + cbn [append].
      assert (P : String.prefix sub (sub ++ after) = true)
        by (apply prefix_occurs; now exists after).
      destruct (sub ++ after); cbn [PyStr.contains]; now rewrite P.
    + cbn [append PyStr.contains]. rewrite IH. apply orb_true_r.
Qed.

Lemma contains_nl_cons (c : ascii) (s : string) :
  PyStr.contains PyStr.nl (String c s) = false ->
  String.prefix PyStr.nl (String c s ++ "") = false
  /\ PyStr.contains PyStr.nl s = false.
Proof.
  cbn [PyStr.contains]. rewrite orb_false_iff. intros (P & C).
  now rewrite append_empty_r.
Qed.

(** Splitting at line feeds: the first piece is the first line. *)
Lemma split_first_line (line : string) :
  forall cur rest : string,
    PyStr.contains PyStr.nl line = false ->
    PyStr.split_from PyStr.nl line cur 0 = [cur ++ line]
    /\ PyStr.split_from PyStr.nl (line ++ PyStr.nl ++ rest) cur 0
       = (cur ++ line) :: PyStr.split_from PyStr.nl rest "" 0.
Proof.
  induction line as [| c line IH]; intros cur rest H.
  - rewrite append_empty_r. split; [reflexivity |].
    assert (P : String.prefix PyStr.nl (PyStr.nl ++ rest) = true)
      by (apply prefix_occurs; now exists rest).
    cbn [append PyStr.nl] in *. cbn [PyStr.split_from]. now rewrite P.
  - cbn [PyStr.contains] in H. apply orb_false_iff in H as (P & C).
    assert (Hc : c <> ascii_of_nat 10).
    { intros ->.
      assert (T : String.prefix PyStr.nl (PyStr.nl ++ line) = true)
        by (apply prefix_occurs; now exists line).
      change (PyStr.nl ++ line) with (String (ascii_of_nat 10) line) in T.
      rewrite T in P. discriminate P. }
    assert (P' : forall tail, String.prefix PyStr.nl (String c tail) = false).
    { intros tail.
      destruct (String.prefix PyStr.nl (String c tail)) eqn:T; [| reflexivity].
      apply prefix_occurs in T as (more & T).
      injection T as E _. now destruct Hc. }
    destruct (IH (cur ++ String c "") rest C) as (IH1 & IH2).
    rewrite append_assoc in IH1, IH2. cbn [append] in IH1, IH2.
    split.
    + cbn [PyStr.split_from]. rewrite P'. exact IH1.
    + cbn [append PyStr.split_from]. rewrite P'. exact IH2.
Qed.

Lemma first_line_split (text line : string) :
  first_line_of text line ->
  exists others, PyStr.split PyStr.nl text = line :: others.
Proof.
  intros (H & [-> | (rest & ->)]); unfold PyStr.split;
    destruct (split_first_line line "" "" H) as (E1 & _).
  - exists []. exact E1.
  - destruct (split_first_line line "" rest H) as (_ & E2).
    eexists. exact E2.
Qed.

End PyStrFacts.

(** ** The job title *)

Module TitleFacts.

Import AssessmentEngine PyStrFacts.

Lemma rstrip_no_space (s : string) :
  (forall c, PyStr.last_char s = Some c -> PyStr.is_space c = false) ->
  PyStr.rstrip s = s.
Proof.
  induction s as [| c s IH]; intros H; [reflexivity |].
  cbn [PyStr.rstrip]. destruct s as [| d s].
  - cbn. now rewrite (H c eq_refl).
  - rewrite IH by (intros x Hx; apply H; exact Hx). reflexivity.
Qed.

Lemma strip_no_outer_space (s : string) :
  PyStr.no_outer_space s -> PyStr.strip s = s.
Proof.
  intros (Hfirst & Hlast). unfold PyStr.strip.
  assert (L : PyStr.lstrip s = s).
  { destruct s as [| c s]; [reflexivity |].
    cbn. now rewrite (Hfirst c eq_refl). }
  rewrite L. now apply rstrip_no_space.
Qed.

Lemma names_a_role_test (first_line : string) :
  (PyStr.len first_line <? 100)
  && existsb (fun keyword => PyStr.contains keyword (PyStr.lower first_line))
             keywords = true
  <-> names_a_role first_line.
Proof.
  unfold names_a_role.
  rewrite andb_true_iff, Z.ltb_lt, existsb_exists.
  split; intros (L & keyword & K & C); (split; [exact L |]);
    exists keyword; (split; [exact K |]); now apply contains_occurs.
Qed.

Lemma extract_job_title_first_line (job_description line : string) :
  first_line_of job_description line ->
  _extract_job_title job_description
  = if (PyStr.len (PyStr.strip line) <? 100)
       && existsb (fun keyword =>
                     PyStr.contains keyword (PyStr.lower (PyStr.strip line)))
                  keywords
    then PyStr.strip line
    else "Software Engineer"%string.
Proof.
  intros H. destruct (first_line_split _ _ H) as (others & E).
  unfold _extract_job_title. now rewrite E.
Qed.

End TitleFacts.

(** ** The interview agent *)

Module AgentFacts.
Import InterviewAgent Session.

Lemma phase_in_range_cases (p : Z) :
  1 <= p <= 4 -> p = 1 \/ p = 2 \/ p = 3 \/ p = 4.
Proof. lia. Qed.

Lemma quota_of_values :
  quota_of 1 = 3 /\ quota_of 2 = 6 /\ quota_of 3 = 4 /\ quota_of 4 = 3.
Proof. repeat split; reflexivity. Qed.

Lemma quota_of_bounds (p : Z) : 1 <= p <= 4 -> 3 <= quota_of p <= 6.
Proof.
  intros H. destruct quota_of_values as (Q1 & Q2 & Q3 & Q4).
  destruct (phase_in_range_cases _ H) as [E | [E | [E | E]]];
    rewrite E, ?Q1, ?Q2, ?Q3, ?Q4; lia.
Qed.

(** [_should_advance_phase] either raises or compares with the quota. *)
Lemma should_advance_cases (self : Agent) :
  (exists e, _should_advance_phase self = Raised e)
  \/ _should_advance_phase self
     = Returned (quota self <=? questions_asked_in_phase self).
Proof.
  unfold _should_advance_phase, quota, quota_of.
  destruct (py_index PHASES (current_phase self - 1)) as [phase | e]; cbn.
  - now right.
  - left. now exists e.
Qed.

Lemma should_advance_in_range (self : Agent) :
  1 <= current_phase self <= 4 ->
  _should_advance_phase self
  = Returned (quota self <=? questions_asked_in_phase self).
Proof.
  intros H. unfold _should_advance_phase, quota, quota_of.
  destruct (phase_in_range_cases _ H) as [E | [E | [E | E]]];
    rewrite E; reflexivity.
Qed.

Lemma check_phaseP (self : Agent) : check_phase_view self (check_phase self).
Proof.
  unfold check_phase.
  destruct (_should_advance_phase self) as [[|] | e] eqn:E.
  - destruct (current_phase self <? 4) eqn:L.
    + apply view_advance; [assumption | lia].
    + apply view_close; [assumption | lia].
  - now apply view_stay.
  - now apply view_raise.
Qed.

(** The phase check leaves the transcript, the total and the identity of
    the session alone, whatever branch it takes to the generation step. *)
Lemma check_phase_continue (self advanced : Agent) :
  check_phase self = Continue advanced ->
  conversation_history advanced = conversation_history self
  /\ total_questions advanced = total_questions self
  /\ status advanced = status self
  /\ candidate_profile advanced = candidate_profile self
  /\ job_description advanced = job_description self
  /\ session_id advanced = session_id self
  /\ started_at advanced = started_at self
  /\ ((advanced = self
       /\ _should_advance_phase self = Returned false)
      \/ (_should_advance_phase self = Returned true
          /\ current_phase self < 4
          /\ current_phase advanced = current_phase self + 1
          /\ questions_asked_in_phase advanced = 0
          /\ system_prompt advanced = system_prompt_text advanced)).
Proof.
  intros H. pose proof (check_phaseP self) as V. rewrite H in V.
  inversion V; subst.
  - repeat split; auto.
  - repeat split; auto. right. repeat split; auto.
Qed.

Lemma system_prompt_text_ext (a b : Agent) :
  candidate_profile a = candidate_profile b ->
  job_description a = job_description b ->
  current_phase a = current_phase b ->
  system_prompt_text a = system_prompt_text b.
Proof.
  intros P J C. unfold system_prompt_text, _get_all_skills.
  now rewrite P, J, C.
Qed.

Lemma process_continue (client : NVIDIAClient) (self advanced : Agent)
    (candidate_message : string) :
  check_phase (append_message user candidate_message self) = Continue advanced ->
  process_candidate_response client self candidate_message
  = generate_and_record client advanced.
Proof. intros H. unfold process_candidate_response. now rewrite H. Qed.

Lemma process_finished (client : NVIDIAClient) (self : Agent)
    (candidate_message : string) (result : Agent * Outcome (option string)) :
  check_phase (append_message user candidate_message self) = Finished result ->
  process_candidate_response client self candidate_message = result.
Proof. intros H. unfold process_candidate_response. now rewrite H. Qed.

(** The generation step never touches the phase, the status or the system
    instruction, and moves both counters together. *)
Lemma generate_and_record_cases (client : NVIDIAClient) (self : Agent) :
  let result := generate_and_record client self in
  (exists e, _generate_next_message client self = Raised e
             /\ result = (self, Raised e))
  \/ (exists next_message,
        _generate_next_message client self = Returned next_message
        /\ truthy next_message = false
        /\ result = (self, Returned next_message))
  \/ (exists text,
        _generate_next_message client self = Returned (Some text)
        /\ truthy (Some text) = true
        /\ result
           = (append_message assistant text
                (set_total_questions (total_questions self + 1)
                   (set_questions_asked_in_phase
                      (questions_asked_in_phase self + 1) self)),
              Returned (Some text))).
Proof.
  unfold generate_and_record.
  destruct (_generate_next_message client self) as [[[|c rest]|]|e]; cbn zeta.
  - right; left. now exists (Some "").
  - right; right. now exists (String c rest).
  - right; left. now exists None.
  - left. now exists e.
Qed.

Lemma set_status_same (self : Agent) (st : Status) :
  status self = st -> set_status st self = self.
Proof. destruct self; cbn. now intros <-. Qed.

Lemma history_append (r : Role) (c : string) (self : Agent) :
  conversation_history (append_message r c self)
  = conversation_history self
    ++ [{| InterviewMessage.role := r; InterviewMessage.content := c |}].
Proof. reflexivity. Qed.

Lemma quota_append (r : Role) (c : string) (self : Agent) :
  quota (append_message r c self) = quota self.
Proof. reflexivity. Qed.

Lemma generate_opening_cases (client : NVIDIAClient) (self : Agent) :
  fst (generate_opening client self) = self
  \/ exists text, fst (generate_opening client self)
                  = append_message assistant text self.
Proof.
  unfold generate_opening.
  destruct (client _) as [[text|]|e]; cbn; eauto.
Qed.

Lemma invariant_init (candidate_profile : CandidateProfile.t)
    (job_description uuid : string) (now : Z) :
  invariant (init candidate_profile job_description uuid now).
Proof.
  unfold invariant, quota. cbn.
  repeat split; try lia; try discriminate.
Qed.

Lemma invariant_append (r : Role) (c : string) (self : Agent) :
  invariant self -> invariant (append_message r c self).
Proof. intros H. exact H. Qed.

Lemma invariant_process (client : NVIDIAClient) (self : Agent)
    (candidate_message : string) :
  invariant self ->
  invariant (fst (process_candidate_response client self candidate_message)).
Proof.
  intros (Hp & Hq & Ht & Hc & Hn).
  set (received := append_message user candidate_message self).
  assert (Hsa : _should_advance_phase received
                = Returned (quota self <=? questions_asked_in_phase self))
    by now apply (should_advance_in_range received).
  pose proof (check_phaseP received) as V.
  inversion V as [e He | Hf | Ha Hl | Ha Hl]; try congruence.
  - (* no advancement *)
    rewrite (process_continue client self received) by now symmetry.
    assert (Hlt : questions_asked_in_phase self < quota self).
    { rewrite Hsa in Hf. injection Hf as Hf. lia. }
    assert (Hs : status self <> completed).
    { intros E. destruct (Hc E) as (E4 & E3).
      unfold quota in Hlt. rewrite E4 in Hlt.
      destruct quota_of_values as (_ & _ & _ & Q4). lia. }
    destruct (generate_and_record_cases client received)
      as [(e & _ & ->) | [(m & _ & _ & ->) | (t & _ & _ & ->)]];
      unfold invariant, quota; cbn [fst]; cbn;
      fold (quota self); repeat split; try lia; try assumption;
      try contradiction.

  - (* advancement to the next phase *)
    rewrite (process_continue client self
               (_build_system_prompt
                  (set_questions_asked_in_phase 0
                     (set_current_phase (current_phase received + 1) received))))
      by now symmetry.
    change (current_phase received) with (current_phase self) in *.
    assert (Hs : status self <> completed).
    { intros E. destruct (Hc E) as (E4 & E3). lia. }
    pose proof (quota_of_bounds (current_phase self + 1)) as Hb.
    destruct (generate_and_record_cases client
                (_build_system_prompt
                   (set_questions_asked_in_phase 0
                      (set_current_phase (current_phase self + 1) received))))
      as [(e & _ & ->) | [(m & _ & _ & ->) | (t & _ & _ & ->)]];
      unfold invariant, quota; cbn [fst]; cbn;
      repeat split; try lia; try assumption;
      try contradiction.
  - (* the closing *)
    rewrite (process_finished client self candidate_message
               (_generate_closing (set_status completed received)))
      by now symmetry.
    change (current_phase received) with (current_phase self) in *.
    assert (Hge : quota self <= questions_asked_in_phase self).
    { rewrite Hsa in Ha. injection Ha as Ha. lia. }
    assert (E4 : current_phase self = 4) by lia.
    assert (Q4 : quota self = 3).
    { unfold quota. rewrite E4. reflexivity. }
    unfold invariant, quota; cbn [fst]; cbn; fold (quota self).
    repeat split; try lia; try discriminate.
Qed.

Lemma invariant_opening (client : NVIDIAClient) (self : Agent) :
  invariant self -> invariant (fst (generate_opening client self)).
Proof.
  intros H.
  destruct (generate_opening_cases client self) as [-> | (text & ->)];
    [exact H | now apply invariant_append].
Qed.

Lemma reachable_invariant (self : Agent) : reachable self -> invariant self.
Proof.
  induction 1.
  - apply invariant_init.
  - now apply invariant_opening.
  - now apply invariant_process.
Qed.


Lemma last_n_suffix {A : Type} (n : nat) (l : list A) :
  l = firstn (List.length l - n) l ++ last_n n l.
Proof. unfold last_n. now rewrite firstn_skipn. Qed.

Lemma last_n_length {A : Type} (n : nat) (l : list A) :
  List.length (last_n n l) = Nat.min n (List.length l).
Proof. unfold last_n. rewrite length_skipn. lia. Qed.

Lemma process_closing (client : NVIDIAClient) (self : Agent)
    (candidate_message : string) :
  current_phase self = 4 ->
  quota self <= questions_asked_in_phase self ->
  process_candidate_response client self candidate_message
  = _generate_closing
      (set_status completed (append_message user candidate_message self)).
Proof.
  intros E4 Hq.
  set (received := append_message user candidate_message self).
  assert (Hsa : _should_advance_phase received = Returned true).
  { rewrite (should_advance_in_range received)
      by (change (current_phase received) with (current_phase self); lia).
    f_equal. change (quota received) with (quota self).
    change (questions_asked_in_phase received)
      with (questions_asked_in_phase self). lia. }
  unfold process_candidate_response, check_phase. fold received.
  rewrite Hsa. change (current_phase received) with (current_phase self).
  now rewrite E4.
Qed.

Lemma process_phase_step (client : NVIDIAClient) (self : Agent)
    (candidate_message : string) :
  let after := fst (process_candidate_response client self candidate_message) in
  current_phase after = current_phase self
  \/ (current_phase after = current_phase self + 1
      /\ 0 <= questions_asked_in_phase after <= 1).
Proof.
  set (received := append_message user candidate_message self).
  pose proof (check_phaseP received) as V.
  inversion V as [e He Hc | Hf Hc | Ha Hl Hc | Ha Hl Hc]; symmetry in Hc.
  - rewrite (process_finished client self candidate_message _ Hc). now left.
  - rewrite (process_continue client self _ candidate_message Hc).
    destruct (generate_and_record_cases client received)
      as [(e & _ & ->) | [(m & _ & _ & ->) | (t & _ & _ & ->)]]; now left.
  - rewrite (process_continue client self
               (_build_system_prompt
                  (set_questions_asked_in_phase 0
                     (set_current_phase (current_phase received + 1) received)))
               candidate_message Hc).
    destruct (generate_and_record_cases client
                (_build_system_prompt
                   (set_questions_asked_in_phase 0
                      (set_current_phase (current_phase received + 1) received))))
      as [(e & _ & ->) | [(m & _ & _ & ->) | (t & _ & _ & ->)]];
      right; cbn; split; try reflexivity; lia.
  - rewrite (process_finished client self candidate_message _ Hc). now left.
Qed.

Lemma answered_step (client : NVIDIAClient) (self : Agent)
    (candidate_message : string) :
  answers client ->
  1 <= current_phase self <= 4 ->
  counters (fst (process_candidate_response client self candidate_message))
  = answered (counters self).
Proof.
  intros Hanswers Hrange.
  set (received := append_message user candidate_message self).
  assert (Hsa : _should_advance_phase received
                = Returned (quota self <=? questions_asked_in_phase self))
    by now apply (should_advance_in_range received).
  assert (Hgen : forall agent,
            fst (generate_and_record client agent)
            = append_message assistant
                match _generate_next_message client agent with
                | Returned (Some text) => text
                | _ => ""
                end
                (set_total_questions (total_questions agent + 1)
                   (set_questions_asked_in_phase
                      (questions_asked_in_phase agent + 1) agent))).
  { intros agent. unfold generate_and_record, _generate_next_message.
    destruct (Hanswers {| messages := next_message_request agent;
                          model_type := "super";
                          temperature := 0.8 |}) as (c & rest & ->).
    reflexivity. }
  unfold answered, counters. fold (quota self).
  pose proof (check_phaseP received) as V.
  inversion V as [e He Hc | Hf Hc | Ha Hl Hc | Ha Hl Hc]; symmetry in Hc;
    try congruence.
  - rewrite (process_continue client self _ candidate_message Hc), Hgen.
    rewrite Hsa in Hf. injection Hf as ->. reflexivity.
  - rewrite (process_continue client self
               (_build_system_prompt
                  (set_questions_asked_in_phase 0
                     (set_current_phase (current_phase received + 1) received)))
               candidate_message Hc), Hgen.
    rewrite Hsa in Ha. injection Ha as ->.
    change (current_phase received) with (current_phase self) in Hl.
    apply Z.ltb_lt in Hl. rewrite Hl. reflexivity.
  - rewrite (process_finished client self candidate_message _ Hc).
    rewrite Hsa in Ha. injection Ha as ->.
    change (current_phase received) with (current_phase self) in Hl.
    assert (Hnlt : (current_phase self <? 4) = false) by lia.
    rewrite Hnlt. reflexivity.
Qed.

Lemma answered_in_range (c : Counters) :
  1 <= fst (fst (fst c)) <= 4 ->
  1 <= fst (fst (fst (answered c))) <= 4.
Proof.
  destruct c as [[[phase asked] total] st]. cbn [fst]. intros H.
  unfold answered.
  destruct (quota_of phase <=? asked); [| exact H].
  destruct (phase <? 4) eqn:L; cbn [fst]; lia.
Qed.

Lemma run_answered (turns : list (NVIDIAClient * string)) :
  forall self : Agent,
    Forall (fun turn => answers (fst turn)) turns ->
    1 <= current_phase self <= 4 ->
    map (fun o => (obs_phase o, obs_total_questions o, obs_status o))
        (snd (run self turns))
    = map shown (answered_trace (counters self) (List.length turns))
    /\ counters (fst (run self turns))
       = Nat.iter (List.length turns) answered (counters self).
Proof.
  induction turns as [| [client candidate_message] rest IH];
    intros self Hall Hrange.
  - split; reflexivity.
  - inversion Hall as [| turn others Hclient Hrest]; subst.
    cbn [fst] in Hclient.
    pose proof (answered_step client self candidate_message Hclient Hrange)
      as Hstep.
    assert (Hrange' : 1 <= current_phase
              (fst (process_candidate_response client self candidate_message))
              <= 4).
    { pose proof (answered_in_range (counters self) Hrange) as R.
      rewrite <- Hstep in R. exact R. }
    destruct (IH _ Hrest Hrange') as (IHobs & IHfin).
    cbn [run List.length answered_trace].
    destruct (run (fst (process_candidate_response client self candidate_message))
                  rest) as [final observations] eqn:Hrun.
    cbn [fst snd] in *. split.
    + cbn [map]. f_equal.
      * rewrite <- Hstep. reflexivity.
      * rewrite IHobs, Hstep. reflexivity.
    + rewrite IHfin, Hstep. rewrite <- Nat.iter_succ_r. reflexivity.
Qed.

Lemma run_reachable (turns : list (NVIDIAClient * string)) :
  forall self : Agent, reachable self -> reachable (fst (run self turns)).
Proof.
  induction turns as [| [client candidate_message] rest IH]; intros self H.
  - exact H.
  - cbn [run].
    pose proof (IH _ (reach_process self client candidate_message H)) as R.
    destruct (run (fst (process_candidate_response client self candidate_message))
                  rest) as [final observations].
    exact R.
Qed.

Lemma asking_answers : answers Example.asking.
Proof. intros request. now exists "N"%char, "ext question?"%string. Qed.

Lemma turns_answered (n : nat) :
  Forall (fun turn => answers (fst turn)) (Example.turns n).
Proof.
  induction n as [| n IH]; cbn; constructor; [exact asking_answers | exact IH].
Qed.

End AgentFacts.

(** ** The assessment engine *)

Module EngineFacts.

Import AssessmentEngine.

Lemma bind_returned {A B : Type} (m : Outcome A) (k : A -> Outcome B) (b : B) :
  bind m k = Returned b -> exists a, m = Returned a /\ k a = Returned b.
Proof. destruct m as [a | e]; cbn; [eauto | discriminate]. Qed.

Lemma mapM_returned {A B : Type} (f : A -> Outcome B) (l : list A) :
  forall ys, mapM f l = Returned ys -> Forall2 (fun x y => f x = Returned y) l ys.
Proof.
  induction l as [| x l IH]; cbn [mapM]; intros ys H.
  - injection H as <-. constructor.
  - apply bind_returned in H as (y & Hy & H).
    apply bind_returned in H as (rest & Hrest & H).
    injection H as <-. constructor; auto.
Qed.

Lemma PhaseScore_new_returned (n : Z) (name : string) (a b c d avg : float)
    (score : PhaseScore.t) :
  PhaseScore.new n name a b c d avg = Returned score ->
  score = {| PhaseScore.phase_number := n;
             PhaseScore.phase_name := name;
             PhaseScore.technical_accuracy := a;
             PhaseScore.problem_solving := b;
             PhaseScore.communication := c;
             PhaseScore.depth_of_knowledge := d;
             PhaseScore.average_score := avg |}
  /\ PhaseScore.valid score = true.
Proof.
  unfold PhaseScore.new.
  destruct (ge1_le4 n && ge0_le10 a && ge0_le10 b && ge0_le10 c && ge0_le10 d)
    eqn:V; [| discriminate].
  intros H. injection H as <-. split; [reflexivity | exact V].
Qed.

Section WithLibrary.

Variable json_loads : string -> option json.
Variable float_of_str : string -> option float.
Variable validate_int : json -> option Z.
Variable validate_str : json -> option string.
Variable validate_float : json -> option float.
Variable validate_str_list : json -> option (list string).

(** What one parsed entry is, given that it parsed. *)
Lemma parse_phase_score_returned (phase : json) (score : PhaseScore.t) :
  parse_phase_score float_of_str validate_int validate_str phase
  = Returned score ->
  exists a b c d,
    sub_score float_of_str phase "technical_accuracy" = Returned a
    /\ sub_score float_of_str phase "problem_solving" = Returned b
    /\ sub_score float_of_str phase "communication" = Returned c
    /\ sub_score float_of_str phase "depth_of_knowledge" = Returned d
    /\ PhaseScore.technical_accuracy score = a
    /\ PhaseScore.problem_solving score = b
    /\ PhaseScore.communication score = c
    /\ PhaseScore.depth_of_knowledge score = d
    /\ PhaseScore.average_score score = ((a + b + c + d) / 4)%float
    /\ PhaseScore.valid score = true.
Proof.
  unfold parse_phase_score. intros H.
  apply bind_returned in H as (pn & _ & H).
  apply bind_returned in H as (pname & _ & H).
  destruct (sub_score float_of_str phase "technical_accuracy") as [a |];
    [| discriminate].
  destruct (sub_score float_of_str phase "problem_solving") as [b |];
    [| discriminate].
  destruct (sub_score float_of_str phase "communication") as [c |];
    [| discriminate].
  destruct (sub_score float_of_str phase "depth_of_knowledge") as [d |];
    [| discriminate].
  cbn [bind] in H.
  apply bind_returned in H as (n & _ & H).
  apply bind_returned in H as (name & _ & H).
  apply PhaseScore_new_returned in H as (-> & V).
  exists a, b, c, d. repeat split; try reflexivity. exact V.
Qed.

Lemma parse_phase_scores_valid (phase_data : json) (scores : list PhaseScore.t) :
  _parse_phase_scores float_of_str validate_int validate_str phase_data
  = Returned scores ->
  forallb PhaseScore.valid scores = true.
Proof.
  unfold _parse_phase_scores. intros H.
  apply bind_returned in H as (phases & _ & H).
  apply mapM_returned in H.
  induction H as [| phase score phases scores Hone _ IH]; [reflexivity |].
  cbn [forallb]. rewrite IH.
  apply parse_phase_score_returned in Hone
    as (a & b & c & d & _ & _ & _ & _ & _ & _ & _ & _ & _ & V).
  now rewrite V.
Qed.

Lemma generate_report_try_valid (client : NVIDIAClient)
    (interview_state : InterviewState.t) (report : InterviewReport.t) :
  generate_report_try json_loads float_of_str validate_int validate_str
    validate_float validate_str_list client interview_state
  = Returned report ->
  InterviewReport.valid report = true.
Proof.
  unfold generate_report_try. intros H.
  repeat (apply bind_returned in H as (? & ? & H)).
  unfold InterviewReport.new in H.
  match type of H with
  | (if ?t then _ else _) = _ => destruct t eqn:V; [| discriminate H]
  end.
  injection H as <-. unfold InterviewReport.valid; cbn.
  rewrite V. cbn [andb].
  eapply parse_phase_scores_valid. eassumption.
Qed.

End WithLibrary.

(** The fallback report is built without any exception. *)
Lemma fallback_returned (interview_state : InterviewState.t) :
  exists report,
    _generate_fallback_report interview_state = Returned report
    /\ InterviewReport.valid report = true
    /\ neutral_fallback report.
Proof.
  eexists. split; [reflexivity |]. split; [reflexivity |].
  unfold neutral_fallback. cbn.
  repeat split; repeat constructor.
Qed.


(** The engine on concrete responses. *)
Example fenced_json :
  _parse_assessment_response Example.echo_json
    (Some ("Here it is:" ++ PyStr.nl ++ "```json" ++ PyStr.nl ++ "{}"
           ++ PyStr.nl ++ "```" ++ PyStr.nl ++ "Regards")%string)
  = Returned (JStr "{}").
Proof. reflexivity. Qed.

Example snapshot_of_completed :
  InterviewAgent.get_interview_state (Example.after_turns 17)
  = Returned (Example.state_of (Example.after_turns 17)).
Proof. vm_compute. reflexivity. Qed.

Example report_from_assessment :
  exists report,
    generate_report Example.one_json Example.no_float Example.strict_int
      Example.strict_str Example.strict_float Example.strict_str_list
      (Example.replying "{}") (Example.state_of (Example.after_turns 17))
      ["Python"; "FastAPI"]
    = Returned report
    /\ InterviewReport.overall_score report = 8.5%float
    /\ InterviewReport.recommendation report = yes
    /\ InterviewReport.job_title report = "Backend Engineer"%string
    /\ map PhaseScore.average_score (InterviewReport.phase_scores report)
       = [7.5%float]
    /\ InterviewReport.raw_analysis report = Some Example.assessment.
Proof. eexists. repeat split; vm_compute; reflexivity. Qed.

Example report_from_unparseable_text :
  generate_report Example.no_json Example.no_float Example.strict_int
    Example.strict_str Example.strict_float Example.strict_str_list
    (Example.replying "I cannot score this.")
    (Example.state_of (Example.after_turns 17)) []
  = _generate_fallback_report (Example.state_of (Example.after_turns 17)).
Proof. vm_compute. reflexivity. Qed.

Example report_from_failing_service :
  generate_report Example.one_json Example.no_float Example.strict_int
    Example.strict_str Example.strict_float Example.strict_str_list
    Example.failing (Example.state_of Example.fresh) []
  = _generate_fallback_report (Example.state_of Example.fresh).
Proof. vm_compute. reflexivity. Qed.

End EngineFacts.

(** * The claims *)

Import InterviewAgent Session AgentFacts.

(** C1 (as amended).  From a freshly created session, sixteen calls of
    [process_candidate_response] that the service answers with a non-empty
    message show the phases 1,1,1,2,2,2,2,2,2,3,3,3,3,4,4,4, leave the
    session active with [total_questions] = 16 and the phase-4 quota used
    up; the call after them, the seventeenth, sets the status to
    [completed], returns the closing message and keeps [total_questions]
    at 16. *)
Theorem C1_sixteen_answered_turns :
  forall (candidate_profile : CandidateProfile.t)
         (job_description uuid : string) (now : Z)
         (turns : list (NVIDIAClient * string)),
    List.length turns = 16%nat ->
    Forall (fun turn => answers (fst turn)) turns ->
    let session := run (init candidate_profile job_description uuid now) turns in
    map obs_phase (snd session) = [1; 1; 1; 2; 2; 2; 2; 2; 2; 3; 3; 3; 3; 4; 4; 4]
    /\ map obs_status (snd session) = repeat active 16
    /\ map obs_total_questions (snd session)
       = [1; 2; 3; 4; 5; 6; 7; 8; 9; 10; 11; 12; 13; 14; 15; 16]
    /\ counters (fst session) = (4, 3, 16, active)
    /\ forall (client : NVIDIAClient) (candidate_message : string),
         let result :=
           process_candidate_response client (fst session) candidate_message in
         status (fst result) = completed
         /\ snd result = Returned (Some closing)
         /\ total_questions (fst result) = 16
         /\ current_phase (fst result) = 4.
Proof.
  intros candidate_profile job_description uuid now turns Hlen Hall session.
  destruct (run_answered turns
              (init candidate_profile job_description uuid now) Hall)
    as (Hobs & Hfin).
  { cbn. lia. }
  fold session in Hobs, Hfin. rewrite Hlen in Hobs, Hfin.
  change (counters (init candidate_profile job_description uuid now))
    with (1, 0, 0, active) in Hobs, Hfin.
  assert (Hfinal : counters (fst session) = (4, 3, 16, active)).
  { rewrite Hfin. vm_compute. reflexivity. }
  assert (Hshown : map (fun o => (obs_phase o, obs_total_questions o, obs_status o))
                       (snd session)
                   = combine
                       (combine [1; 1; 1; 2; 2; 2; 2; 2; 2; 3; 3; 3; 3; 4; 4; 4]
                          [1; 2; 3; 4; 5; 6; 7; 8; 9; 10; 11; 12; 13; 14; 15; 16])
                       (repeat active 16)).
  { rewrite Hobs. vm_compute. reflexivity. }
  split; [| split; [| split; [| split; [exact Hfinal |]]]].
  - change obs_phase
      with (fun o => fst (fst (obs_phase o, obs_total_questions o, obs_status o))).
    rewrite <- (map_map (fun o => (obs_phase o, obs_total_questions o, obs_status o))
                  (fun x => fst (fst x))).
    rewrite Hshown. reflexivity.
  - change obs_status
      with (fun o => snd (obs_phase o, obs_total_questions o, obs_status o)).
    rewrite <- (map_map (fun o => (obs_phase o, obs_total_questions o, obs_status o))
                  (fun x => snd x)).
    rewrite Hshown. reflexivity.
  - change obs_total_questions
      with (fun o => snd (fst (obs_phase o, obs_total_questions o, obs_status o))).
    rewrite <- (map_map (fun o => (obs_phase o, obs_total_questions o, obs_status o))
                  (fun x => snd (fst x))).
    rewrite Hshown. reflexivity.
  - intros client candidate_message result.
    unfold counters in Hfinal. injection Hfinal as E4 E3 E16 Eactive.
    assert (Hres : result
                   = _generate_closing
                       (set_status completed
                          (append_message user candidate_message (fst session)))).
    { apply process_closing; [exact E4 |].
      destruct quota_of_values as (_ & _ & _ & Q4).
      unfold quota. rewrite E4, E3, Q4. lia. }
    rewrite Hres. cbn. auto.
Qed.

(** C1 on the session of Jane Doe with a service that always asks. *)
Lemma C1_witness :
  List.length (Example.turns 16) = 16%nat
  /\ Forall (fun turn => answers (fst turn)) (Example.turns 16)
  /\ map obs_phase (snd (run Example.fresh (Example.turns 16)))
     = [1; 1; 1; 2; 2; 2; 2; 2; 2; 3; 3; 3; 3; 4; 4; 4]
  /\ status (fst (process_candidate_response Example.asking
                    (fst (run Example.fresh (Example.turns 16))) "Thanks."))
     = completed.
Proof.
  pose proof (C1_sixteen_answered_turns Example.jane
                ("Backend Engineer" ++ PyStr.nl ++ "...")%string "session-1" 0
                (Example.turns 16) eq_refl (turns_answered 16))
    as (Hphases & _ & _ & _ & Hnext).
  split; [reflexivity |]. split; [exact (turns_answered 16) |].
  split; [exact Hphases |].
  exact (proj1 (Hnext Example.asking "Thanks."%string)).
Defined.

(** C1 as stated fails: after sixteen answered turns the session is still
    active, so the sixteenth call is not the completion signal, and phase 1
    is seen three times, not twice. *)
Lemma C1_counterexample :
  let session := run Example.fresh (Example.turns 16) in
  ~ (map obs_phase (firstn 15 (snd session))
     = [1; 1; 2; 2; 2; 2; 2; 2; 3; 3; 3; 3; 4; 4; 4]
     /\ status (fst session) = completed
     /\ total_questions (fst session) = 16).
Proof.
  intros session (Hphases & Hstatus & _).
  vm_compute in Hstatus. discriminate Hstatus.
Qed.

(** C2.  On an active session the phase check of a call advances exactly
    when [questions_asked_in_phase] has reached the quota of the current
    phase, and it runs before the message is generated: below phase 4 the
    phase grows by one, the counter is reset to 0 and the system prompt is
    rebuilt for the new phase, and the request of this same call carries
    that rebuilt prompt; in phase 4 the call closes the interview without
    a request; below the quota nothing moves before the generation. *)
Theorem C2_phase_check_before_generation :
  forall (client : NVIDIAClient) (self : Agent) (candidate_message : string),
    status self = active ->
    1 <= current_phase self <= 4 ->
    let received := append_message user candidate_message self in
    let result := process_candidate_response client self candidate_message in
    (_should_advance_phase received = Returned true
     <-> quota self <= questions_asked_in_phase self)
    /\ (quota self <= questions_asked_in_phase self ->
        current_phase self < 4 ->
        exists advanced,
          check_phase received = Continue advanced
          /\ current_phase advanced = current_phase self + 1
          /\ questions_asked_in_phase advanced = 0
          /\ system_prompt advanced
             = system_prompt_text (set_current_phase (current_phase self + 1) self)
          /\ result = generate_and_record client advanced
          /\ _generate_next_message client advanced
             = client {| messages :=
                           {| chat_role := system;
                              chat_content :=
                                system_prompt_text
                                  (set_current_phase (current_phase self + 1) self) |}
                           :: map (fun msg =>
                                     {| chat_role := InterviewMessage.role msg;
                                        chat_content := InterviewMessage.content msg |})
                                  (last_n 10 (conversation_history received));
                         model_type := "super";
                         temperature := 0.8 |}
          /\ current_phase (fst result) = current_phase self + 1)
    /\ (quota self <= questions_asked_in_phase self ->
        current_phase self = 4 ->
        result = _generate_closing (set_status completed received)
        /\ status (fst result) = completed
        /\ current_phase (fst result) = 4)
    /\ (questions_asked_in_phase self < quota self ->
        check_phase received = Continue received
        /\ result = generate_and_record client received
        /\ current_phase (fst result) = current_phase self
        /\ status (fst result) = active).
Proof.
  intros client self candidate_message Hactive Hrange received result.
  assert (Hsa : _should_advance_phase received
                = Returned (quota self <=? questions_asked_in_phase self)).
  { now apply (should_advance_in_range received). }
  pose proof (check_phaseP received) as V.
  split; [| split; [| split]].
  - rewrite Hsa. split.
    + intros E. injection E as E. lia.
    + intros L. f_equal. lia.
  - intros Hq Hlt.
    assert (Htrue : _should_advance_phase received = Returned true).
    { rewrite Hsa. f_equal. lia. }
    inversion V as [e He | Hf | Ht Hl | Ht Hl]; try congruence.
    2:{ change (current_phase received) with (current_phase self) in Hl. lia. }
    eexists. split; [reflexivity |].
    assert (Hres : result = generate_and_record client
              (_build_system_prompt
                 (set_questions_asked_in_phase 0
                    (set_current_phase (current_phase received + 1) received)))).
    { apply process_continue. now symmetry. }
    repeat split.
    + exact Hres.
    + rewrite Hres.
      destruct (generate_and_record_cases client
                  (_build_system_prompt
                     (set_questions_asked_in_phase 0
                        (set_current_phase (current_phase received + 1) received))))
        as [(e & _ & ->) | [(m & _ & _ & ->) | (t & _ & _ & ->)]]; reflexivity.
  - intros Hq H4.
    assert (Htrue : _should_advance_phase received = Returned true).
    { rewrite Hsa. f_equal. lia. }
    inversion V as [e He | Hf | Ht Hl | Ht Hl]; try congruence.
    1:{ change (current_phase received) with (current_phase self) in Hl. lia. }
    assert (Hres : result = _generate_closing (set_status completed received)).
    { apply process_finished. now symmetry. }
    rewrite Hres. repeat split. exact H4.
  - intros Hq.
    assert (Hfalse : _should_advance_phase received = Returned false).
    { rewrite Hsa. f_equal. lia. }
    inversion V as [e He | Hf | Ht Hl | Ht Hl]; try congruence.
    assert (Hres : result = generate_and_record client received).
    { apply process_continue. now symmetry. }
    split; [reflexivity |]. split; [exact Hres |].
    rewrite Hres.
    destruct (generate_and_record_cases client received)
      as [(e & _ & ->) | [(m & _ & _ & ->) | (t & _ & _ & ->)]];
      split; first [reflexivity | exact Hactive].
Qed.

(** C2 on the call that crosses from phase 1 to phase 2. *)
Lemma C2_witness :
  status (Example.after_turns 3) = active
  /\ 1 <= current_phase (Example.after_turns 3) <= 4
  /\ current_phase
       (fst (process_candidate_response Example.asking (Example.after_turns 3)
               "My answer."))
     = current_phase (Example.after_turns 3) + 1.
Proof.
  assert (Hrange : 1 <= current_phase (Example.after_turns 3) <= 4)
    by (split; discriminate).
  pose proof (C2_phase_check_before_generation Example.asking
                (Example.after_turns 3) "My answer."%string eq_refl Hrange)
    as (_ & Hcross & _).
  split; [reflexivity |]. split; [exact Hrange |].
  destruct Hcross as (advanced & _ & _ & _ & _ & _ & _ & Hphase);
    [discriminate | reflexivity | exact Hphase].
Defined.

(** C3 (as amended).  When the service fails in a call, the exception
    reaches the caller and the agent is the one the phase check handed
    over: the transcript has gained the candidate's message only, and
    [total_questions] and [status] are unchanged; the phase and the
    per-phase counter are unchanged too unless the quota had been reached
    below phase 4, in which case the phase has already grown by one, the
    counter is 0 and the system prompt is rebuilt. *)
Theorem C3_failed_generation :
  forall (client : NVIDIAClient) (self advanced : Agent)
         (candidate_message : string) (e : Exn),
    let received := append_message user candidate_message self in
    check_phase received = Continue advanced ->
    _generate_next_message client advanced = Raised e ->
    process_candidate_response client self candidate_message = (advanced, Raised e)
    /\ conversation_history advanced
       = conversation_history self
         ++ [{| InterviewMessage.role := user;
                InterviewMessage.content := candidate_message |}]
    /\ total_questions advanced = total_questions self
    /\ status advanced = status self
    /\ ((advanced = received
         /\ _should_advance_phase received = Returned false)
        \/ (_should_advance_phase received = Returned true
            /\ current_phase self < 4
            /\ current_phase advanced = current_phase self + 1
            /\ questions_asked_in_phase advanced = 0
            /\ system_prompt advanced = system_prompt_text advanced)).
Proof.
  intros client self advanced candidate_message e received Hcheck Hfail.
  destruct (check_phase_continue received advanced Hcheck)
    as (Hh & Ht & Hs & _ & _ & _ & _ & Hcases).
  split; [| repeat split; assumption].
  rewrite (process_continue client self advanced) by exact Hcheck.
  unfold generate_and_record. now rewrite Hfail.
Qed.

(** C3 on a failing call at the end of phase 1 and on one inside it. *)
Lemma C3_witness :
  process_candidate_response Example.failing (Example.after_turns 3) "My answer."
  = (Example.handed_over (Example.after_turns 3) "My answer.", Raised PortError)
  /\ process_candidate_response Example.failing (Example.after_turns 2) "My answer."
     = (append_message user "My answer." (Example.after_turns 2), Raised PortError).
Proof.
  assert (Hend : check_phase
                   (append_message user "My answer." (Example.after_turns 3))
                 = Continue
                     (Example.handed_over (Example.after_turns 3) "My answer."))
    by (vm_compute; reflexivity).
  assert (Hmid : check_phase
                   (append_message user "My answer." (Example.after_turns 2))
                 = Continue
                     (append_message user "My answer." (Example.after_turns 2)))
    by (vm_compute; reflexivity).
  split.
  - exact (proj1 (C3_failed_generation Example.failing (Example.after_turns 3)
                    (Example.handed_over (Example.after_turns 3) "My answer.")
                    "My answer."%string PortError Hend eq_refl)).
  - exact (proj1 (C3_failed_generation Example.failing (Example.after_turns 2)
                    (append_message user "My answer." (Example.after_turns 2))
                    "My answer."%string PortError Hmid eq_refl)).
Defined.

(** C3 as stated fails: with the quota of phase 1 reached, a call in which
    the service fails leaves the agent in phase 2 with the counter at 0,
    not as it was after the user message was appended. *)
Lemma C3_counterexample :
  let self := Example.after_turns 3 in
  let received := append_message user "My answer." self in
  let result := process_candidate_response Example.failing self "My answer." in
  reachable self
  /\ snd result = Raised PortError
  /\ fst result <> received
  /\ current_phase received = 1 /\ current_phase (fst result) = 2
  /\ questions_asked_in_phase received = 3
  /\ questions_asked_in_phase (fst result) = 0.
Proof.
  intros self received result.
  split; [apply run_reachable, reach_init |].
  split; [reflexivity |].
  split; [| repeat split; reflexivity].
  intros E. apply (f_equal current_phase) in E. discriminate E.
Qed.

(** C5.  In every reachable state [current_phase] lies in 1..4 and
    [questions_asked_in_phase] never exceeds the quota of the phase (so
    not by more than 1 either); no operation lowers the phase, a call
    raises it by at most one, and right after the phase check raised it
    the counter is exactly 0 (at most 1 at the end of that call). *)
Theorem C5_phase_bounds_and_reset :
  forall self : Agent,
    reachable self ->
    1 <= current_phase self <= 4
    /\ 0 <= questions_asked_in_phase self <= quota self
    /\ questions_asked_in_phase self <= quota self + 1
    /\ forall (client : NVIDIAClient) (candidate_message : string),
         let received := append_message user candidate_message self in
         let after :=
           fst (process_candidate_response client self candidate_message) in
         (current_phase after = current_phase self
          \/ current_phase after = current_phase self + 1)
         /\ 1 <= current_phase after <= 4
         /\ current_phase (fst (generate_opening client self)) = current_phase self
         /\ (forall advanced,
               check_phase received = Continue advanced ->
               current_phase advanced <> current_phase self ->
               current_phase advanced = current_phase self + 1
               /\ questions_asked_in_phase advanced = 0)
         /\ (current_phase after = current_phase self + 1 ->
             0 <= questions_asked_in_phase after <= 1).
Proof.
  intros self Hreach.
  destruct (reachable_invariant self Hreach) as (Hp & Hq & _).
  split; [exact Hp |]. split; [exact Hq |]. split; [lia |].
  intros client candidate_message received after.
  pose proof (process_phase_step client self candidate_message) as Hstep.
  pose proof (reachable_invariant _
                (reach_process self client candidate_message Hreach))
    as (Hp' & _).
  cbn zeta in Hstep. fold after in Hstep, Hp'.
  split; [destruct Hstep as [E | (E & _)]; auto |].
  split; [exact Hp' |].
  split.
  { destruct (generate_opening_cases client self) as [-> | (text & ->)];
      reflexivity. }
  split.
  - intros advanced Hcheck Hmoved.
    destruct (check_phase_continue received advanced Hcheck)
      as (_ & _ & _ & _ & _ & _ & _ & [(-> & _) | (_ & _ & E1 & E2 & _)]).
    + now destruct Hmoved.
    + split; assumption.
  - intros Hup. destruct Hstep as [E | (_ & E)]; lia.
Qed.

(** C5 on the session after three answered turns. *)
Lemma C5_witness :
  reachable (Example.after_turns 3)
  /\ 1 <= current_phase (Example.after_turns 3) <= 4
  /\ questions_asked_in_phase (Example.after_turns 3)
     <= quota (Example.after_turns 3) + 1.
Proof.
  assert (Hreach : reachable (Example.after_turns 3))
    by apply run_reachable, reach_init.
  pose proof (C5_phase_bounds_and_reset (Example.after_turns 3) Hreach)
    as (Hphase & _ & Hasked & _).
  split; [exact Hreach |]. split; [exact Hphase | exact Hasked].
Defined.

(** C6.  [total_questions] never decreases: a call adds 0 or 1 to it, and
    adds 1 exactly when the generation step ran and the service returned a
    non-empty message, in which case [questions_asked_in_phase] grows by 1
    with it; the phase check, [generate_opening] and [_generate_closing]
    leave both counters as they are. *)
Theorem C6_total_questions_counting :
  forall (client : NVIDIAClient) (self : Agent) (candidate_message : string),
    let received := append_message user candidate_message self in
    let result := process_candidate_response client self candidate_message in
    (total_questions (fst result) = total_questions self
     \/ total_questions (fst result) = total_questions self + 1)
    /\ (total_questions (fst result) = total_questions self + 1
        <-> exists advanced text,
              check_phase received = Continue advanced
              /\ _generate_next_message client advanced = Returned (Some text)
              /\ text <> "")
    /\ (forall advanced,
          check_phase received = Continue advanced ->
          questions_asked_in_phase (fst result) - questions_asked_in_phase advanced
          = total_questions (fst result) - total_questions self)
    /\ (forall finished,
          check_phase received = Finished finished ->
          total_questions (fst finished) = total_questions self
          /\ questions_asked_in_phase (fst finished) = questions_asked_in_phase self)
    /\ (total_questions (fst (generate_opening client self)) = total_questions self
        /\ questions_asked_in_phase (fst (generate_opening client self))
           = questions_asked_in_phase self)
    /\ (total_questions (fst (_generate_closing self)) = total_questions self
        /\ questions_asked_in_phase (fst (_generate_closing self))
           = questions_asked_in_phase self).
Proof.
  intros client self candidate_message received result.
  assert (Hfin : forall finished,
            check_phase received = Finished finished ->
            total_questions (fst finished) = total_questions self
            /\ questions_asked_in_phase (fst finished)
               = questions_asked_in_phase self).
  { intros finished Hcheck. pose proof (check_phaseP received) as V.
    rewrite Hcheck in V. inversion V; subst; split; reflexivity. }
  assert (Hcont : forall advanced,
            check_phase received = Continue advanced ->
            result = generate_and_record client advanced
            /\ total_questions advanced = total_questions self).
  { intros advanced Hcheck. split.
    - now apply process_continue.
    - now destruct (check_phase_continue received advanced Hcheck)
        as (_ & Ht & _). }
  split; [| split; [| split; [| split; [exact Hfin | split]]]].
  - destruct (check_phase received) as [advanced | finished] eqn:Hcheck.
    + destruct (Hcont advanced eq_refl) as (-> & <-).
      destruct (generate_and_record_cases client advanced)
        as [(e & _ & ->) | [(m & _ & _ & ->) | (t & _ & _ & ->)]];
        cbn; auto.
    + left. unfold result.
      rewrite (process_finished client self candidate_message finished Hcheck).
      now apply Hfin.
  - split.
    + intros Hinc.
      destruct (check_phase received) as [advanced | finished] eqn:Hcheck.
      * destruct (Hcont advanced eq_refl) as (Hres & Ht).
        rewrite Hres, <- Ht in Hinc.
        destruct (generate_and_record_cases client advanced)
          as [(e & _ & E) | [(m & _ & _ & E) | (t & Hgen & Htruthy & E)]];
          rewrite E in Hinc; cbn in Hinc; try lia.
        exists advanced, t. repeat split; try assumption.
        intros ->. discriminate.
      * unfold result in Hinc.
        rewrite (process_finished client self candidate_message finished Hcheck)
          in Hinc.
        destruct (Hfin finished eq_refl) as (Ht & _). lia.
    + intros (advanced & text & Hcheck & Hgen & Hne).
      destruct (Hcont advanced Hcheck) as (-> & <-).
      unfold generate_and_record. rewrite Hgen.
      destruct text as [| c rest]; [congruence | reflexivity].
  - intros advanced Hcheck.
    destruct (Hcont advanced Hcheck) as (-> & <-).
    destruct (generate_and_record_cases client advanced)
      as [(e & _ & ->) | [(m & _ & _ & ->) | (t & _ & _ & ->)]];
      cbn; lia.
  - destruct (generate_opening_cases client self) as [-> | (text & ->)];
      split; reflexivity.
  - split; reflexivity.
Qed.

(** C8.  The request a call sends holds the current system prompt and then
    the last ten messages of the transcript, the candidate's message just
    appended included, in their order and whatever their roles: the window
    is a suffix of the transcript of length min(10, length), and for a
    transcript of 30 messages it is exactly the last 10. *)
Theorem C8_conversation_window :
  forall (client : NVIDIAClient) (self advanced : Agent)
         (candidate_message : string),
    let transcript :=
      conversation_history self
      ++ [{| InterviewMessage.role := user;
             InterviewMessage.content := candidate_message |}] in
    let window := last_n 10 transcript in
    check_phase (append_message user candidate_message self) = Continue advanced ->
    process_candidate_response client self candidate_message
    = generate_and_record client advanced
    /\ _generate_next_message client advanced
       = client {| messages :=
                     {| chat_role := system;
                        chat_content := system_prompt advanced |}
                     :: map (fun msg =>
                               {| chat_role := InterviewMessage.role msg;
                                  chat_content := InterviewMessage.content msg |})
                            window;
                   model_type := "super";
                   temperature := 0.8 |}
    /\ (exists older, transcript = older ++ window)
    /\ (List.length window <= 10)%nat
    /\ List.length window = Nat.min 10 (List.length transcript)
    /\ (List.length transcript = 30%nat ->
        window = skipn 20 transcript /\ List.length window = 10%nat).
Proof.
  intros client self advanced candidate_message transcript window Hcheck.
  destruct (check_phase_continue _ advanced Hcheck) as (Hh & _).
  change (conversation_history (append_message user candidate_message self))
    with transcript in Hh.
  split; [now apply process_continue |].
  split.
  { unfold _generate_next_message, next_message_request. now rewrite Hh. }
  split.
  { exists (firstn (List.length transcript - 10) transcript). apply last_n_suffix. }
  pose proof (last_n_length 10 transcript) as Hlen. fold window in Hlen.
  repeat split; try lia.
  unfold window, last_n. now rewrite H.
Qed.

(** C8 on a session whose transcript reaches 30 messages with the call. *)
Lemma C8_witness :
  List.length
    (conversation_history Example.long_session
     ++ [{| InterviewMessage.role := user;
            InterviewMessage.content := "My answer." |}]) = 30%nat
  /\ List.length
       (last_n 10
          (conversation_history Example.long_session
           ++ [{| InterviewMessage.role := user;
                  InterviewMessage.content := "My answer." |}])) = 10%nat.
Proof.
  pose proof (C8_conversation_window Example.asking Example.long_session
                (Example.handed_over Example.long_session "My answer.")
                "My answer."%string eq_refl)
    as (_ & _ & _ & _ & _ & Hthirty).
  split; [reflexivity |].
  exact (proj2 (Hthirty eq_refl)).
Defined.

(** C10.  On a reachable session whose status is [completed] (it is then
    in phase 4 with the quota used up) a further call appends the
    candidate's message and the closing message, returns the closing
    message, and leaves the phase, both counters and the status as they
    are. *)
Theorem C10_completed_session_repeats_closing :
  forall (client : NVIDIAClient) (self : Agent) (candidate_message : string),
    reachable self ->
    status self = completed ->
    let result := process_candidate_response client self candidate_message in
    result
    = (append_message assistant closing
         (append_message user candidate_message self),
       Returned (Some closing))
    /\ conversation_history (fst result)
       = conversation_history self
         ++ [{| InterviewMessage.role := user;
                InterviewMessage.content := candidate_message |};
             {| InterviewMessage.role := assistant;
                InterviewMessage.content := closing |}]
    /\ current_phase (fst result) = current_phase self
    /\ questions_asked_in_phase (fst result) = questions_asked_in_phase self
    /\ total_questions (fst result) = total_questions self
    /\ status (fst result) = status self
    /\ current_phase self = 4
    /\ quota self <= questions_asked_in_phase self.
Proof.
  intros client self candidate_message Hreach Hdone result.
  destruct (reachable_invariant self Hreach) as (Hp & Hq & _ & Hc & _).
  destruct (Hc Hdone) as (E4 & E3).
  assert (Q4 : quota self = 3) by (unfold quota; now rewrite E4).
  set (received := append_message user candidate_message self).
  assert (Hsa : _should_advance_phase received = Returned true).
  { rewrite (should_advance_in_range received) by exact Hp.
    f_equal. change (quota received) with (quota self).
    change (questions_asked_in_phase received)
      with (questions_asked_in_phase self). lia. }
  assert (Hres : result
                 = (append_message assistant closing received,
                    Returned (Some closing))).
  { unfold result, process_candidate_response, check_phase.
    fold received. rewrite Hsa.
    change (current_phase received) with (current_phase self). rewrite E4.
    cbn [Z.ltb Z.compare Pos.compare Pos.compare_cont].
    unfold _generate_closing.
    now rewrite (set_status_same received completed Hdone). }
  rewrite Hres. cbn [fst].
  repeat split; try lia.
  unfold received. cbn. now rewrite <- app_assoc.
Qed.

(** C10 on the session after the seventeenth call. *)
Lemma C10_witness :
  reachable (Example.after_turns 17)
  /\ status (Example.after_turns 17) = completed
  /\ snd (process_candidate_response Example.asking (Example.after_turns 17)
            "One more thing.")
     = Returned (Some closing)
  /\ total_questions
       (fst (process_candidate_response Example.asking (Example.after_turns 17)
               "One more thing."))
     = total_questions (Example.after_turns 17).
Proof.
  assert (Hreach : reachable (Example.after_turns 17))
    by apply run_reachable, reach_init.
  pose proof (C10_completed_session_repeats_closing Example.asking
                (Example.after_turns 17) "One more thing."%string Hreach eq_refl)
    as (Hresult & _ & _ & _ & Htotal & _).
  split; [exact Hreach |]. split; [reflexivity |].
  split; [now rewrite Hresult | exact Htotal].
Defined.

Import AssessmentEngine PyStrFacts TitleFacts EngineFacts.

(** C4.  [generate_report] always returns a report that satisfies the
    constraints of [InterviewReport], whatever the service and the
    libraries do; whenever the body of its [try] raises (the service
    fails, the response cannot be parsed, a field is missing or invalid),
    the report is the neutral fallback: 5.0 overall, [maybe], and exactly
    four phase entries, one per phase of the catalogue, every score and
    the average 5.0. *)
Theorem C4_report_generation_is_total :
  forall (json_loads : string -> option json)
         (float_of_str : string -> option float)
         (validate_int : json -> option Z)
         (validate_str : json -> option string)
         (validate_float : json -> option float)
         (validate_str_list : json -> option (list string))
         (client : NVIDIAClient) (interview_state : InterviewState.t)
         (candidate_skills : list string),
    exists report : InterviewReport.t,
      generate_report json_loads float_of_str validate_int validate_str
        validate_float validate_str_list client interview_state candidate_skills
      = Returned report
      /\ InterviewReport.valid report = true
      /\ (forall e,
            generate_report_try json_loads float_of_str validate_int validate_str
              validate_float validate_str_list client interview_state
            = Raised e ->
            _generate_fallback_report interview_state = Returned report
            /\ neutral_fallback report)
      /\ (forall e,
            client (assessment_request interview_state) = Raised e ->
            neutral_fallback report)
      /\ (forall response e,
            client (assessment_request interview_state) = Returned response ->
            _parse_assessment_response json_loads response = Raised e ->
            neutral_fallback report).
Proof.
  intros json_loads float_of_str validate_int validate_str validate_float
    validate_str_list client interview_state candidate_skills.
  unfold generate_report.
  destruct (generate_report_try json_loads float_of_str validate_int validate_str
              validate_float validate_str_list client interview_state)
    as [report | e0] eqn:Htry.
  - exists report. split; [reflexivity |].
    split; [now apply generate_report_try_valid in Htry |].
    unfold generate_report_try in Htry.
    split; [discriminate |]. split.
    + intros e He. rewrite He in Htry. discriminate Htry.
    + intros response e Hr He. rewrite Hr in Htry. cbn [bind] in Htry.
      rewrite He in Htry. discriminate Htry.
  - destruct (fallback_returned interview_state) as (report & Hf & Hv & Hn).
    exists report.
    split; [exact Hf |]. split; [exact Hv |].
    split; [intros e _; now split |].
    split; [intros e _; exact Hn | intros response e _ _; exact Hn].
Qed.

(** C7.  Every [PhaseScore] that [_parse_phase_scores] produces carries
    the four sub-scores read from its entry and, as [average_score], their
    sum divided by 4, computed in binary64 in the order the code adds them;
    an entry whose four sub-scores are floats in range yields that score
    whatever else the entry holds, a supplied [average_score] included. *)
Theorem C7_average_is_recomputed :
  forall (float_of_str : string -> option float)
         (validate_int : json -> option Z)
         (validate_str : json -> option string),
    (forall (phase_data : json) (scores : list PhaseScore.t),
       _parse_phase_scores float_of_str validate_int validate_str phase_data
       = Returned scores ->
       exists phases,
         PyJson.iter phase_data = Returned phases
         /\ Forall2
              (fun phase score =>
                 exists a b c d : float,
                   sub_score float_of_str phase "technical_accuracy" = Returned a
                   /\ sub_score float_of_str phase "problem_solving" = Returned b
                   /\ sub_score float_of_str phase "communication" = Returned c
                   /\ sub_score float_of_str phase "depth_of_knowledge" = Returned d
                   /\ PhaseScore.technical_accuracy score = a
                   /\ PhaseScore.problem_solving score = b
                   /\ PhaseScore.communication score = c
                   /\ PhaseScore.depth_of_knowledge score = d
                   /\ PhaseScore.average_score score = ((a + b + c + d) / 4)%float)
              phases scores)
    /\ (forall (items : list (string * json)) (number name : json)
               (n : Z) (title : string) (a b c d : float),
          PyJson.lookup "phase_number" items = Some number ->
          PyJson.lookup "phase_name" items = Some name ->
          PyJson.lookup "technical_accuracy" items = Some (JFloat a) ->
          PyJson.lookup "problem_solving" items = Some (JFloat b) ->
          PyJson.lookup "communication" items = Some (JFloat c) ->
          PyJson.lookup "depth_of_knowledge" items = Some (JFloat d) ->
          validate_int number = Some n ->
          validate_str name = Some title ->
          ge1_le4 n = true ->
          ge0_le10 a = true -> ge0_le10 b = true ->
          ge0_le10 c = true -> ge0_le10 d = true ->
          _parse_phase_scores float_of_str validate_int validate_str
            (JList [JDict items])
          = Returned
              [ {| PhaseScore.phase_number := n;
                   PhaseScore.phase_name := title;
                   PhaseScore.technical_accuracy := a;
                   PhaseScore.problem_solving := b;
                   PhaseScore.communication := c;
                   PhaseScore.depth_of_knowledge := d;
                   PhaseScore.average_score := ((a + b + c + d) / 4)%float |} ]).
Proof.
  intros float_of_str validate_int validate_str. split.
  - intros phase_data scores H. unfold _parse_phase_scores in H.
    apply bind_returned in H as (phases & Hiter & H).
    exists phases. split; [exact Hiter |].
    apply mapM_returned in H.
    eapply Forall2_impl; [| exact H].
    intros phase score Hone.
    apply parse_phase_score_returned in Hone
      as (a & b & c & d & Ha & Hb & Hc & Hd & Ea & Eb & Ec & Ed & Eavg & _).
    exists a, b, c, d. repeat split; assumption.
  - intros items number name n title a b c d
      Hnumber Hname Ha Hb Hc Hd Hn Htitle Vn Va Vb Vc Vd.
    unfold _parse_phase_scores. cbn [PyJson.iter bind mapM].
    unfold parse_phase_score, sub_score, PyJson.getitem.
    rewrite Hnumber, Hname, Ha, Hb, Hc, Hd. cbn [of_option bind py_float].
    rewrite Hn, Htitle. cbn [of_option bind].
    unfold PhaseScore.new. rewrite Vn, Va, Vb, Vc, Vd. reflexivity.
Qed.

(** C7 on an entry that supplies the average 1.0 with the sub-scores
    8, 7, 9 and 6: the score produced has the average 7.5. *)
Lemma C7_witness :
  _parse_phase_scores Example.no_float Example.strict_int Example.strict_str
    (JList [JDict Example.model_items])
  = Returned
      [ {| PhaseScore.phase_number := 2;
           PhaseScore.phase_name := "Technical Depth";
           PhaseScore.technical_accuracy := 8;
           PhaseScore.problem_solving := 7;
           PhaseScore.communication := 9;
           PhaseScore.depth_of_knowledge := 6;
           PhaseScore.average_score := ((8 + 7 + 9 + 6) / 4)%float |} ]
  /\ ((8 + 7 + 9 + 6) / 4)%float = 7.5%float
  /\ PyJson.lookup "average_score" Example.model_items = Some (JFloat 1).
Proof.
  split; [| split; reflexivity].
  apply (proj2 (C7_average_is_recomputed Example.no_float Example.strict_int
                  Example.strict_str)
           Example.model_items (JInt 2) (JStr "Technical Depth"));
    reflexivity.
Defined.

(** C9 (as amended).  [_extract_job_title] takes the first line of the
    job description with the surrounding white space stripped; it returns
    that stripped line exactly when it is shorter than 100 characters and
    contains one of the keywords in lower case, and the default title
    otherwise.  A line without surrounding white space is returned as it
    is, such a line is never empty, and the two examples of the
    specification hold. *)
Theorem C9_job_title_from_first_line :
  forall job_description line : string,
    first_line_of job_description line ->
    let first_line := PyStr.strip line in
    (_extract_job_title job_description = first_line <-> names_a_role first_line)
    /\ (~ names_a_role first_line ->
        _extract_job_title job_description = "Software Engineer"%string)
    /\ (names_a_role first_line -> first_line <> ""%string)
    /\ (PyStr.no_outer_space line -> first_line = line)
    /\ (line = "Senior Backend Engineer"%string ->
        _extract_job_title job_description = "Senior Backend Engineer"%string)
    /\ (line = "We are hiring!"%string ->
        _extract_job_title job_description = "Software Engineer"%string).
Proof.
  intros job_description line Hline first_line.
  pose proof (extract_job_title_first_line _ _ Hline) as E.
  fold first_line in E.
  pose proof (names_a_role_test first_line) as T.
  destruct ((PyStr.len first_line <? 100)
            && existsb (fun keyword =>
                          PyStr.contains keyword (PyStr.lower first_line))
                       keywords) eqn:Test.
  - assert (R : names_a_role first_line) by now apply T.
    split; [| split; [| split; [| split; [| split]]]].
    + split; intros _; [exact R | exact E].
    + intros N. now destruct N.
    + intros _ Hempty. rewrite Hempty in Test. discriminate Test.
    + apply strip_no_outer_space.
    + intros Hl. rewrite E. unfold first_line. now rewrite Hl.
    + intros Hl. unfold first_line in Test. rewrite Hl in Test.
      discriminate Test.
  - assert (R : ~ names_a_role first_line).
    { intros R. apply T in R. discriminate R. }
    split; [| split; [| split; [| split; [| split]]]].
    + split; [| intros N; now destruct R].
      intros Hres. rewrite E in Hres. rewrite <- Hres in Test.
      discriminate Test.
    + intros _. exact E.
    + intros N. now destruct R.
    + apply strip_no_outer_space.
    + intros Hl. unfold first_line in Test. rewrite Hl in Test.
      discriminate Test.
    + intros _. exact E.
Qed.

(** C9 on the job description of the scenario of the specification. *)
Lemma C9_witness :
  first_line_of ("Senior Backend Engineer" ++ PyStr.nl ++ "Remote")%string
    "Senior Backend Engineer"
  /\ _extract_job_title ("Senior Backend Engineer" ++ PyStr.nl ++ "Remote")%string
     = "Senior Backend Engineer"%string.
Proof.
  assert (Hline : first_line_of
                    ("Senior Backend Engineer" ++ PyStr.nl ++ "Remote")%string
                    "Senior Backend Engineer").
  { split; [reflexivity |]. right. now exists "Remote"%string. }
  pose proof (C9_job_title_from_first_line _ _ Hline)
    as (_ & _ & _ & _ & Hsenior & _).
  split; [exact Hline | exact (Hsenior eq_refl)].
Defined.

(** C9 as stated fails: the first line [" Engineer"] is non-empty, shorter
    than 100 characters and contains a keyword, yet the title returned is
    not that line verbatim. *)
Lemma C9_counterexample :
  first_line_of " Engineer" " Engineer"
  /\ " Engineer"%string <> ""%string
  /\ PyStr.len " Engineer" < 100
  /\ occurs "engineer" (PyStr.lower " Engineer")
  /\ _extract_job_title " Engineer" <> " Engineer"%string.
Proof.
  repeat split.
  - now left.
  - discriminate.
  - now exists " "%string, ""%string.
  - discriminate.
Qed.

(** * Further properties of the interview agent *)

Module ProgressFacts.

Import InterviewAgent Session AgentFacts Progress.

Lemma asked_before_values :
asked_before 1 = 0 /\ asked_before 2 = 3 /\ asked_before 3 = 9
/\ asked_before 4 = 13 /\ all_questions = 16.
Proof. repeat split; reflexivity. Qed.

Lemma asked_before_next (phase : Z) :
1 <= phase < 4 ->
asked_before (phase + 1) = asked_before phase + quota_of phase.
Proof.
intros H.
assert (C : phase = 1 \/ phase = 2 \/ phase = 3) by lia.
destruct C as [-> | [-> | ->]]; reflexivity.
Qed.

Lemma processP (client : NVIDIAClient) (self : Agent) (candidate_message : string) :
process_view client self candidate_message
  (process_candidate_response client self candidate_message).
Proof.
set (received := append_message user candidate_message self).
pose proof (check_phaseP received) as V.
inversion V as [e He Hc | Hf Hc | Ha Hl Hc | Ha Hl Hc]; symmetry in Hc.
- rewrite (process_finished client self candidate_message _ Hc).
  now apply pv_raise.
- rewrite (process_continue client self _ candidate_message Hc).
  now apply pv_generate.
- rewrite (process_continue client self
             (_build_system_prompt
                (set_questions_asked_in_phase 0
                   (set_current_phase (current_phase received + 1) received)))
             candidate_message Hc).
  now apply pv_generate.
- rewrite (process_finished client self candidate_message _ Hc).
  now apply pv_close.
Qed.


Lemma same_session_refl (a : Agent) : same_session a a.
Proof. repeat split. Qed.

Lemma same_session_trans (a b c : Agent) :
same_session a b -> same_session b c -> same_session a c.
Proof.
intros (H1 & H2 & H3 & H4) (K1 & K2 & K3 & K4).
repeat split; congruence.
Qed.

Lemma generate_and_record_same (client : NVIDIAClient) (self : Agent) :
same_session self (fst (generate_and_record client self)).
Proof.
destruct (generate_and_record_cases client self)
  as [(e & _ & ->) | [(m & _ & _ & ->) | (t & _ & _ & ->)]];
  repeat split.
Qed.

Lemma process_same_session (client : NVIDIAClient) (self : Agent)
  (candidate_message : string) :
same_session self
  (fst (process_candidate_response client self candidate_message)).
Proof.
destruct (processP client self candidate_message)
  as [e He | Ha Hl | advanced Hc].
- repeat split.
- repeat split.
- apply same_session_trans with advanced.
  + destruct (check_phase_continue _ advanced Hc)
      as (_ & _ & _ & P & J & I & S & _).
    repeat split; symmetry; assumption.
  + apply generate_and_record_same.
Qed.

Lemma opening_same_session (client : NVIDIAClient) (self : Agent) :
same_session self (fst (generate_opening client self)).
Proof.
destruct (generate_opening_cases client self) as [-> | (text & ->)];
  repeat split.
Qed.


Lemma prompt_invariant (self : Agent) :
reachable self -> system_prompt self = system_prompt_text self.
Proof.
induction 1 as [profile jd uuid now | self client Hreach IH
               | self client candidate_message Hreach IH].
- reflexivity.
- destruct (generate_opening_cases client self) as [-> | (text & ->)];
    [exact IH |].
  cbn [system_prompt append_message]. rewrite IH.
  now apply system_prompt_text_ext.
- assert (Hgen : forall agent,
            system_prompt agent = system_prompt_text agent ->
            system_prompt (fst (generate_and_record client agent))
            = system_prompt_text (fst (generate_and_record client agent))).
  { intros agent Hagent.
    destruct (generate_and_record_cases client agent)
      as [(e & _ & ->) | [(m & _ & _ & ->) | (t & _ & _ & ->)]];
      cbn [fst]; exact Hagent. }
  destruct (processP client self candidate_message)
    as [e He | Ha Hl | advanced Hc]; cbn [fst].
  + cbn [system_prompt append_message]. rewrite IH.
    now apply system_prompt_text_ext.
  + cbn [system_prompt append_message set_status]. rewrite IH.
    now apply system_prompt_text_ext.
  + apply Hgen.
    destruct (check_phase_continue _ advanced Hc)
      as (_ & _ & _ & _ & _ & _ & _ & [(-> & _) | (_ & _ & _ & _ & E)]);
      [| exact E].
    cbn [system_prompt append_message]. rewrite IH.
    now apply system_prompt_text_ext.
Qed.

Lemma run_same_session (turns : list (NVIDIAClient * string)) :
forall self : Agent, same_session self (fst (run self turns)).
Proof.
induction turns as [| [client candidate_message] rest IH]; intros self.
- apply same_session_refl.
- cbn [run].
  pose proof (IH (fst (process_candidate_response client self candidate_message)))
    as R.
  destruct (run (fst (process_candidate_response client self candidate_message))
                rest) as [final observations].
  cbn [fst] in *.
  eapply same_session_trans; [apply process_same_session | exact R].
Qed.

Lemma generate_and_record_history (client : NVIDIAClient) (self : Agent) :
let result := generate_and_record client self in
(conversation_history (fst result) = conversation_history self
 /\ (forall text, snd result = Returned (Some text) -> text = ""%string))
\/ exists text,
     text <> ""%string
     /\ snd result = Returned (Some text)
     /\ conversation_history (fst result)
        = conversation_history self
          ++ [{| InterviewMessage.role := assistant;
                 InterviewMessage.content := text |}].
Proof.
destruct (generate_and_record_cases client self)
  as [(e & _ & ->) | [(m & _ & Hm & ->) | (t & _ & Ht & ->)]]; cbn [fst snd].
- left. split; [reflexivity | discriminate].
- left. split; [reflexivity |].
  intros text E. injection E as ->. now destruct text.
- right. exists t. repeat split.
  intros ->. discriminate Ht.
Qed.

Lemma total_invariant (self : Agent) :
reachable self ->
total_questions self
= asked_before (current_phase self) + questions_asked_in_phase self.
Proof.
induction 1 as [profile jd uuid now | self client Hreach IH
               | self client candidate_message Hreach IH].
- reflexivity.
- destruct (generate_opening_cases client self) as [-> | (text & ->)];
    exact IH.
- destruct (reachable_invariant self Hreach) as (Hp & Hq & _).
  assert (Hgen : forall agent,
            total_questions agent
            = asked_before (current_phase agent) + questions_asked_in_phase agent ->
            total_questions (fst (generate_and_record client agent))
            = asked_before (current_phase (fst (generate_and_record client agent)))
              + questions_asked_in_phase (fst (generate_and_record client agent))).
  { intros agent Hagent.
    destruct (generate_and_record_cases client agent)
      as [(e & _ & ->) | [(m & _ & _ & ->) | (t & _ & _ & ->)]];
      cbn [fst]; try exact Hagent.
    cbn [total_questions current_phase questions_asked_in_phase
           append_message set_total_questions set_questions_asked_in_phase].
    lia. }
  destruct (processP client self candidate_message)
    as [e He | Ha Hl | advanced Hc]; cbn [fst]; try exact IH.
  apply Hgen.
  destruct (check_phase_continue _ advanced Hc)
    as (_ & Ht & _ & _ & _ & _ & _ & [(-> & _) | (Ha & Hl & Ep & Eq & _)]);
    [exact IH |].
  change (current_phase (append_message user candidate_message self))
    with (current_phase self) in *.
  rewrite (should_advance_in_range
             (append_message user candidate_message self) Hp) in Ha.
  injection Ha as Ha. apply Z.leb_le in Ha.
  change (quota (append_message user candidate_message self))
    with (quota_of (current_phase self)) in Ha.
  change (questions_asked_in_phase
            (append_message user candidate_message self))
    with (questions_asked_in_phase self) in Ha.
  unfold quota in Hq.
  rewrite Ht, Ep, Eq, asked_before_next by lia.
  cbn [total_questions append_message]. lia.
Qed.


Lemma process_counts (client : NVIDIAClient) (self : Agent)
  (candidate_message : string) :
let after := fst (process_candidate_response client self candidate_message) in
total_questions self <= total_questions after <= total_questions self + 1
/\ (status after = status self
    \/ (status after = completed
        /\ 4 <= current_phase self
        /\ _should_advance_phase self = Returned true)).
Proof.
destruct (processP client self candidate_message)
  as [e He | Ha Hl | advanced Hc]; cbn [fst].
- split; [cbn; lia | now left].
- split; [cbn; lia | right; now repeat split].
- destruct (check_phase_continue _ advanced Hc) as (_ & Ht & Hs & _).
  change (total_questions (append_message user candidate_message self))
    with (total_questions self) in Ht.
  change (status (append_message user candidate_message self))
    with (status self) in Hs.
  destruct (generate_and_record_cases client advanced)
    as [(e & _ & ->) | [(m & _ & _ & ->) | (t & _ & _ & ->)]]; cbn [fst];
    (split; [cbn; lia | left; exact Hs]).
Qed.

Lemma completed_step (client : NVIDIAClient) (self : Agent)
  (candidate_message : string) :
reachable self ->
status self = completed ->
let result := process_candidate_response client self candidate_message in
counters (fst result) = counters self /\ snd result = Returned (Some closing).
Proof.
intros Hreach Hdone.
destruct (reachable_invariant self Hreach) as (Hp & _ & _ & Hc & _).
destruct (Hc Hdone) as (E4 & E3).
cbn zeta. rewrite process_closing; [| exact E4 |].
- unfold counters. cbn. now rewrite Hdone.
- unfold quota. rewrite E4, E3.
  destruct quota_of_values as (_ & _ & _ & ->). lia.
Qed.

Lemma completion_needs_calls (turns : list (NVIDIAClient * string)) :
forall self : Agent,
  reachable self ->
  status self = active ->
  status (fst (run self turns)) = completed ->
  17 <= total_questions self + Z.of_nat (List.length turns).
Proof.
induction turns as [| [client candidate_message] rest IH];
  intros self Hreach Hactive Hfinal.
- cbn in Hfinal. congruence.
- cbn [run] in Hfinal.
  pose proof (process_counts client self candidate_message) as (Ht & Hs).
  pose proof (reach_process self client candidate_message Hreach) as Hreach'.
  pose proof (IH (fst (process_candidate_response client self candidate_message))
                Hreach') as IH'.
  destruct (run (fst (process_candidate_response client self candidate_message))
                rest) as [final observations].
  cbn [fst] in *. cbn [List.length].
  destruct Hs as [Hs | (_ & H4 & Ha)].
  + rewrite Hactive in Hs. specialize (IH' Hs Hfinal). lia.
  + destruct (reachable_invariant self Hreach) as (Hp & Hq & _).
    rewrite (should_advance_in_range self Hp) in Ha.
    injection Ha as Ha. apply Z.leb_le in Ha.
    pose proof (total_invariant self Hreach) as Htotal.
    assert (E4 : current_phase self = 4) by lia.
    unfold quota in Ha. rewrite E4 in *.
    destruct quota_of_values as (_ & _ & _ & Q4).
    destruct asked_before_values as (_ & _ & _ & B4 & _).
    lia.
Qed.

End ProgressFacts.

Import InterviewAgent Session AgentFacts Progress ProgressFacts.

(** X1.  On every session reachable from [__init__] the stored system prompt is
    the prompt text of the current phase; after the phase check of a call
    that goes on to generate, this still holds of the agent handed over,
    and the first message of the request sent to the service is that
    prompt. *)
Theorem X1_system_prompt_names_current_phase :
  forall self : Agent,
    reachable self ->
    system_prompt self = system_prompt_text self
    /\ forall (candidate_message : string) (advanced : Agent),
         check_phase (append_message user candidate_message self)
         = Continue advanced ->
         system_prompt advanced = system_prompt_text advanced
         /\ hd_error (next_message_request advanced)
            = Some {| chat_role := system;
                      chat_content := system_prompt_text advanced |}.
Proof.
  intros self Hreach.
  pose proof (prompt_invariant self Hreach) as Hself.
  split; [exact Hself |].
  intros candidate_message advanced Hcheck.
  assert (Hadv : system_prompt advanced = system_prompt_text advanced).
  { destruct (check_phase_continue _ advanced Hcheck)
      as (_ & _ & _ & _ & _ & _ & _ & [(-> & _) | (_ & _ & _ & _ & E)]);
      [exact Hself | exact E]. }
  split; [exact Hadv |].
  unfold next_message_request. cbn [hd_error]. now rewrite Hadv.
Qed.

Lemma X1_witness :
  system_prompt (Example.after_turns 3)
  = system_prompt_text (Example.after_turns 3).
Proof.
  assert (Hreach : reachable (Example.after_turns 3))
    by apply run_reachable, reach_init.
  exact (proj1 (X1_system_prompt_names_current_phase (Example.after_turns 3)
                  Hreach)).
Defined.

(** X2.  No operation of the agent writes the session identifier, the candidate
    profile, the job description or the start time: they are the same
    after [process_candidate_response], after [generate_opening] and after
    any sequence of calls, whatever the service does. *)
Theorem X2_session_identity_is_kept :
  forall (client : NVIDIAClient) (self : Agent) (candidate_message : string)
         (turns : list (NVIDIAClient * string)),
    same_session self
      (fst (process_candidate_response client self candidate_message))
    /\ same_session self (fst (generate_opening client self))
    /\ same_session self (fst (run self turns)).
Proof.
  intros client self candidate_message turns.
  split; [apply process_same_session |].
  split; [apply opening_same_session | apply run_same_session].
Qed.

(** X3.  On every reachable session [total_questions] is the sum of the quotas of
    the phases already left plus [questions_asked_in_phase]; it lies
    between 0 and 16, the sum of all quotas. *)
Theorem X3_total_questions_by_phase :
  forall self : Agent,
    reachable self ->
    total_questions self
    = asked_before (current_phase self) + questions_asked_in_phase self
    /\ 0 <= total_questions self <= all_questions
    /\ all_questions = 16.
Proof.
  intros self Hreach.
  pose proof (total_invariant self Hreach) as Htotal.
  destruct (reachable_invariant self Hreach) as (Hp & Hq & Ht & _).
  split; [exact Htotal |]. split; [| reflexivity].
  split; [exact Ht |].
  rewrite Htotal. unfold quota in Hq.
  destruct asked_before_values as (B1 & B2 & B3 & B4 & ->).
  destruct quota_of_values as (Q1 & Q2 & Q3 & Q4).
  destruct (phase_in_range_cases _ Hp) as [E | [E | [E | E]]];
    rewrite E in *; lia.
Qed.

Lemma X3_witness :
  total_questions (Example.after_turns 3)
  = asked_before (current_phase (Example.after_turns 3))
    + questions_asked_in_phase (Example.after_turns 3).
Proof.
  assert (Hreach : reachable (Example.after_turns 3))
    by apply run_reachable, reach_init.
  exact (proj1 (X3_total_questions_by_phase (Example.after_turns 3) Hreach)).
Defined.

(** X4.  A completed reachable session has asked 16 questions, and stays as it is:
    whatever calls follow and whatever the service does, the phase, the
    counters and the status do not change, and every call returns the
    closing message. *)
Theorem X4_completed_is_final :
  forall (self : Agent) (turns : list (NVIDIAClient * string)),
    reachable self ->
    status self = completed ->
    total_questions self = 16
    /\ counters (fst (run self turns)) = counters self
    /\ Forall (fun o => obs_result o = Returned (Some closing)
                        /\ obs_status o = completed)
              (snd (run self turns)).
Proof.
  intros self turns Hreach Hdone.
  split.
  { destruct (reachable_invariant self Hreach) as (_ & _ & _ & Hc & _).
    destruct (Hc Hdone) as (E4 & E3).
    rewrite (total_invariant self Hreach), E4, E3. reflexivity. }
  revert self Hreach Hdone.
  induction turns as [| [client candidate_message] rest IH];
    intros self Hreach Hdone.
  - split; [reflexivity | constructor].
  - cbn [run].
    destruct (completed_step client self candidate_message Hreach Hdone)
      as (Hc & Hr).
    assert (Hdone' : status
              (fst (process_candidate_response client self candidate_message))
              = completed).
    { unfold counters in Hc. injection Hc as _ _ _ Hs. congruence. }
    destruct (IH _ (reach_process self client candidate_message Hreach) Hdone')
      as (IHc & IHo).
    destruct (run (fst (process_candidate_response client self candidate_message))
                  rest) as [final observations].
    cbn [fst snd] in *. split; [congruence |].
    constructor; [| exact IHo].
    unfold observe; cbn [obs_result obs_status]. now split.
Qed.

Lemma X4_witness :
  total_questions (Example.after_turns 17) = 16
  /\ counters (fst (run (Example.after_turns 17) (Example.turns 2)))
     = counters (Example.after_turns 17).
Proof.
  assert (Hreach : reachable (Example.after_turns 17))
    by apply run_reachable, reach_init.
  assert (Hdone : status (Example.after_turns 17) = completed)
    by (vm_compute; reflexivity).
  pose proof (X4_completed_is_final (Example.after_turns 17) (Example.turns 2)
                Hreach Hdone) as (Htotal & Hsame & _).
  split; [exact Htotal | exact Hsame].
Defined.

(** X5.  A new session is still active after any sixteen or fewer calls of
    [process_candidate_response], whatever the candidate says and
    whatever the service does in each call. *)
Theorem X5_no_completion_within_sixteen_calls :
  forall (candidate_profile : CandidateProfile.t)
         (job_description uuid : string) (now : Z)
         (turns : list (NVIDIAClient * string)),
    (List.length turns <= 16)%nat ->
    status (fst (run (init candidate_profile job_description uuid now) turns))
    = active.
Proof.
  intros candidate_profile job_description uuid now turns Hlen.
  set (self := init candidate_profile job_description uuid now).
  assert (Hreach : reachable self) by apply reach_init.
  destruct (status (fst (run self turns))) eqn:Hfinal.
  - reflexivity.
  - pose proof (completion_needs_calls turns self Hreach eq_refl Hfinal) as H.
    change (total_questions self) with 0 in H. lia.
  - destruct (reachable_invariant _ (run_reachable turns self Hreach))
      as (_ & _ & _ & _ & Hn).
    now destruct Hn.
Qed.

Lemma X5_witness :
  status (fst (run Example.fresh (Example.turns 16))) = active.
Proof.
  assert (Hlen : (List.length (Example.turns 16) <= 16)%nat)
    by (vm_compute; lia).
  exact (X5_no_completion_within_sixteen_calls Example.jane
           ("Backend Engineer" ++ PyStr.nl ++ "...")%string "session-1" 0
           (Example.turns 16) Hlen).
Defined.

(** X6.  [get_interview_state] returns the agent's identifier, profile, job
    description, phase, total, transcript, start time and status when the
    phase is between 1 and 4, which holds on every reachable session.  For
    a phase from -3 to 0 the catalogue lookup succeeds from the end of the
    list and the state model refuses the phase; for any other phase the
    lookup raises [IndexError]. *)
Theorem X6_snapshot_needs_a_valid_phase :
  forall self : Agent,
    let snapshot :=
      {| InterviewState.session_id := session_id self;
         InterviewState.candidate_profile := candidate_profile self;
         InterviewState.job_description := job_description self;
         InterviewState.current_phase := current_phase self;
         InterviewState.total_questions := total_questions self;
         InterviewState.conversation_history := conversation_history self;
         InterviewState.started_at := started_at self;
         InterviewState.status := status self |} in
    (1 <= current_phase self <= 4 ->
     get_interview_state self = Returned snapshot)
    /\ (-3 <= current_phase self <= 0 ->
        get_interview_state self = Raised ValidationError)
    /\ (current_phase self < -3 \/ 4 < current_phase self ->
        get_interview_state self = Raised IndexError)
    /\ (reachable self -> get_interview_state self = Returned snapshot).
Proof.
  intros self snapshot.
  assert (Hin : 1 <= current_phase self <= 4 ->
                get_interview_state self = Returned snapshot).
  { intros Hp. unfold get_interview_state, InterviewState.new, ge1_le4.
    destruct (phase_in_range_cases _ Hp) as [E | [E | [E | E]]];
      subst snapshot; rewrite E; reflexivity. }
  split; [exact Hin |]. split; [| split].
  - intros Hp. unfold get_interview_state, InterviewState.new, ge1_le4.
    assert (E : current_phase self = -3 \/ current_phase self = -2
                \/ current_phase self = -1 \/ current_phase self = 0) by lia.
    destruct E as [E | [E | [E | E]]]; rewrite E; reflexivity.
  - intros Hp. unfold get_interview_state, py_index.
    change (Z.of_nat (List.length PHASES)) with 4.
    assert (A : (0 <=? current_phase self - 1) && (current_phase self - 1 <? 4)
                = false).
    { apply andb_false_iff.
      destruct Hp; [left; apply Z.leb_gt | right; apply Z.ltb_ge]; lia. }
    assert (B : (- (4) <=? current_phase self - 1) && (current_phase self - 1 <? 0)
                = false).
    { apply andb_false_iff.
      destruct Hp; [left; apply Z.leb_gt | right; apply Z.ltb_ge]; lia. }
    rewrite A, B. reflexivity.
  - intros Hreach. apply Hin.
    now destruct (reachable_invariant self Hreach) as (Hp & _).
Qed.

Lemma X6_witness :
  get_interview_state (Example.after_turns 3)
  = Returned (Example.state_of (Example.after_turns 3)).
Proof.
  assert (Hphase : 1 <= current_phase (Example.after_turns 3) <= 4)
    by (split; discriminate).
  exact (proj1 (X6_snapshot_needs_a_valid_phase (Example.after_turns 3))
           Hphase).
Defined.

(** X7.  A call of [process_candidate_response] appends the candidate's message
    and then at most one assistant message, which is the non-empty text
    the call returns; nothing recorded is changed or removed, by a call,
    by [generate_opening] or by any sequence of calls, and n calls add at
    least n messages. *)
Theorem X7_transcript_only_grows :
  forall (client : NVIDIAClient) (self : Agent) (candidate_message : string)
         (turns : list (NVIDIAClient * string)),
    let result := process_candidate_response client self candidate_message in
    (exists reply,
       conversation_history (fst result)
       = conversation_history self
         ++ {| InterviewMessage.role := user;
               InterviewMessage.content := candidate_message |} :: reply
       /\ (reply = []
           \/ exists text,
                text <> ""%string
                /\ snd result = Returned (Some text)
                /\ reply = [{| InterviewMessage.role := assistant;
                               InterviewMessage.content := text |}]))
    /\ extends (conversation_history self)
               (conversation_history (fst (generate_opening client self)))
    /\ extends (conversation_history self)
               (conversation_history (fst (run self turns)))
    /\ (List.length (conversation_history self) + List.length turns
        <= List.length (conversation_history (fst (run self turns))))%nat.
Proof.
  intros client self candidate_message turns result.
  assert (Hone : forall c s m,
            exists reply,
              conversation_history (fst (process_candidate_response c s m))
              = conversation_history s
                ++ {| InterviewMessage.role := user;
                      InterviewMessage.content := m |} :: reply
              /\ (reply = []
                  \/ exists text,
                       text <> ""%string
                       /\ snd (process_candidate_response c s m)
                          = Returned (Some text)
                       /\ reply = [{| InterviewMessage.role := assistant;
                                      InterviewMessage.content := text |}])).
  { intros c s m.
    destruct (processP c s m) as [e He | Ha Hl | advanced Hc]; cbn [fst snd].
    - exists []. split; [reflexivity | now left].
    - exists [{| InterviewMessage.role := assistant;
                 InterviewMessage.content := closing |}].
      split; [cbn; now rewrite <- app_assoc |].
      right. exists closing. repeat split. discriminate.
    - destruct (check_phase_continue _ advanced Hc) as (Hh & _).
      cbn [conversation_history append_message] in Hh.
      destruct (generate_and_record_history c advanced)
        as [(E & _) | (text & Hne & Hr & E)].
      + exists []. split; [now rewrite E, Hh | now left].
      + exists [{| InterviewMessage.role := assistant;
                   InterviewMessage.content := text |}].
        split; [rewrite E, Hh; now rewrite <- app_assoc |].
        right. exists text. now repeat split. }
  split; [apply Hone |].
  split.
  { destruct (generate_opening_cases client self) as [-> | (text & ->)].
    - exists []. now rewrite app_nil_r.
    - eexists. reflexivity. }
  clear result. revert self.
  induction turns as [| [c m] rest IH]; intros self.
  - split; [exists []; now rewrite app_nil_r | cbn; lia].
  - cbn [run].
    destruct (Hone c self m) as (reply & E & _).
    destruct (IH (fst (process_candidate_response c self m)))
      as ((added & Hext) & Hlen).
    destruct (run (fst (process_candidate_response c self m)) rest)
      as [final observations].
    cbn [fst] in *. split.
    + exists (({| InterviewMessage.role := user;
                  InterviewMessage.content := m |} :: reply) ++ added).
      rewrite Hext, E. now rewrite <- app_assoc.
    + rewrite E in Hlen. rewrite length_app in Hlen. cbn [List.length] in *. lia.
Qed.


(** * Further properties of the assessment engine *)

Module FenceFacts.

Import AssessmentEngine PyStrFacts Fence.
Local Open Scope string_scope.

Lemma length_append (a b : string) :
String.length (a ++ b) = (String.length a + String.length b)%nat.
Proof. induction a as [| c a IH]; cbn; [reflexivity | now rewrite IH]. Qed.

(** Dropping the rest of a separator. *)
Lemma split_from_skip (sep a : string) :
forall rest cur : string,
  PyStr.split_from sep (a ++ rest) cur (String.length a)
  = PyStr.split_from sep rest cur 0.
Proof.
induction a as [| c a IH]; intros rest cur; [reflexivity |].
cbn [append String.length PyStr.split_from]. apply IH.
Qed.

(** A separator at the head closes the current piece. *)
Lemma split_from_at_sep (c : ascii) (sep rest cur : string) :
PyStr.split_from (String c sep) (String c sep ++ rest) cur 0
= cur :: PyStr.split_from (String c sep) rest "" 0.
Proof.
assert (P : String.prefix (String c sep) (String c sep ++ rest) = true)
  by (apply prefix_occurs; now exists rest).
cbn [append] in *. cbn [PyStr.split_from]. rewrite P.
replace (String.length (String c sep) - 1)%nat with (String.length sep)
  by (cbn [String.length]; lia).
f_equal. apply split_from_skip.
Qed.

Lemma plain_cons (c : ascii) (s : string) :
plain (String c s) -> c <> "`"%char /\ plain s.
Proof.
unfold plain. cbn [PyStr.contains]. rewrite orb_false_iff. intros (P & C).
split; [| exact C].
intros ->.
assert (T : String.prefix "`" ("`" ++ s) = true)
  by (apply prefix_occurs; now exists s).
cbn [append] in T. congruence.
Qed.

Lemma plain_append (a b : string) : plain a -> plain b -> plain (a ++ b).
Proof.
induction a as [| c a IH]; intros Ha Hb; [exact Hb |].
destruct (plain_cons c a Ha) as (Hc & Ha').
unfold plain. cbn [append PyStr.contains].
rewrite (IH Ha' Hb). rewrite orb_false_r.
destruct (String.prefix "`" (String c (a ++ b))) eqn:T; [| reflexivity].
apply prefix_occurs in T as (r & T). injection T as E _. congruence.
Qed.

(** A prefix that starts with a backtick is not found at a plain character. *)
Lemma no_fence_at_plain (sep tail : string) (c : ascii) :
c <> "`"%char -> String.prefix (String "`" sep) (String c tail) = false.
Proof.
intros Hc.
destruct (String.prefix (String "`" sep) (String c tail)) eqn:T;
  [| reflexivity].
apply prefix_occurs in T as (r & T). injection T as E _. congruence.
Qed.

(** Plain text is read into the current piece. *)
Lemma split_from_plain (sep pre : string) :
forall rest cur : string,
  plain pre ->
  PyStr.split_from (String "`" sep) (pre ++ rest) cur 0
  = PyStr.split_from (String "`" sep) rest (cur ++ pre) 0.
Proof.
induction pre as [| c pre IH]; intros rest cur H.
- now rewrite append_empty_r.
- destruct (plain_cons c pre H) as (Hc & Hpre).
  cbn [append PyStr.split_from]. rewrite (no_fence_at_plain _ _ _ Hc).
  rewrite IH by exact Hpre. rewrite append_assoc. reflexivity.
Qed.

Lemma split_plain (sep s : string) :
plain s -> PyStr.split (String "`" sep) s = [s].
Proof.
intros H. unfold PyStr.split.
pose proof (split_from_plain sep s "" "" H) as E.
rewrite append_empty_r in E. rewrite E. reflexivity.
Qed.

Lemma plain_no_fence (sep s : string) :
plain s -> PyStr.contains (String "`" sep) s = false.
Proof.
induction s as [| c s IH]; intros H; [reflexivity |].
destruct (plain_cons c s H) as (Hc & Hs).
cbn [PyStr.contains]. rewrite (no_fence_at_plain _ _ _ Hc), (IH Hs).
reflexivity.
Qed.


Lemma py_index_0 {A : Type} (a : A) (l : list A) :
py_index (a :: l) 0 = Returned a.
Proof.
unfold py_index. cbn [List.length].
assert (C : ((0 <=? 0) && (0 <? Z.of_nat (S (List.length l))) = true)%Z).
{ apply andb_true_iff. split; [reflexivity | apply Z.ltb_lt; lia]. }
now rewrite C.
Qed.

Lemma py_index_1 {A : Type} (a b : A) (l : list A) :
py_index (a :: b :: l) 1 = Returned b.
Proof.
unfold py_index. cbn [List.length].
assert (C : ((0 <=? 1) && (1 <? Z.of_nat (S (S (List.length l)))) = true)%Z).
{ apply andb_true_iff. split; [reflexivity | apply Z.ltb_lt; lia]. }
now rewrite C.
Qed.

Lemma split_from_nonempty (sep s : string) :
forall (cur : string) (skip : nat),
  exists piece rest, PyStr.split_from sep s cur skip = piece :: rest.
Proof.
induction s as [| c s IH]; intros cur skip; cbn [PyStr.split_from].
- now exists cur, [].
- destruct skip as [| k]; [| apply IH].
  destruct (String.prefix sep (String c s)); [| apply IH].
  now exists cur, (PyStr.split_from sep s "" (String.length sep - 1)).
Qed.

(** A separator that occurs yields at least two pieces. *)
Lemma split_from_two (c : ascii) (sep s : string) :
forall cur : string,
  PyStr.contains (String c sep) s = true ->
  exists first second rest,
    PyStr.split_from (String c sep) s cur 0 = first :: second :: rest.
Proof.
induction s as [| d s IH]; intros cur H.
- discriminate H.
- cbn [PyStr.contains] in H. cbn [PyStr.split_from].
  destruct (String.prefix (String c sep) (String d s)).
  + destruct (split_from_nonempty (String c sep) s ""
                (String.length (String c sep) - 1)) as (p & r & ->).
    now exists cur, p, r.
  + apply IH. exact H.
Qed.

Lemma strip_fence_returns (c : ascii) (sep text : string) :
PyStr.contains (String c sep) text = true ->
exists inside, strip_fence (String c sep) text = Returned inside.
Proof.
intros H. unfold strip_fence, PyStr.split.
destruct (split_from_two c sep text "" H) as (a & b & r & ->).
rewrite py_index_1. cbn [bind].
destruct (split_from_nonempty "```" b "" 0) as (p & q & ->).
rewrite py_index_0. cbn [bind]. now eexists.
Qed.

(** The piece after an opening [```json]: the body, alone or with what
  follows it. *)
Lemma json_fence_piece (body post : string) :
plain body -> plain post ->
exists piece rest,
  PyStr.split_from "```json" (body ++ "```" ++ post) "" 0 = piece :: rest
  /\ (piece = body \/ piece = body ++ "```" ++ post).
Proof.
intros Hbody Hpost.
rewrite (split_from_plain "``json" body ("```" ++ post) "" Hbody).
cbn [append].
destruct (String.prefix "```json" (String "`" (String "`" (String "`" post))))
  eqn:P.
- apply prefix_occurs in P as (r & P). rewrite P.
  change ("```json" ++ r) with (String "`" "``json" ++ r).
  rewrite split_from_at_sep. eexists. eexists. split; [reflexivity | now left].
- cbn [PyStr.split_from]. rewrite P.
  assert (P2 : String.prefix "```json" (String "`" (String "`" post)) = false).
  { destruct (String.prefix "```json" (String "`" (String "`" post))) eqn:T;
      [| reflexivity].
    apply prefix_occurs in T as (r & T). injection T as T.
    rewrite T in Hpost. now destruct (plain_cons _ _ Hpost). }
  rewrite P2.
  assert (P3 : String.prefix "```json" (String "`" post) = false).
  { destruct (String.prefix "```json" (String "`" post)) eqn:T;
      [| reflexivity].
    apply prefix_occurs in T as (r & T). injection T as T.
    rewrite T in Hpost. now destruct (plain_cons _ _ Hpost). }
  cbn [PyStr.split_from]. rewrite P3.
  pose proof (split_from_plain "``json" post "" (((body ++ "`") ++ "`") ++ "`")
                Hpost) as E.
  rewrite append_empty_r in E. rewrite E. cbn [PyStr.split_from].
  eexists. eexists. split; [reflexivity |]. right.
  rewrite !append_assoc. reflexivity.
Qed.

Lemma first_of_fenced (body post : string) :
plain body ->
py_index (PyStr.split "```" (body ++ "```" ++ post)) 0 = Returned body.
Proof.
intros Hbody. unfold PyStr.split.
rewrite (split_from_plain "``" body ("```" ++ post) "" Hbody).
change ("```" ++ post) with (String "`" "``" ++ post).
rewrite split_from_at_sep. apply py_index_0.
Qed.

End FenceFacts.

Import AssessmentEngine PyStrFacts Fence FenceFacts.

(** X8.  When the reply encloses a body in a fence opened by three backticks and
    [json], or by three backticks alone, and the text before, inside and
    after the fence holds no backtick, [_parse_assessment_response] hands
    the stripped body to [json.loads] and raises [ValueError] when that
    fails; a reply without a backtick is handed over as it is. *)
Theorem X8_fenced_assessment_is_unwrapped :
  forall (json_loads : string -> option json) (pre body post : string),
    plain pre -> plain body -> plain post ->
    _parse_assessment_response json_loads
      (Some (pre ++ "```json" ++ body ++ "```" ++ post)%string)
    = of_option ValueError (json_loads (PyStr.strip body))
    /\ (PyStr.contains "```json" (pre ++ "```" ++ body ++ "```" ++ post)%string
        = false ->
        _parse_assessment_response json_loads
          (Some (pre ++ "```" ++ body ++ "```" ++ post)%string)
        = of_option ValueError (json_loads (PyStr.strip body)))
    /\ _parse_assessment_response json_loads (Some body)
       = of_option ValueError (json_loads body).
Proof.
  intros json_loads pre body post Hpre Hbody Hpost.
  split; [| split].
  - unfold _parse_assessment_response.
    assert (C : PyStr.contains "```json"
                  (pre ++ "```json" ++ body ++ "```" ++ post)%string = true).
    { apply contains_occurs. now exists pre, (body ++ "```" ++ post)%string. }
    rewrite C. unfold strip_fence, PyStr.split.
    rewrite (split_from_plain "``json" pre _ "" Hpre).
    change ("```json" ++ body ++ "```" ++ post)%string
      with (String "`" "``json" ++ (body ++ "```" ++ post))%string.
    rewrite split_from_at_sep.
    destruct (json_fence_piece body post Hbody Hpost)
      as (piece & rest & -> & [-> | ->]);
      rewrite py_index_1; cbn [bind].
    + fold (PyStr.split "```" body). rewrite (split_plain "``" body Hbody).
      rewrite py_index_0. reflexivity.
    + fold (PyStr.split "```" (body ++ "```" ++ post)%string).
      rewrite (first_of_fenced body post Hbody). reflexivity.
  - intros Hno. unfold _parse_assessment_response. rewrite Hno.
    assert (C : PyStr.contains "```"
                  (pre ++ "```" ++ body ++ "```" ++ post)%string = true).
    { apply contains_occurs. now exists pre, (body ++ "```" ++ post)%string. }
    rewrite C. unfold strip_fence, PyStr.split.
    rewrite (split_from_plain "``" pre _ "" Hpre).
    change ("```" ++ body ++ "```" ++ post)%string
      with (String "`" "``" ++ (body ++ "```" ++ post))%string.
    rewrite split_from_at_sep.
    rewrite (split_from_plain "``" body _ "" Hbody).
    change ("```" ++ post)%string with (String "`" "``" ++ post)%string.
    rewrite split_from_at_sep.
    rewrite py_index_1; cbn [bind append].
    fold (PyStr.split "```" body). rewrite (split_plain "``" body Hbody).
    rewrite py_index_0. reflexivity.
  - unfold _parse_assessment_response.
    rewrite (plain_no_fence "``json" body Hbody).
    rewrite (plain_no_fence "``" body Hbody). reflexivity.
Qed.

Lemma X8_witness :
  _parse_assessment_response Example.echo_json
    (Some ("Here it is: ```json" ++ (PyStr.nl ++ "{}" ++ PyStr.nl)
           ++ "```" ++ " Thanks.")%string)
  = Returned (JStr "{}").
Proof.
  exact (proj1 (X8_fenced_assessment_is_unwrapped Example.echo_json
                  "Here it is: " (PyStr.nl ++ "{}" ++ PyStr.nl)%string
                  " Thanks." eq_refl eq_refl eq_refl)).
Defined.

(** X9.  On a text reply [_parse_assessment_response] never fails in its
    [split] and index steps: its outcome is that of [json.loads] on some
    text, so it returns the parsed document or raises [ValueError].  A
    reply that is [None] raises [TypeError] at the first membership
    test. *)
Theorem X9_assessment_parser_outcomes :
  forall (json_loads : string -> option json) (response_text : string),
    (exists payload,
       _parse_assessment_response json_loads (Some response_text)
       = of_option ValueError (json_loads payload))
    /\ _parse_assessment_response json_loads None = Raised TypeError.
Proof.
  intros json_loads response_text. split; [| reflexivity].
  unfold _parse_assessment_response.
  destruct (PyStr.contains "```json" response_text) eqn:CJ.
  - destruct (strip_fence_returns "`" "``json" response_text CJ) as (inside & ->).
    now exists inside.
  - destruct (PyStr.contains "```" response_text) eqn:CF.
    + destruct (strip_fence_returns "`" "``" response_text CF) as (inside & ->).
      now exists inside.
    + now exists response_text.
Qed.


Module TitleMoreFacts.

Import AssessmentEngine PyStrFacts TitleFacts Fence.
Local Open Scope string_scope.

Lemma single_prefix (a c : ascii) (tail : string) :
String.prefix (String a "") (String c tail) = true <-> a = c.
Proof.
split.
- intros T. apply prefix_occurs in T as (r & T). now injection T as -> _.
- intros ->. apply prefix_occurs. now exists tail.
Qed.

Lemma contains_single (a : ascii) (s : string) :
PyStr.contains (String a "") s = false <-> all_chars (fun c => c <> a) s.
Proof.
induction s as [| c s IH]; cbn [PyStr.contains all_chars].
- split; [intros _; exact I | reflexivity].
- rewrite orb_false_iff, IH. split.
  + intros (P & H). split; [| exact H].
    intros ->. rewrite (proj2 (single_prefix a a s) eq_refl) in P.
    discriminate P.
  + intros (N & H). split; [| exact H].
    destruct (String.prefix (String a "") (String c s)) eqn:P;
      [| reflexivity].
    apply single_prefix in P. congruence.
Qed.

Lemma lstrip_all (P : ascii -> Prop) (s : string) :
all_chars P s -> all_chars P (PyStr.lstrip s).
Proof.
induction s as [| c s IH]; intros H; [exact I |].
cbn [PyStr.lstrip]. destruct (PyStr.is_space c); [apply IH, H | exact H].
Qed.

Lemma rstrip_all (P : ascii -> Prop) (s : string) :
all_chars P s -> all_chars P (PyStr.rstrip s).
Proof.
induction s as [| c s IH]; intros H; [exact I |].
destruct H as (Hc & Hs). cbn [PyStr.rstrip].
pose proof (IH Hs) as K.
destruct (PyStr.rstrip s) as [| d kept].
- destruct (PyStr.is_space c); cbn; auto.
- split; assumption.
Qed.

Lemma lstrip_first (s : string) (c : ascii) :
PyStr.first_char (PyStr.lstrip s) = Some c -> PyStr.is_space c = false.
Proof.
induction s as [| d s IH]; [discriminate |].
cbn [PyStr.lstrip]. destruct (PyStr.is_space d) eqn:E; [exact IH |].
cbn. intros H. injection H as <-. exact E.
Qed.

Lemma rstrip_first (s : string) (c : ascii) :
PyStr.first_char (PyStr.rstrip s) = Some c -> PyStr.first_char s = Some c.
Proof.
destruct s as [| d s]; [discriminate |].
cbn [PyStr.rstrip]. destruct (PyStr.rstrip s).
- destruct (PyStr.is_space d); [discriminate | exact (fun H => H)].
- exact (fun H => H).
Qed.

Lemma rstrip_last (s : string) (c : ascii) :
PyStr.last_char (PyStr.rstrip s) = Some c -> PyStr.is_space c = false.
Proof.
induction s as [| d s IH]; [discriminate |].
cbn [PyStr.rstrip]. destruct (PyStr.rstrip s) as [| e kept].
- destruct (PyStr.is_space d) eqn:E; [discriminate |].
  cbn. intros H. injection H as <-. exact E.
- exact IH.
Qed.

Lemma strip_no_space_outside (s : string) : PyStr.no_outer_space (PyStr.strip s).
Proof.
unfold PyStr.strip. split; intros c H.
- apply rstrip_first in H. now apply lstrip_first in H.
- now apply rstrip_last in H.
Qed.

Lemma strip_idempotent (s : string) :
PyStr.strip (PyStr.strip s) = PyStr.strip s.
Proof. apply strip_no_outer_space, strip_no_space_outside. Qed.

(** Every text has a first line. *)
Lemma first_line_is (text : string) : first_line_of text (first_line text).
Proof.
unfold first_line_of. induction text as [| c text (IHfree & IHshape)].
- split; [reflexivity | now left].
- cbn [first_line]. destruct (Ascii.eqb_spec c (ascii_of_nat 10)) as [-> | N].
  + split; [reflexivity |]. right. now exists text.
  + split.
    * apply contains_single. split; [exact N |].
      now apply contains_single.
    * destruct IHshape as [E | (rest & E)].
      -- left. now rewrite <- E.
      -- right. exists rest. cbn [append]. now rewrite <- E.
Qed.

Lemma strip_line_feed_free (line : string) :
PyStr.contains PyStr.nl line = false ->
PyStr.contains PyStr.nl (PyStr.strip line) = false.
Proof.
unfold PyStr.nl. rewrite !contains_single. intros H.
now apply rstrip_all, lstrip_all.
Qed.

End TitleMoreFacts.

Import AssessmentEngine PyStrFacts TitleFacts Fence TitleMoreFacts.

(** X10.  The title [_extract_job_title] returns is never empty and is shorter
    than 100 characters; it is the default or the stripped first line,
    which then names a role; it has no white space at either end, and
    extracting the title of the title gives the title again. *)
Theorem X10_job_title_is_short_and_stable :
  forall job_description : string,
    let title := _extract_job_title job_description in
    title <> ""%string
    /\ PyStr.len title < 100
    /\ (title = "Software Engineer"%string
        \/ (title = PyStr.strip (first_line job_description)
            /\ names_a_role title))
    /\ PyStr.no_outer_space title
    /\ _extract_job_title title = title.
Proof.
  intros job_description title.
  pose proof (first_line_is job_description) as Hline.
  pose proof (extract_job_title_first_line _ _ Hline) as E.
  fold title in E.
  pose proof (names_a_role_test (PyStr.strip (first_line job_description))) as T.
  destruct ((PyStr.len (PyStr.strip (first_line job_description)) <? 100)
            && existsb
                 (fun keyword =>
                    PyStr.contains keyword
                      (PyStr.lower (PyStr.strip (first_line job_description))))
                 keywords) eqn:Test.
  - assert (R : names_a_role title) by (rewrite E; now apply T).
    split; [| split; [| split; [| split]]].
    + intros Hempty. rewrite E in Hempty. rewrite Hempty in Test.
      discriminate Test.
    + exact (proj1 R).
    + right. split; [exact E | exact R].
    + rewrite E. apply strip_no_space_outside.
    + assert (Hself : first_line_of title title).
      { split; [| now left]. rewrite E.
        apply strip_line_feed_free. exact (proj1 Hline). }
      rewrite (extract_job_title_first_line title title Hself).
      rewrite E, strip_idempotent, Test. reflexivity.
  - rewrite E.
    split; [discriminate |]. split; [reflexivity |].
    split; [now left |]. split; [| reflexivity].
    split; intros c H; injection H as <-; reflexivity.
Qed.


Module PromptFacts.

Import AssessmentEngine AgentFacts.
Local Open Scope string_scope.
Local Open Scope nat_scope.

Lemma string_length_append (a b : string) :
String.length (a ++ b) = String.length a + String.length b.
Proof. induction a as [| c a IH]; cbn; [reflexivity | now rewrite IH]. Qed.

Lemma slice_to_length (n : nat) (s : string) :
String.length (PyStr.slice_to n s) <= n.
Proof.
unfold PyStr.slice_to. revert s.
induction n as [| n IH]; intros s.
- destruct s; cbn; lia.
- destruct s as [| c s]; cbn; [lia |]. specialize (IH s). lia.
Qed.

Lemma count_text_length (k : nat) :
k <= 20 -> String.length (PyStr.of_int (Z.of_nat k)) <= 2.
Proof.
intros H.
do 21 (destruct k as [| k]; [vm_compute; lia |]). lia.
Qed.

Lemma concat_length (sep : string) (parts : list string) :
String.length (String.concat sep parts)
= fold_right (fun part total => String.length part + total) 0 parts
  + (List.length parts - 1) * String.length sep.
Proof.
induction parts as [| part parts IH]; [reflexivity |].
destruct parts as [| next parts].
- cbn. lia.
- change (String.concat sep (part :: next :: parts))
    with (part ++ sep ++ String.concat sep (next :: parts)).
  rewrite !string_length_append, IH. cbn [fold_right List.length]. lia.
Qed.

(** The length of the prompt, by its five variable parts. *)
Lemma format_length (job_description candidate_name phase_breakdown
  message_count transcript : string) :
String.length
  (format_assessment_prompt job_description candidate_name phase_breakdown
     message_count transcript)
= 1486 + String.length job_description + String.length candidate_name
  + String.length phase_breakdown + String.length message_count
  + String.length transcript.
Proof.
unfold format_assessment_prompt, PyStr.join.
rewrite concat_length. cbn [fold_right List.length].
rewrite !string_length_append.
set (a := String.length job_description).
set (b := String.length candidate_name).
set (c := String.length phase_breakdown).
set (d := String.length message_count).
set (e := String.length transcript).
cbn. lia.
Qed.

End PromptFacts.

Import AssessmentEngine AgentFacts PromptFacts EngineFacts.

(** X11.  The assessment prompt has at most 5316 characters beside the
    candidate's name, however long the job description and the transcript
    are: the job description is cut at 500 characters and the text of the
    last 20 messages at 3000. *)
Theorem X11_assessment_prompt_is_bounded :
  forall interview_state : InterviewState.t,
    PyStr.len (_build_assessment_prompt interview_state)
    <= 5316
       + PyStr.len
           (CandidateProfile.name
              (InterviewState.candidate_profile interview_state)).
Proof.
  intros interview_state. unfold PyStr.len, _build_assessment_prompt.
  rewrite format_length.
  pose proof (slice_to_length 500
                (InterviewState.job_description interview_state)) as Hjd.
  match goal with
  | |- context [PyStr.slice_to 3000 ?t] =>
      pose proof (slice_to_length 3000 t) as Htr
  end.
  pose proof (count_text_length
                (List.length
                   (last_n 20
                      (InterviewState.conversation_history interview_state))))
    as Hcount.
  rewrite last_n_length in Hcount. specialize (Hcount ltac:(lia)).
  rewrite last_n_length.
  match goal with
  | |- context [String.length (PyStr.join PyStr.nl (map ?f (enumerate ?l)))] =>
      change (String.length (PyStr.join PyStr.nl (map f (enumerate l))))
        with 328%nat
  end.
  lia.
Qed.

Section Fallbacks.

Variable json_loads : string -> option json.
Variable float_of_str : string -> option float.
Variable validate_int : json -> option Z.
Variable validate_str : json -> option string.
Variable validate_float : json -> option float.
Variable validate_str_list : json -> option (list string).

Ltac step_bind :=
match goal with
| |- context [bind ?m _] =>
    let E := fresh "E" in
    destruct m eqn:E; cbn [bind]; [| reflexivity]
end.

(** X12.  When the document the model sent lacks one of [overall_score],
  [recommendation], [strengths], [weaknesses], [summary] and
  [key_highlights], [generate_report] returns the fallback report,
  whatever the rest of the document holds. *)
Theorem X12_incomplete_assessment_falls_back :
forall (client : NVIDIAClient) (interview_state : InterviewState.t)
       (candidate_skills : list string) (response : option string)
       (assessment_data : json) (key : string),
  client (assessment_request interview_state) = Returned response ->
  _parse_assessment_response json_loads response = Returned assessment_data ->
  In key ["overall_score"; "recommendation"; "strengths"; "weaknesses";
          "summary"; "key_highlights"]%string ->
  (forall value, PyJson.getitem assessment_data key <> Returned value) ->
  generate_report json_loads float_of_str validate_int validate_str
    validate_float validate_str_list client interview_state candidate_skills
  = _generate_fallback_report interview_state.
Proof.
intros client interview_state candidate_skills response assessment_data key
  Hclient Hparse Hkey Hmissing.
unfold generate_report, generate_report_try.
rewrite Hclient. cbn [bind]. rewrite Hparse. cbn [bind].
do 10 step_bind.
exfalso.
cbn [In] in Hkey.
destruct Hkey as [<- | [<- | [<- | [<- | [<- | [<- | []]]]]]];
  eapply Hmissing; eassumption.
Qed.

Lemma Forall2_pick {A B : Type} (R : A -> B -> Prop) (l : list A) (l' : list B)
  (x : A) :
Forall2 R l l' -> In x l -> exists y, R x y.
Proof.
induction 1 as [| a b l l' Hab _ IH]; intros Hin; [destruct Hin |].
destruct Hin as [<- | Hin]; [now exists b | now apply IH].
Qed.

(** X13.  When one entry of [phase_scores] has a sub-score that is read but lies
  outside 0..10, [_parse_phase_scores] raises, and [generate_report]
  returns the fallback report: the overall score, the summary and the
  valid entries of the document are all dropped. *)
Theorem X13_one_bad_phase_entry_discards_the_assessment :
forall (client : NVIDIAClient) (interview_state : InterviewState.t)
       (candidate_skills : list string) (response : option string)
       (assessment_data : json) (phases : list json) (phase : json)
       (key : string),
  client (assessment_request interview_state) = Returned response ->
  _parse_assessment_response json_loads response = Returned assessment_data ->
  PyJson.get assessment_data "phase_scores" (JList []) = Returned (JList phases) ->
  In phase phases ->
  In key ["technical_accuracy"; "problem_solving"; "communication";
          "depth_of_knowledge"]%string ->
  (forall a, sub_score float_of_str phase key = Returned a ->
             ge0_le10 a = false) ->
  (exists e,
     _parse_phase_scores float_of_str validate_int validate_str (JList phases)
     = Raised e)
  /\ generate_report json_loads float_of_str validate_int validate_str
       validate_float validate_str_list client interview_state candidate_skills
     = _generate_fallback_report interview_state.
Proof.
intros client interview_state candidate_skills response assessment_data
  phases phase key Hclient Hparse Hget Hin Hkey Hbad.
assert (Hraise : exists e,
          _parse_phase_scores float_of_str validate_int validate_str
            (JList phases) = Raised e).
{ destruct (_parse_phase_scores float_of_str validate_int validate_str
              (JList phases)) as [scores | e] eqn:Hscores;
    [exfalso | now exists e].
  unfold _parse_phase_scores in Hscores. cbn [PyJson.iter bind] in Hscores.
  apply mapM_returned in Hscores.
  destruct (Forall2_pick _ _ _ phase Hscores Hin) as (score & Hone).
  apply parse_phase_score_returned in Hone
    as (a & b & c & d & Ha & Hb & Hc & Hd & Ea & Eb & Ec & Ed & _ & V).
  unfold PhaseScore.valid in V. rewrite Ea, Eb, Ec, Ed in V.
  repeat (apply andb_true_iff in V as (V & ?)).
  cbn [In] in Hkey.
  destruct Hkey as [<- | [<- | [<- | [<- | []]]]];
    [pose proof (Hbad a Ha) | pose proof (Hbad b Hb)
     | pose proof (Hbad c Hc) | pose proof (Hbad d Hd)]; congruence. }
split; [exact Hraise |].
destruct Hraise as (e & Hraise).
unfold generate_report, generate_report_try.
rewrite Hclient. cbn [bind]. rewrite Hparse. cbn [bind].
do 2 step_bind. rewrite Hget. cbn [bind]. rewrite Hraise. reflexivity.
Qed.

End Fallbacks.

Lemma X12_witness :
  generate_report (Cases.reading Cases.partial) Example.no_float
    Example.strict_int Example.strict_str Example.strict_float
    Example.strict_str_list (Example.replying "{}")
    (Example.state_of Example.fresh) ["Python"%string]
  = _generate_fallback_report (Example.state_of Example.fresh).
Proof.
  assert (Hclient : Example.replying "{}"
                      (assessment_request (Example.state_of Example.fresh))
                    = Returned (Some "{}"%string))
    by reflexivity.
  assert (Hparse : _parse_assessment_response (Cases.reading Cases.partial)
                     (Some "{}"%string)
                   = Returned Cases.partial)
    by (vm_compute; reflexivity).
  assert (Hkey : In "summary"%string
                   ["overall_score"; "recommendation"; "strengths";
                    "weaknesses"; "summary"; "key_highlights"]%string)
    by (vm_compute; tauto).
  assert (Hmissing : forall value,
            PyJson.getitem Cases.partial "summary" <> Returned value)
    by (intros value H; vm_compute in H; discriminate H).
  exact (X12_incomplete_assessment_falls_back (Cases.reading Cases.partial)
           Example.no_float Example.strict_int Example.strict_str
           Example.strict_float Example.strict_str_list
           (Example.replying "{}") (Example.state_of Example.fresh)
           ["Python"%string] (Some "{}"%string) Cases.partial "summary"%string
           Hclient Hparse Hkey Hmissing).
Defined.

Lemma X13_witness :
  generate_report (Cases.reading Cases.excessive) Example.no_float
    Example.strict_int Example.strict_str Example.strict_float
    Example.strict_str_list (Example.replying "{}")
    (Example.state_of Example.fresh) ["Python"%string]
  = _generate_fallback_report (Example.state_of Example.fresh).
Proof.
  assert (Hclient : Example.replying "{}"
                      (assessment_request (Example.state_of Example.fresh))
                    = Returned (Some "{}"%string))
    by reflexivity.
  assert (Hparse : _parse_assessment_response (Cases.reading Cases.excessive)
                     (Some "{}"%string)
                   = Returned Cases.excessive)
    by (vm_compute; reflexivity).
  assert (Hget : PyJson.get Cases.excessive "phase_scores" (JList [])
                 = Returned (JList [JDict Example.model_items;
                                    JDict Cases.excessive_items]))
    by (vm_compute; reflexivity).
  assert (Hin : In (JDict Cases.excessive_items)
                  [JDict Example.model_items; JDict Cases.excessive_items])
    by (right; left; reflexivity).
  assert (Hkey : In "communication"%string
                   ["technical_accuracy"; "problem_solving"; "communication";
                    "depth_of_knowledge"]%string)
    by (vm_compute; tauto).
  assert (Hscore : sub_score Example.no_float (JDict Cases.excessive_items)
                     "communication"
                   = Returned 11%float)
    by (vm_compute; reflexivity).
  assert (Hbad : forall a,
            sub_score Example.no_float (JDict Cases.excessive_items)
              "communication" = Returned a ->
            ge0_le10 a = false).
  { intros a H. rewrite Hscore in H. injection H as <-.
    vm_compute. reflexivity. }
  exact (proj2 (X13_one_bad_phase_entry_discards_the_assessment
                  (Cases.reading Cases.excessive) Example.no_float
                  Example.strict_int Example.strict_str Example.strict_float
                  Example.strict_str_list (Example.replying "{}")
                  (Example.state_of Example.fresh) ["Python"%string]
                  (Some "{}"%string) Cases.excessive
                  [JDict Example.model_items; JDict Cases.excessive_items]
                  (JDict Cases.excessive_items) "communication"%string
                  Hclient Hparse Hget Hin Hkey Hbad)).
Defined.


(** * The client of the text service *)

Module ClientFacts.

Import NvidiaClient.

Lemma py_index_0' {A : Type} (a : A) (l : list A) :
py_index (a :: l) 0 = Returned a.
Proof.
unfold py_index. cbn [List.length].
assert (C : ((0 <=? 0) && (0 <? Z.of_nat (S (List.length l))) = true)%Z).
{ apply andb_true_iff. split; [reflexivity | apply Z.ltb_lt; lia]. }
now rewrite C.
Qed.

Lemma attempts_posts_bound (self : NVIDIAConfig.t) (transport : nat -> Attempt)
  (endpoint : string) (payload : Payload) (remaining : nat) :
forall attempt : nat,
  let events := snd (attempts self transport endpoint payload attempt remaining) in
  (List.length (posts events) <= remaining)%nat
  /\ Forall (fun post => post = (endpoint, payload)) (posts events)
  /\ (List.length (sleeps events) <= List.length (posts events))%nat.
Proof.
induction remaining as [| rest IH]; intros attempt; cbn [attempts].
- cbn. repeat split; [lia | constructor | lia].
- destruct (transport attempt) as [body | |].
  + cbn. repeat split; [lia | repeat constructor | lia].
  + destruct (Z.of_nat attempt =? NVIDIAConfig.max_retries self - 1).
    * cbn. repeat split; [lia | repeat constructor | lia].
    * specialize (IH (S attempt)). cbn zeta in IH.
      destruct (attempts self transport endpoint payload (S attempt) rest)
        as [outcome events].
      cbn [snd] in *.
      change (posts (Post endpoint payload
                     :: Sleep (2 ^ Z.of_nat attempt) :: events))
        with ((endpoint, payload) :: posts events).
      change (sleeps (Post endpoint payload
                      :: Sleep (2 ^ Z.of_nat attempt) :: events))
        with (2 ^ Z.of_nat attempt :: sleeps events).
      cbn [List.length].
      destruct IH as (Hn & Hall & Hs).
      repeat split; [lia | constructor; [reflexivity | exact Hall] | lia].
  + cbn. repeat split; [lia | repeat constructor | lia].
Qed.

(** After [k] status errors the attempt numbered [attempt + k] decides. *)
Lemma attempts_decided (self : NVIDIAConfig.t) (transport : nat -> Attempt)
  (endpoint : string) (payload : Payload) (k : nat) :
forall attempt remaining : nat,
  (k < remaining)%nat ->
  Z.of_nat (attempt + remaining) = NVIDIAConfig.max_retries self ->
  (forall j, (attempt <= j < attempt + k)%nat -> transport j = StatusError) ->
  let result := attempts self transport endpoint payload attempt remaining in
  let last := transport (attempt + k)%nat in
  fst result
  = match last with
    | Answered body => Returned body
    | StatusError =>
        if (S k =? remaining)%nat then Raised PortError
        else fst (attempts self transport endpoint payload
                    (S (attempt + k)) (remaining - S k))
    | Failed => Raised PortError
    end
  /\ (last <> StatusError ->
      List.length (posts (snd result)) = S k
      /\ sleeps (snd result)
         = map (fun j => 2 ^ Z.of_nat j) (seq attempt k)).
Proof.
induction k as [| k IH]; intros attempt remaining Hk Hn Herr;
  (destruct remaining as [| rest]; [lia |]); cbn [attempts].
- rewrite Nat.add_0_r. cbn zeta.
  destruct (transport attempt) as [body | |] eqn:T.
  + split; [reflexivity | intros _; split; reflexivity].
  + split; [| intros N; now destruct N].
    destruct (Z.of_nat attempt =? NVIDIAConfig.max_retries self - 1) eqn:L.
    * assert (rest = 0%nat) by lia. subst rest. reflexivity.
    * assert (rest <> 0%nat) by lia.
      destruct rest as [| rest']; [lia |].
      cbn [Nat.eqb Nat.sub].
      destruct (attempts self transport endpoint payload (S attempt) (S rest'))
        as [o ev]. reflexivity.
  + split; [reflexivity | intros _; split; reflexivity].
- rewrite (Herr attempt) by lia.
  assert (L : (Z.of_nat attempt =? NVIDIAConfig.max_retries self - 1) = false)
    by lia.
  rewrite L.
  specialize (IH (S attempt) rest ltac:(lia) ltac:(lia)).
  assert (Herr' : forall j, (S attempt <= j < S attempt + k)%nat ->
                            transport j = StatusError)
    by (intros j Hj; apply Herr; lia).
  specialize (IH Herr'). cbn zeta in IH.
  replace (attempt + S k)%nat with (S attempt + k)%nat by lia.
  destruct (attempts self transport endpoint payload (S attempt) rest)
    as [outcome events].
  cbn [fst snd] in *. destruct IH as (Hfst & Hrest).
  split.
  + rewrite Hfst. cbn [Nat.eqb Nat.sub]. reflexivity.
  + intros N. destruct (Hrest N) as (Hp & Hs).
    change (posts (Post endpoint payload
                   :: Sleep (2 ^ Z.of_nat attempt) :: events))
      with ((endpoint, payload) :: posts events).
    change (sleeps (Post endpoint payload
                    :: Sleep (2 ^ Z.of_nat attempt) :: events))
      with (2 ^ Z.of_nat attempt :: sleeps events).
    cbn [List.length]. rewrite Hp, Hs. split; reflexivity.
Qed.


Lemma attempts_step (self : NVIDIAConfig.t) (transport : nat -> Attempt)
  (endpoint : string) (payload : Payload) (attempt rest : nat) :
attempts self transport endpoint payload attempt (S rest)
= match transport attempt with
  | Answered body => (Returned body, [Post endpoint payload])
  | StatusError =>
      if Z.of_nat attempt =? NVIDIAConfig.max_retries self - 1
      then (Raised PortError, [Post endpoint payload])
      else
        let (outcome, events) :=
          attempts self transport endpoint payload (S attempt) rest in
        (outcome,
         Post endpoint payload :: Sleep (2 ^ Z.of_nat attempt) :: events)
  | Failed => (Raised PortError, [Post endpoint payload])
  end.
Proof. reflexivity. Qed.

Lemma attempts_exhausted (self : NVIDIAConfig.t) (transport : nat -> Attempt)
  (endpoint : string) (payload : Payload) (rest : nat) :
forall attempt : nat,
  Z.of_nat (attempt + S rest) = NVIDIAConfig.max_retries self ->
  (forall j, (attempt <= j < attempt + S rest)%nat -> transport j = StatusError) ->
  let result := attempts self transport endpoint payload attempt (S rest) in
  fst result = Raised PortError
  /\ List.length (posts (snd result)) = S rest
  /\ sleeps (snd result) = map (fun j => 2 ^ Z.of_nat j) (seq attempt rest).
Proof.
induction rest as [| rest IH]; intros attempt Hn Herr; cbn zeta;
  rewrite attempts_step, (Herr attempt) by lia.
- assert (L : (Z.of_nat attempt =? NVIDIAConfig.max_retries self - 1) = true)
    by lia.
  rewrite L. repeat split.
- assert (L : (Z.of_nat attempt =? NVIDIAConfig.max_retries self - 1) = false)
    by lia.
  rewrite L.
  specialize (IH (S attempt) ltac:(lia)).
  assert (Herr' : forall j, (S attempt <= j < S attempt + S rest)%nat ->
                            transport j = StatusError)
    by (intros j Hj; apply Herr; lia).
  specialize (IH Herr'). cbn zeta in IH.
  destruct (attempts self transport endpoint payload (S attempt) (S rest))
    as [outcome events].
  cbn [fst snd] in *. destruct IH as (Hfst & Hp & Hs).
  change (posts (Post endpoint payload
                 :: Sleep (2 ^ Z.of_nat attempt) :: events))
    with ((endpoint, payload) :: posts events).
  change (sleeps (Post endpoint payload
                  :: Sleep (2 ^ Z.of_nat attempt) :: events))
    with (2 ^ Z.of_nat attempt :: sleeps events).
  cbn [List.length]. rewrite Hp, Hs. repeat split. exact Hfst.
Qed.

Lemma py_index_raises {A : Type} (l : list A) (i : Z) (e : Exn) :
py_index l i = Raised e -> e = IndexError.
Proof.
unfold py_index.
destruct ((0 <=? i) && (i <? Z.of_nat (List.length l))).
- destruct (nth_error l (Z.to_nat i)); cbn; congruence.
- destruct ((- Z.of_nat (List.length l) <=? i) && (i <? 0)).
  + destruct (nth_error l (Z.to_nat (Z.of_nat (List.length l) + i))); cbn;
      congruence.
  + congruence.
Qed.

Lemma getitem_raises (x : json) (key : string) (e : Exn) :
PyJson.getitem x key = Raised e -> e = KeyError \/ e = TypeError.
Proof.
destruct x; cbn; try (intros H; injection H as <-; now right).
destruct (PyJson.lookup key items); cbn; [discriminate |].
intros H; injection H as <-; now left.
Qed.

Lemma getitem_int_raises (x : json) (i : Z) (e : Exn) :
getitem_int x i = Raised e ->
e = KeyError \/ e = IndexError \/ e = TypeError.
Proof.
destruct x; cbn; try (intros H; injection H as <-; auto).
- intros H. apply py_index_raises in H. auto.
- intros H. apply py_index_raises in H. auto.
Qed.

End ClientFacts.

Import NvidiaClient ClientFacts.

(** X14.  [extract_response_text] returns the content of the message of the first
    choice; a response without choices, or with an empty list of them,
    raises the plain exception the method builds, and whatever the
    response is the method raises that exception or a [TypeError] only. *)
Theorem X14_response_text_extraction :
  (forall (items : list (string * json)) (choice : list (string * json))
          (others : list json) (message : list (string * json)) (content : json),
     PyJson.lookup "choices" items = Some (JList (JDict choice :: others)) ->
     PyJson.lookup "message" choice = Some (JDict message) ->
     PyJson.lookup "content" message = Some content ->
     extract_response_text (JDict items) = Returned content)
  /\ (forall (api_response : json) (e : Exn),
        extract_response_text api_response = Raised e ->
        e = PortError \/ e = TypeError)
  /\ (forall items : list (string * json),
        PyJson.lookup "choices" items = None
        \/ PyJson.lookup "choices" items = Some (JList []) ->
        extract_response_text (JDict items) = Raised PortError)
  /\ (forall content others,
        extract_response_text (response_with content others) = Returned content).
Proof.
  split; [| split; [| split]].
  - intros items choice others message content Hchoices Hmessage Hcontent.
    unfold extract_response_text. cbn [PyJson.getitem].
    rewrite Hchoices. cbn [of_option bind getitem_int].
    rewrite py_index_0'. cbn [bind PyJson.getitem].
    rewrite Hmessage. cbn [of_option bind PyJson.getitem].
    rewrite Hcontent. reflexivity.
  - intros api_response e. unfold extract_response_text.
    destruct (PyJson.getitem api_response "choices") as [choices | e1] eqn:E1;
      cbn [bind].
    + destruct (getitem_int choices 0) as [choice | e2] eqn:E2; cbn [bind].
      * destruct (PyJson.getitem choice "message") as [message | e3] eqn:E3;
          cbn [bind].
        -- destruct (PyJson.getitem message "content") as [content | e4] eqn:E4.
           ++ discriminate.
           ++ destruct (getitem_raises _ _ _ E4) as [-> | ->];
                intros H; injection H as <-; auto.
        -- destruct (getitem_raises _ _ _ E3) as [-> | ->];
             intros H; injection H as <-; auto.
      * destruct (getitem_int_raises _ _ _ E2) as [-> | [-> | ->]];
          intros H; injection H as <-; auto.
    + destruct (getitem_raises _ _ _ E1) as [-> | ->];
        intros H; injection H as <-; auto.
  - intros items [H | H]; unfold extract_response_text; cbn [PyJson.getitem];
      rewrite H; reflexivity.
  - intros content others. reflexivity.
Qed.

(** X15.  When the first k POSTs of [chat_completion] end in a status error and
    POST k does not, with k below [max_retries], the call makes k+1 POSTs
    and sleeps 1, 2, 4, ... seconds between them, k times; it returns the
    body of POST k, or raises when that POST failed. *)
Theorem X15_retries_stop_at_the_first_decision :
  forall (self : NVIDIAConfig.t) (transport : nat -> Attempt)
         (messages : list ChatMessage) (model_type : string)
         (temperature : option float) (max_tokens : option Z) (k : nat),
    model_type = "super"%string \/ model_type = "vl"%string ->
    Z.of_nat k < NVIDIAConfig.max_retries self ->
    (forall j, (j < k)%nat -> transport j = StatusError) ->
    transport k <> StatusError ->
    let result :=
      chat_completion self transport messages model_type temperature max_tokens in
    fst result
    = match transport k with
      | Answered body => Returned body
      | _ => Raised PortError
      end
    /\ List.length (posts (snd result)) = S k
    /\ sleeps (snd result) = map (fun j => 2 ^ Z.of_nat j) (seq 0 k).
Proof.
  intros self transport messages model_type temperature max_tokens k
    Hmodel Hk Herr Hlast result.
  assert (Hgen : forall endpoint payload,
            let r := attempts self transport endpoint payload 0
                       (Z.to_nat (NVIDIAConfig.max_retries self)) in
            fst r = match transport k with
                    | Answered body => Returned body
                    | _ => Raised PortError
                    end
            /\ List.length (posts (snd r)) = S k
            /\ sleeps (snd r) = map (fun j => 2 ^ Z.of_nat j) (seq 0 k)).
  { intros endpoint payload.
    destruct (attempts_decided self transport endpoint payload k 0
                (Z.to_nat (NVIDIAConfig.max_retries self)))
      as (Hfst & Hrest); try lia.
    { intros j Hj. apply Herr. lia. }
    cbn [Nat.add] in Hfst, Hrest. cbn zeta.
    destruct (Hrest Hlast) as (Hp & Hs).
    split; [| split; assumption].
    rewrite Hfst. destruct (transport k); [reflexivity | | reflexivity].
    now destruct Hlast. }
  unfold result, chat_completion.
  destruct Hmodel as [-> | ->]; cbn [String.eqb Ascii.eqb Bool.eqb];
    apply Hgen.
Qed.

Lemma X15_witness :
  fst (chat_completion Cases.config Cases.flaky [] "super" None None)
  = Returned (response_with (JStr "Hello") [])
  /\ sleeps (snd (chat_completion Cases.config Cases.flaky [] "super" None None))
     = [1; 2].
Proof.
  assert (Hmodel : "super"%string = "super"%string \/ "super"%string = "vl"%string)
    by (left; reflexivity).
  assert (Hk : Z.of_nat 2 < NVIDIAConfig.max_retries Cases.config)
    by (vm_compute; reflexivity).
  assert (Herr : forall j, (j < 2)%nat -> Cases.flaky j = StatusError).
  { intros [| [| j]] Hj; [reflexivity | reflexivity | lia]. }
  assert (Hlast : Cases.flaky 2 <> StatusError) by discriminate.
  pose proof (X15_retries_stop_at_the_first_decision Cases.config Cases.flaky
                [] "super"%string None None 2%nat Hmodel Hk Herr Hlast)
    as (Hfst & _ & Hsleeps).
  split; [exact Hfst | exact Hsleeps].
Defined.

(** X16.  When every POST ends in a status error, [chat_completion] makes exactly
    [max_retries] POSTs, sleeps 1, 2, 4, ... seconds after each but the
    last, and raises. *)
Theorem X16_retries_are_exhausted :
  forall (self : NVIDIAConfig.t) (transport : nat -> Attempt)
         (messages : list ChatMessage) (model_type : string)
         (temperature : option float) (max_tokens : option Z),
    model_type = "super"%string \/ model_type = "vl"%string ->
    1 <= NVIDIAConfig.max_retries self ->
    (forall j, Z.of_nat j < NVIDIAConfig.max_retries self ->
               transport j = StatusError) ->
    let result :=
      chat_completion self transport messages model_type temperature max_tokens in
    fst result = Raised PortError
    /\ Z.of_nat (List.length (posts (snd result))) = NVIDIAConfig.max_retries self
    /\ sleeps (snd result)
       = map (fun j => 2 ^ Z.of_nat j)
             (seq 0 (Z.to_nat (NVIDIAConfig.max_retries self - 1))).
Proof.
  intros self transport messages model_type temperature max_tokens
    Hmodel Hn Herr result.
  assert (Hgen : forall endpoint payload,
            let r := attempts self transport endpoint payload 0
                       (Z.to_nat (NVIDIAConfig.max_retries self)) in
            fst r = Raised PortError
            /\ Z.of_nat (List.length (posts (snd r)))
               = NVIDIAConfig.max_retries self
            /\ sleeps (snd r)
               = map (fun j => 2 ^ Z.of_nat j)
                     (seq 0 (Z.to_nat (NVIDIAConfig.max_retries self - 1)))).
  { intros endpoint payload.
    replace (Z.to_nat (NVIDIAConfig.max_retries self))
      with (S (Z.to_nat (NVIDIAConfig.max_retries self - 1))) by lia.
    destruct (attempts_exhausted self transport endpoint payload
                (Z.to_nat (NVIDIAConfig.max_retries self - 1)) 0)
      as (Hfst & Hp & Hs); try lia.
    { intros j Hj. apply Herr. lia. }
    cbn zeta. split; [exact Hfst |]. split; [rewrite Hp; lia | exact Hs]. }
  unfold result, chat_completion.
  destruct Hmodel as [-> | ->]; cbn [String.eqb Ascii.eqb Bool.eqb];
    apply Hgen.
Qed.

Lemma X16_witness :
  fst (chat_completion Cases.config Cases.down [] "vl" None None)
  = Raised PortError
  /\ sleeps (snd (chat_completion Cases.config Cases.down [] "vl" None None))
     = [1; 2].
Proof.
  assert (Hmodel : "vl"%string = "super"%string \/ "vl"%string = "vl"%string)
    by (right; reflexivity).
  assert (Hn : 1 <= NVIDIAConfig.max_retries Cases.config)
    by (vm_compute; discriminate).
  assert (Herr : forall j, Z.of_nat j < NVIDIAConfig.max_retries Cases.config ->
                           Cases.down j = StatusError)
    by (intros j _; reflexivity).
  pose proof (X16_retries_are_exhausted Cases.config Cases.down [] "vl"%string
                None None Hmodel Hn Herr)
    as (Hfst & _ & Hsleeps).
  split; [exact Hfst | exact Hsleeps].
Defined.

(** X17.  Whatever the service does, [chat_completion] makes at most [max_retries]
    POSTs and never sleeps more often than it posts; every POST carries
    the caller's messages, the configured [top_p] and the caller's
    temperature, where a temperature of 0 is replaced by the configured
    one.  A model type other than [super] and [vl] raises [ValueError]
    before any POST, and with [max_retries] at 0 or below the call
    returns [None] without a POST, which [extract_response_text] then
    refuses with a [TypeError]. *)
Theorem X17_posts_are_bounded :
  forall (self : NVIDIAConfig.t) (transport : nat -> Attempt)
         (messages : list ChatMessage) (model_type : string)
         (temperature : option float) (max_tokens : option Z),
    let result :=
      chat_completion self transport messages model_type temperature max_tokens in
    Z.of_nat (List.length (posts (snd result)))
    <= Z.max 0 (NVIDIAConfig.max_retries self)
    /\ (List.length (sleeps (snd result))
        <= List.length (posts (snd result)))%nat
    /\ Forall (fun post =>
                 payload_messages (snd post) = messages
                 /\ payload_top_p (snd post) = NVIDIAConfig.top_p self
                 /\ payload_temperature (snd post)
                    = float_or temperature (NVIDIAConfig.temperature self)
                 /\ (temperature = None \/ temperature = Some 0%float ->
                     payload_temperature (snd post)
                     = NVIDIAConfig.temperature self))
              (posts (snd result))
    /\ (model_type <> "super"%string -> model_type <> "vl"%string ->
        result = (Raised ValueError, []))
    /\ (NVIDIAConfig.max_retries self <= 0 ->
        model_type = "super"%string \/ model_type = "vl"%string ->
        result = (Returned JNull, [])
        /\ extract_response_text JNull = Raised TypeError).
Proof.
  intros self transport messages model_type temperature max_tokens result.
  assert (Hgen : forall endpoint model,
            let payload :=
              {| NvidiaClient.model := model;
                 payload_messages := messages;
                 payload_temperature :=
                   float_or temperature (NVIDIAConfig.temperature self);
                 payload_max_tokens :=
                   int_or max_tokens (NVIDIAConfig.max_tokens self);
                 payload_top_p := NVIDIAConfig.top_p self |} in
            let r := attempts self transport endpoint payload 0
                       (Z.to_nat (NVIDIAConfig.max_retries self)) in
            Z.of_nat (List.length (posts (snd r)))
            <= Z.max 0 (NVIDIAConfig.max_retries self)
            /\ (List.length (sleeps (snd r)) <= List.length (posts (snd r)))%nat
            /\ Forall (fun post =>
                         payload_messages (snd post) = messages
                         /\ payload_top_p (snd post) = NVIDIAConfig.top_p self
                         /\ payload_temperature (snd post)
                            = float_or temperature (NVIDIAConfig.temperature self)
                         /\ (temperature = None \/ temperature = Some 0%float ->
                             payload_temperature (snd post)
                             = NVIDIAConfig.temperature self))
                      (posts (snd r))).
  { intros endpoint model payload r.
    destruct (attempts_posts_bound self transport endpoint payload
                (Z.to_nat (NVIDIAConfig.max_retries self)) 0)
      as (Hn & Hall & Hs).
    fold r in Hn, Hall, Hs.
    split; [lia |]. split; [exact Hs |].
    eapply Forall_impl; [| exact Hall].
    intros post ->. cbn [snd payload payload_messages payload_top_p
                           payload_temperature].
    repeat split. intros [-> | ->]; reflexivity. }
  split; [| split; [| split; [| split]]].
  - unfold result, chat_completion.
    destruct (String.eqb model_type "super"); [apply Hgen |].
    destruct (String.eqb model_type "vl"); [apply Hgen |]. cbn. lia.
  - unfold result, chat_completion.
    destruct (String.eqb model_type "super"); [apply Hgen |].
    destruct (String.eqb model_type "vl"); [apply Hgen |]. cbn. lia.
  - unfold result, chat_completion.
    destruct (String.eqb model_type "super"); [apply Hgen |].
    destruct (String.eqb model_type "vl"); [apply Hgen |]. constructor.
  - intros Hs Hv. unfold result, chat_completion.
    apply String.eqb_neq in Hs, Hv. now rewrite Hs, Hv.
  - intros Hn Hmodel. split; [| reflexivity].
    unfold result, chat_completion.
    replace (Z.to_nat (NVIDIAConfig.max_retries self)) with 0%nat by lia.
    destruct Hmodel as [-> | ->]; reflexivity.
Qed.


(** * The HTTP handlers *)

Module BackendFacts.

Import InterviewAgent Session AgentFacts Backend.

Lemma get_set_same (sessions : Sessions) (key : string) (agent : Agent) :
get (set sessions key agent) key = Some agent.
Proof.
induction sessions as [| [k a] rest IH]; cbn [set get].
- now rewrite String.eqb_refl.
- destruct (String.eqb k key) eqn:E; cbn [get]; rewrite E; [reflexivity | exact IH].
Qed.

Lemma get_set_other (sessions : Sessions) (key other : string) (agent : Agent) :
other <> key ->
get (set sessions key agent) other = get sessions other.
Proof.
intros N. induction sessions as [| [k a] rest IH]; cbn [set get].
- apply String.eqb_neq in N. rewrite String.eqb_sym in N. now rewrite N.
- destruct (String.eqb k key) eqn:E; cbn [get].
  + apply String.eqb_eq in E. subst k.
    assert (F : String.eqb key other = false)
      by (apply String.eqb_neq; congruence).
    now rewrite F.
  + destruct (String.eqb k other); [reflexivity | exact IH].
Qed.

Lemma set_keys (sessions : Sessions) (key : string) (agent : Agent) :
get sessions key <> None ->
map fst (set sessions key agent) = map fst sessions.
Proof.
induction sessions as [| [k a] rest IH]; cbn [set get map fst]; intros H.
- now destruct H.
- destruct (String.eqb k key) eqn:E; cbn [map fst]; [reflexivity |].
  now rewrite IH.
Qed.

Lemma sound_set (sessions : Sessions) (key : string) (agent : Agent) :
sound sessions -> reachable agent -> sound (set sessions key agent).
Proof.
intros Hs Hr other a H.
destruct (String.eqb_spec other key) as [-> | N].
- rewrite get_set_same in H. now injection H as <-.
- rewrite get_set_other in H by exact N. now apply (Hs other).
Qed.

Lemma sound_single (key : string) (agent : Agent) :
reachable agent -> sound [(key, agent)].
Proof.
intros Hr other a H. cbn [get] in H.
destruct (String.eqb key other); [now injection H as <- | discriminate H].
Qed.

Lemma state_of_reachable (self : Agent) :
reachable self ->
get_interview_state self
= Returned {| InterviewState.session_id := session_id self;
              InterviewState.candidate_profile := candidate_profile self;
              InterviewState.job_description := job_description self;
              InterviewState.current_phase := current_phase self;
              InterviewState.total_questions := total_questions self;
              InterviewState.conversation_history := conversation_history self;
              InterviewState.started_at := started_at self;
              InterviewState.status := status self |}.
Proof.
intros Hreach.
destruct (reachable_invariant self Hreach) as (Hp & _).
unfold get_interview_state, InterviewState.new, ge1_le4.
destruct (phase_in_range_cases _ Hp) as [E | [E | [E | E]]];
  rewrite E; reflexivity.
Qed.

(** The response for a reachable agent. *)
Lemma message_response_reachable (session_id : string) (agent : Agent)
  (response_text : option string) :
reachable agent ->
exists phase,
  py_index PHASES (current_phase agent - 1) = Returned phase
  /\ message_response session_id agent response_text
     = Returned
         {| InterviewMessageResponse.session_id := session_id;
            InterviewMessageResponse.message :=
              match response_text with
              | Some (String c rest) => String c rest
              | _ => "Interview completed"%string
              end;
            InterviewMessageResponse.current_phase := current_phase agent;
            InterviewMessageResponse.phase_name := InterviewPhase.name phase;
            InterviewMessageResponse.total_questions := total_questions agent;
            InterviewMessageResponse.interview_complete :=
              match status agent with
              | completed => true
              | _ => false
              end |}.
Proof.
intros Hreach.
destruct (reachable_invariant agent Hreach) as (Hp & _).
unfold message_response. rewrite (state_of_reachable agent Hreach).
cbn [bind InterviewState.current_phase InterviewState.total_questions
       InterviewState.status].
unfold InterviewMessageResponse.new, ge1_le4.
destruct (phase_in_range_cases _ Hp) as [E | [E | [E | E]]];
  rewrite E; eexists; split; reflexivity.
Qed.

End BackendFacts.

Import InterviewAgent Session AgentFacts Backend BackendFacts.

(** X18.  For a known session [send_interview_message] leaves the agent in the
    dictionary as [process_candidate_response] left it; when that call
    raised, the answer is status 500; otherwise the answer carries a
    non-empty message (the generated text when there is one), the phase
    and the total of the agent after the call, and [interview_complete]
    exactly when the agent is completed. *)
Theorem X18_message_endpoint_reports_the_session :
  forall (client : NVIDIAClient) (sessions : Sessions)
         (session_id message : string) (agent : Agent),
    sound sessions ->
    get sessions session_id = Some agent ->
    let result := process_candidate_response client agent message in
    let answer := send_interview_message client sessions session_id message in
    get (fst answer) session_id = Some (fst result)
    /\ sound (fst answer)
    /\ (forall e, snd result = Raised e ->
        snd answer = HTTPException 500 "Failed to process message")
    /\ (forall response_text,
          snd result = Returned response_text ->
          exists response,
            snd answer = Ok response
            /\ InterviewMessageResponse.message response <> ""%string
            /\ (forall text, response_text = Some text -> text <> ""%string ->
                InterviewMessageResponse.message response = text)
            /\ InterviewMessageResponse.current_phase response
               = current_phase (fst result)
            /\ InterviewMessageResponse.total_questions response
               = total_questions (fst result)
            /\ (InterviewMessageResponse.interview_complete response = true
                <-> status (fst result) = completed)).
Proof.
  intros client sessions session_id message agent Hsound Hget result answer.
  assert (Hreach : reachable (fst result)).
  { apply reach_process. now apply (Hsound session_id). }
  assert (Hstored : get (set sessions session_id (fst result)) session_id
                    = Some (fst result)) by apply get_set_same.
  assert (Hsound' : sound (set sessions session_id (fst result)))
    by now apply sound_set.
  unfold answer, send_interview_message. rewrite Hget. fold result.
  destruct (snd result) as [response_text | e] eqn:Hout; cbn [bind].
  - destruct (message_response_reachable session_id (fst result) response_text
                Hreach) as (phase & Hphase & ->).
    cbn [fst snd].
    split; [exact Hstored |]. split; [exact Hsound' |].
    split; [discriminate |].
    intros text0 E. injection E as <-.
    eexists. split; [reflexivity |].
    cbn [InterviewMessageResponse.message InterviewMessageResponse.current_phase
           InterviewMessageResponse.total_questions
           InterviewMessageResponse.interview_complete].
    split; [destruct response_text as [[| c rest] |]; discriminate |].
    split.
    { intros text -> Hne. destruct text; [now destruct Hne | reflexivity]. }
    split; [reflexivity |]. split; [reflexivity |].
    destruct (status (fst result)); split; congruence.
  - cbn [fst snd].
    split; [exact Hstored |]. split; [exact Hsound' |].
    split; [reflexivity | discriminate].
Qed.

Lemma X18_witness :
  get (fst (send_interview_message Example.asking Cases.registry "session-1"
              "My answer."))
    "session-1"
  = Some (fst (process_candidate_response Example.asking
                 (Example.after_turns 3) "My answer.")).
Proof.
  assert (Hsound : sound Cases.registry)
    by (apply sound_single; apply run_reachable, reach_init).
  assert (Hget : get Cases.registry "session-1" = Some (Example.after_turns 3))
    by reflexivity.
  exact (proj1 (X18_message_endpoint_reports_the_session Example.asking
                  Cases.registry "session-1"%string "My answer."%string
                  (Example.after_turns 3) Hsound Hget)).
Defined.

(** X19.  [send_interview_message] changes no other session of the dictionary and
    adds or removes no key; for an unknown session it answers 404 and
    leaves the dictionary as it is, and so does
    [get_interview_status]. *)
Theorem X19_sessions_are_isolated :
  forall (client : NVIDIAClient) (sessions : Sessions)
         (session_id message other : string),
    let answer := send_interview_message client sessions session_id message in
    (other <> session_id -> get (fst answer) other = get sessions other)
    /\ map fst (fst answer) = map fst sessions
    /\ (get sessions session_id = None ->
        answer = (sessions, HTTPException 404 "Interview session not found")
        /\ get_interview_status sessions session_id
           = HTTPException 404 "Interview session not found").
Proof.
  intros client sessions session_id message other answer.
  unfold answer, send_interview_message, get_interview_status.
  destruct (get sessions session_id) as [agent |] eqn:Hget.
  - assert (Hkeys : map fst (set sessions session_id
                               (fst (process_candidate_response client agent
                                       message)))
                    = map fst sessions)
      by (apply set_keys; congruence).
    destruct (response_text <- snd (process_candidate_response client agent message) ;;
              message_response session_id
                (fst (process_candidate_response client agent message))
                response_text); cbn [fst];
      (split; [intros N; now apply get_set_other |]);
      (split; [exact Hkeys | discriminate]).
  - cbn [fst]. repeat split.
Qed.

(** X20.  For a known session [get_interview_status] answers with the status, the
    phase, the total, the length of the transcript and the start time of
    the agent as stored, and never with an error. *)
Theorem X20_status_endpoint_mirrors_the_session :
  forall (sessions : Sessions) (session_id : string) (agent : Agent),
    sound sessions ->
    get sessions session_id = Some agent ->
    get_interview_status sessions session_id
    = Ok {| InterviewStatusResponse.session_id := session_id;
            InterviewStatusResponse.status := status agent;
            InterviewStatusResponse.current_phase := current_phase agent;
            InterviewStatusResponse.total_questions := total_questions agent;
            InterviewStatusResponse.conversation_length :=
              Z.of_nat (List.length (conversation_history agent));
            InterviewStatusResponse.started_at := started_at agent |}.
Proof.
  intros sessions session_id agent Hsound Hget.
  pose proof (Hsound session_id agent Hget) as Hreach.
  destruct (reachable_invariant agent Hreach) as (Hp & _).
  unfold get_interview_status. rewrite Hget.
  rewrite (state_of_reachable agent Hreach). cbn [bind].
  unfold InterviewStatusResponse.new.
  cbn [InterviewState.current_phase InterviewState.status
         InterviewState.total_questions InterviewState.conversation_history
         InterviewState.started_at].
  assert (V : ge1_le4 (current_phase agent) = true)
    by (unfold ge1_le4; lia).
  now rewrite V.
Qed.

Lemma X20_witness :
  get_interview_status Cases.registry "session-1"
  = Ok {| InterviewStatusResponse.session_id := "session-1";
          InterviewStatusResponse.status := status (Example.after_turns 3);
          InterviewStatusResponse.current_phase :=
            current_phase (Example.after_turns 3);
          InterviewStatusResponse.total_questions :=
            total_questions (Example.after_turns 3);
          InterviewStatusResponse.conversation_length :=
            Z.of_nat (List.length (conversation_history (Example.after_turns 3)));
          InterviewStatusResponse.started_at :=
            started_at (Example.after_turns 3) |}.
Proof.
  assert (Hsound : sound Cases.registry)
    by (apply sound_single; apply run_reachable, reach_init).
  assert (Hget : get Cases.registry "session-1" = Some (Example.after_turns 3))
    by reflexivity.
  exact (X20_status_endpoint_mirrors_the_session Cases.registry
           "session-1"%string (Example.after_turns 3) Hsound Hget).
Defined.

(** X21.  [upload_resume] succeeds exactly when the file name ends in [.pdf], the
    job description is not empty, the configuration has a key and the
    analysis returns a profile; it then stores a new agent under the
    identifier it answers with.  A wrong file type or a missing job
    description is answered with status 500, not 400: the 400 raised
    inside the [try] is caught by its last [except] clause.  Status 400
    is answered only for a missing key, and a failed upload leaves the
    dictionary as it is. *)
Theorem X21_upload_answers :
  forall (config : NVIDIAConfig.t) (analysed : Outcome CandidateProfile.t)
         (uuid : string) (now : Z) (sessions : Sessions)
         (filename job_description : option string),
    let answer :=
      upload_resume config analysed uuid now sessions filename job_description in
    ((exists response, snd answer = Ok response)
     <-> exists name text candidate_profile,
           filename = Some name
           /\ endswith name ".pdf" = true
           /\ job_description = Some text
           /\ text <> ""%string
           /\ NVIDIAConfig.validate_config config = Returned true
           /\ analysed = Returned candidate_profile)
    /\ (forall detail,
          snd answer = HTTPException 400 detail ->
          (exists e, NVIDIAConfig.validate_config config = Raised e)
          /\ detail = missing_key_message)
    /\ ((forall name, filename = Some name -> endswith name ".pdf" = false)
        \/ job_description = None \/ job_description = Some ""%string ->
        snd answer = HTTPException 500 "Failed to process resume")
    /\ ((forall response, snd answer <> Ok response) -> fst answer = sessions)
    /\ (forall response,
          snd answer = Ok response ->
          ResumeUploadResponse.session_id response = uuid
          /\ (exists candidate_profile text,
                get (fst answer) uuid
                = Some (init candidate_profile text uuid now))
          /\ (sound sessions -> sound (fst answer))).
Proof.
  intros config analysed uuid now sessions filename job_description answer.
  unfold answer, upload_resume.
  assert (Hvalid : forall b, NVIDIAConfig.validate_config config = Returned b ->
                             b = true).
  { intros b. unfold NVIDIAConfig.validate_config.
    destruct (_ || _); [discriminate | congruence]. }
  destruct filename as [name |].
  2:{ cbn [fst snd]. split; [| split; [| split; [| split]]].
      - split; [intros (r & H); discriminate H
               | intros (n & t & p & H & _); discriminate H].
      - intros detail H. discriminate H.
      - reflexivity.
      - reflexivity.
      - intros r H. discriminate H. }
  destruct (endswith name ".pdf") eqn:Hpdf; cbn [negb].
  2:{ cbn [fst snd]. split; [| split; [| split; [| split]]].
      - split; [intros (r & H); discriminate H |].
        intros (n & t & p & H & Hn & _). injection H as <-. congruence.
      - intros detail H. discriminate H.
      - reflexivity.
      - reflexivity.
      - intros r H. discriminate H. }
  destruct job_description as [[| c text] |].
  1,3: cbn [fst snd]; (split; [| split; [| split; [| split]]]);
    [ split; [intros (r & H); discriminate H |];
      intros (n & t & p & _ & _ & H & Hne & _); try discriminate H;
      injection H as <-; now destruct Hne
    | intros detail H; discriminate H
    | reflexivity
    | reflexivity
    | intros r H; discriminate H ].
  destruct (NVIDIAConfig.validate_config config) as [b |e] eqn:Hconfig.
  2:{ cbn [fst snd]. split; [| split; [| split; [| split]]].
      - split; [intros (r & H); discriminate H |].
        intros (n & t & p & _ & _ & _ & _ & H & _). discriminate H.
      - intros detail H. injection H as <-. split; [now exists e | reflexivity].
      - intros [H | [H | H]]; [| discriminate H | discriminate H].
        specialize (H name eq_refl). congruence.
      - reflexivity.
      - intros r H. discriminate H. }
  pose proof (Hvalid b eq_refl) as ->.
  destruct analysed as [candidate_profile | e].
  2:{ cbn [fst snd]. split; [| split; [| split; [| split]]].
      - split; [intros (r & H); discriminate H |].
        intros (n & t & p & _ & _ & _ & _ & _ & H). discriminate H.
      - intros detail H. discriminate H.
      - reflexivity.
      - reflexivity.
      - intros r H. discriminate H. }
  cbn [fst snd]. split; [| split; [| split; [| split]]].
  - split; [intros _ | intros _; eexists; reflexivity].
    exists name, (String c text), candidate_profile.
    repeat split; try assumption. discriminate.
  - intros detail H. discriminate H.
  - intros [H | [H | H]]; [| discriminate H | discriminate H].
    specialize (H name eq_refl). congruence.
  - intros H. now destruct (H _ eq_refl).
  - intros r H. injection H as <-. split; [reflexivity |]. split.
    + exists candidate_profile, (String c text). apply get_set_same.
    + intros Hs. apply sound_set; [exact Hs | apply reach_init].
Qed.

Module ReportFacts.

Import AssessmentEngine EngineFacts.

Section Library.

Variable json_loads : string -> option json.
Variable float_of_str : string -> option float.
Variable validate_int : json -> option Z.
Variable validate_str : json -> option string.
Variable validate_float : json -> option float.
Variable validate_str_list : json -> option (list string).

Lemma fallback_identity (interview_state : InterviewState.t) :
exists report,
_generate_fallback_report interview_state = Returned report
/\ InterviewReport.valid report = true
/\ InterviewReport.session_id report
   = InterviewState.session_id interview_state
/\ InterviewReport.candidate_name report
   = CandidateProfile.name (InterviewState.candidate_profile interview_state)
/\ InterviewReport.job_title report
   = _extract_job_title (InterviewState.job_description interview_state)
/\ InterviewReport.raw_analysis report = None.
Proof. eexists. repeat split. Qed.

Lemma try_identity (client : NVIDIAClient) (interview_state : InterviewState.t)
(report : InterviewReport.t) :
generate_report_try json_loads float_of_str validate_int validate_str
validate_float validate_str_list client interview_state = Returned report ->
InterviewReport.session_id report = InterviewState.session_id interview_state
/\ InterviewReport.candidate_name report
 = CandidateProfile.name (InterviewState.candidate_profile interview_state)
/\ InterviewReport.job_title report
 = _extract_job_title (InterviewState.job_description interview_state)
/\ exists assessment_data, InterviewReport.raw_analysis report = Some assessment_data.
Proof.
unfold generate_report_try. intros H.
repeat (apply bind_returned in H as (? & ? & H)).
unfold InterviewReport.new in H.
match type of H with
| (if ?t then _ else _) = _ => destruct t; [| discriminate H]
end.
injection H as <-. repeat split. now eexists.
Qed.

Lemma generate_report_returns (client : NVIDIAClient)
(interview_state : InterviewState.t) (candidate_skills : list string) :
exists report,
generate_report json_loads float_of_str validate_int validate_str
  validate_float validate_str_list client interview_state candidate_skills
= Returned report
/\ InterviewReport.valid report = true
/\ InterviewReport.session_id report
   = InterviewState.session_id interview_state
/\ InterviewReport.candidate_name report
   = CandidateProfile.name (InterviewState.candidate_profile interview_state)
/\ InterviewReport.job_title report
   = _extract_job_title (InterviewState.job_description interview_state)
/\ (InterviewReport.raw_analysis report = None
    <-> exists e,
          generate_report_try json_loads float_of_str validate_int
            validate_str validate_float validate_str_list client
            interview_state = Raised e).
Proof.
unfold generate_report.
destruct (generate_report_try json_loads float_of_str validate_int validate_str
          validate_float validate_str_list client interview_state)
as [report | e] eqn:Htry.
- exists report. split; [reflexivity |].
split; [eapply generate_report_try_valid; eassumption |].
destruct (try_identity client interview_state report Htry)
  as (Hs & Hn & Ht & (data & Hraw)).
repeat split; try assumption.
all: first [intros Hnone; congruence | intros (e & He); discriminate He].
- destruct (fallback_identity interview_state)
  as (report & Hf & Hv & Hs & Hn & Ht & Hraw).
exists report. repeat split; try assumption.
all: intros _; first [now exists e | exact Hraw].
Qed.

End Library.

End ReportFacts.

Section ReportEndpoint.

Import AssessmentEngine ReportFacts.

Variable json_loads : string -> option json.
Variable float_of_str : string -> option float.
Variable validate_int : json -> option Z.
Variable validate_str : json -> option string.
Variable validate_float : json -> option float.
Variable validate_str_list : json -> option (list string).

(** X22.  The report [generate_report] returns, taken from the model's document
  or the fallback, carries the session identifier and the candidate's
  name of the interview state and the title extracted from its job
  description; it has no raw analysis exactly when the fallback was
  used. *)
Theorem X22_report_identity_comes_from_the_session :
forall (client : NVIDIAClient) (interview_state : InterviewState.t)
       (candidate_skills : list string),
  exists report,
    generate_report json_loads float_of_str validate_int validate_str
      validate_float validate_str_list client interview_state candidate_skills
    = Returned report
    /\ InterviewReport.session_id report
       = InterviewState.session_id interview_state
    /\ InterviewReport.candidate_name report
       = CandidateProfile.name (InterviewState.candidate_profile interview_state)
    /\ InterviewReport.job_title report
       = _extract_job_title (InterviewState.job_description interview_state)
    /\ (InterviewReport.raw_analysis report = None
        <-> exists e,
              generate_report_try json_loads float_of_str validate_int
                validate_str validate_float validate_str_list client
                interview_state = Raised e).
Proof.
intros client interview_state candidate_skills.
destruct (generate_report_returns json_loads float_of_str validate_int
            validate_str validate_float validate_str_list client
            interview_state candidate_skills)
  as (report & Hr & _ & Hs & Hn & Ht & Hraw).
exists report. repeat split; try assumption; apply Hraw.
Qed.

(** X23.  For a known session and a configuration with a key,
  [generate_interview_report] answers with a valid report of that
  session and that candidate, whatever the service and the parsers do;
  without a key it answers status 500. *)
Theorem X23_report_endpoint_always_answers :
forall (config : NVIDIAConfig.t) (client : NVIDIAClient)
       (sessions : Sessions) (session_id : string) (agent : Agent),
  sound sessions ->
  get sessions session_id = Some agent ->
  (NVIDIAConfig.validate_config config = Returned true ->
   exists report,
     generate_interview_report json_loads float_of_str validate_int
       validate_str validate_float validate_str_list config client sessions
       session_id = Ok report
     /\ InterviewReport.valid report = true
     /\ InterviewReport.session_id report = InterviewAgent.session_id agent
     /\ InterviewReport.candidate_name report
        = CandidateProfile.name (candidate_profile agent))
  /\ ((exists e, NVIDIAConfig.validate_config config = Raised e) ->
      generate_interview_report json_loads float_of_str validate_int
        validate_str validate_float validate_str_list config client sessions
        session_id = HTTPException 500 "Failed to generate report").
Proof.
intros config client sessions session_id agent Hsound Hget.
pose proof (Hsound session_id agent Hget) as Hreach.
unfold generate_interview_report. rewrite Hget.
rewrite (state_of_reachable agent Hreach). cbn [bind].
split.
- intros Hconfig. rewrite Hconfig. cbn [bind].
  match goal with
  | |- context [generate_report _ _ _ _ _ _ client ?st ?skills] =>
      destruct (generate_report_returns json_loads float_of_str validate_int
                  validate_str validate_float validate_str_list client st
                  skills)
        as (report & -> & Hv & Hs & Hn & _)
  end.
  exists report. repeat split; assumption.
- intros (e & He). rewrite He. reflexivity.
Qed.

End ReportEndpoint.

Lemma X23_witness :
  exists report,
    generate_interview_report Example.no_json Example.no_float
      Example.strict_int Example.strict_str Example.strict_float
      Example.strict_str_list Cases.config Example.failing Cases.registry
      "session-1"
    = Ok report
    /\ InterviewReport.valid report = true.
Proof.
  assert (Hsound : sound Cases.registry)
    by (apply sound_single; apply run_reachable, reach_init).
  assert (Hget : get Cases.registry "session-1" = Some (Example.after_turns 3))
    by reflexivity.
  assert (Hconfig : NVIDIAConfig.validate_config Cases.config = Returned true)
    by (vm_compute; reflexivity).
  destruct (proj1 (X23_report_endpoint_always_answers Example.no_json
                     Example.no_float Example.strict_int Example.strict_str
                     Example.strict_float Example.strict_str_list
                     Cases.config Example.failing Cases.registry
                     "session-1"%string (Example.after_turns 3) Hsound Hget)
             Hconfig)
    as (report & Hok & Hvalid & _).
  exists report. split; [exact Hok | exact Hvalid].
Defined.
